(** * ptforeximf: the auth/profile gateway and the admin console

    A shallow embedding of [src/services/authService.ts] and of the admin
    console component ([AdminPanel]), with the properties the specification
    states about them.

    Conventions of the embedding.
    - A JavaScript value read from an untyped row ([any]) is a [JS.Val].
    - A JavaScript object used as a dictionary (a profile row, the [updates]
      object of [updateUserInfo]) is a [gmap string JS.Val]; reading a key
      that is absent gives [undefined].
    - Strings are sequences of ASCII code units; [toLowerCase] and [trim]
      are the ASCII restrictions of the ECMAScript operations.
    - A number keeps the exact decimal value that was written or parsed;
      rounding to binary64 is not modelled and [-0] is identified with [0].
    - Asynchronous code is a tree of remote calls ([Prog]); an awaited call
      either yields its response or rejects with an [Error]. *)

From Stdlib Require Import ZArith List Bool Ascii String Lia.
From stdpp Require Import base option list strings gmap fin_maps.

Local Open Scope string_scope.
Local Open Scope Z_scope.

(** ** JavaScript values *)

Module JS.

(** A JavaScript number: [NaN], the two infinities, or the decimal
    [mantissa * 10 ^ exponent]. *)
Inductive Number : Type :=
| NaN
| Infinity (negative : bool)
| Dec (mantissa exponent : Z).

Definition ofZ (z : Z) : Number := Dec z 0.

(** The global [isNaN] on a value that is already a number. *)
Definition isNaN (n : Number) : bool :=
  match n with
  | NaN => true
  | _ => false
  end.

Inductive Val : Type :=
| Undefined
| Null
| Boolean (b : bool)
| Num (n : Number)
| Str (s : string).

(** [ToBoolean]: [undefined], [null], [false], [0], [NaN] and the empty
    string are falsy, every other value is truthy. *)
Definition truthy (v : Val) : bool :=
  match v with
  | Undefined | Null => false
  | Boolean b => b
  | Num NaN => false
  | Num (Infinity _) => true
  | Num (Dec m _) => negb (m =? 0)
  | Str s => negb (String.eqb s "")
  end.

(** [a || b] *)
Definition or (a b : Val) : Val := if truthy a then a else b.

(** An optional string property ([email?: string]) read as a value. *)
Definition ofOptString (o : option string) : Val :=
  match o with
  | Some s => Str s
  | None => Undefined
  end.

(** An object used as a dictionary, and the read [o.k]. *)
Abbreviation Obj := (gmap string Val).

Definition get (o : Obj) (k : string) : Val := default Undefined (o !! k).

(** An [Error] object; only [message] is ever read by the program. *)
Record Error : Type := mkError { message : string }.

Definition TypeError (msg : string) : Error := mkError msg.

#[global] Instance Number_eq_dec : EqDecision Number.
Proof. solve_decision. Defined.

#[global] Instance Val_eq_dec : EqDecision Val.
Proof. solve_decision. Defined.

End JS.

(** ** Strings *)

Module Str.

Definition is_upper (c : ascii) : bool :=
  ((65 <=? nat_of_ascii c) && (nat_of_ascii c <=? 90))%nat.

Definition lower_char (c : ascii) : ascii :=
  if is_upper c then ascii_of_nat (nat_of_ascii c + 32) else c.

(** [s.toLowerCase()] on a string of ASCII characters: the letters [A]
    to [Z] become [a] to [z], every other character stays. *)
Fixpoint toLowerCase (s : string) : string :=
  match s with
  | EmptyString => EmptyString
  | String c r => String (lower_char c) (toLowerCase r)
  end.

(** [hay.startsWith(needle)] *)
Fixpoint startsWith (needle hay : string) : bool :=
  match needle, hay with
  | EmptyString, _ => true
  | String _ _, EmptyString => false
  | String a n, String b h => Ascii.eqb a b && startsWith n h
  end.

(** [hay.includes(needle)] *)
Fixpoint includes (hay needle : string) : bool :=
  startsWith needle hay
  || match hay with
     | EmptyString => false
     | String _ h => includes h needle
     end.

(** White space and line terminators of the ASCII range: TAB, LF, VT, FF,
    CR and SP. *)
Definition is_space (c : ascii) : bool :=
  let n := nat_of_ascii c in
  ((9 <=? n) && (n <=? 13) || (n =? 32))%nat.

Fixpoint trimStart (s : string) : string :=
  match s with
  | EmptyString => EmptyString
  | String c r => if is_space c then trimStart r else s
  end.

(** Drops the trailing white space: a character is kept when it is not a
    space or when something is kept after it. *)
Fixpoint trimEnd (s : string) : string :=
  match s with
  | EmptyString => EmptyString
  | String c r =>
      match trimEnd r with
      | EmptyString => if is_space c then EmptyString else String c EmptyString
      | r' => String c r'
      end
  end.

(** [s.trim()] *)
Definition trim (s : string) : string := trimEnd (trimStart s).

(** [s.split(sep)] for a separator of one character. *)
Fixpoint split (sep : ascii) (s : string) : list string :=
  match s with
  | EmptyString => [EmptyString]
  | String c r =>
      if Ascii.eqb c sep then EmptyString :: split sep r
      else match split sep r with
           | [] => [String c EmptyString]
           | p :: ps => String c p :: ps
           end
  end.

(** No character of [s] is [c]. *)
Fixpoint lacks (c : ascii) (s : string) : bool :=
  match s with
  | EmptyString => true
  | String d r => negb (Ascii.eqb d c) && lacks c r
  end.

End Str.

(** ** Asynchronous programs

    An [async] function is a tree: it returns, throws, or performs a call
    [c] and continues with what the awaited promise settles to, the
    response ([inr]) or the rejection ([inl]). *)

Section Programs.

Context {Call : Type} {Resp : Call -> Type}.

Inductive Prog (A : Type) : Type :=
| Ret (a : A)
| Throw (e : JS.Error)
| Vis (c : Call) (k : JS.Error + Resp c -> Prog A).

Arguments Ret {A} a.
Arguments Throw {A} e.
Arguments Vis {A} c k.

Fixpoint bind {A B : Type} (p : Prog A) (f : A -> Prog B) : Prog B :=
  match p with
  | Ret a => f a
  | Throw e => Throw e
  | Vis c k => Vis c (fun r => bind (k r) f)
  end.

(** [await c]: a rejected promise is rethrown at the [await]. *)
Definition await (c : Call) : Prog (Resp c) :=
  Vis c (fun r => match r with
                  | inl e => Throw e
                  | inr x => Ret x
                  end).

(** A call whose result is not used: a synchronous browser call, or a
    promise that is not awaited (whatever it settles to is dropped). *)
Definition perform (c : Call) : Prog unit := Vis c (fun _ => Ret tt).

(** [try { p } catch (e) { h e }] *)
Fixpoint try_catch {A : Type} (p : Prog A) (h : JS.Error -> Prog A) : Prog A :=
  match p with
  | Ret a => Ret a
  | Throw e => h e
  | Vis c k => Vis c (fun r => try_catch (k r) h)
  end.

(** How a program ends. *)
Inductive Outcome (A : Type) : Type :=
| Returned (a : A)
| Thrown (e : JS.Error).

Arguments Returned {A} a.
Arguments Thrown {A} e.

(** The environment answers every call from its current state [W]; nothing
    is assumed about how. *)
Definition Handler (W : Type) : Type :=
  forall c : Call, W -> (JS.Error + Resp c) * W.

Record Run (A W : Type) : Type := mkRun {
  outcome : Outcome A;
  world : W;
  calls : list Call
}.

Arguments mkRun {A W} outcome world calls.
Arguments outcome {A W} r.
Arguments world {A W} r.
Arguments calls {A W} r.

(** Runs [p] against the environment [h] from the state [w]: the outcome,
    the final state and the calls performed, in order. *)
Fixpoint run {A W : Type} (h : Handler W) (p : Prog A) (w : W) : Run A W :=
  match p with
  | Ret a => mkRun (Returned a) w []
  | Throw e => mkRun (Thrown e) w []
  | Vis c k =>
      let (r, w') := h c w in
      let rest := run h (k r) w' in
      mkRun (outcome rest) (world rest) (c :: calls rest)
  end.

End Programs.

Arguments Prog {Call} Resp A.
Arguments Ret {Call Resp A} a.
Arguments Throw {Call Resp A} e.
Arguments Vis {Call Resp A} c k.
Arguments Returned {A} a.
Arguments Thrown {A} e.
Arguments Handler {Call} Resp W.
Arguments mkRun {Call A W} outcome world calls.
Arguments outcome {Call A W} r.
Arguments world {Call A W} r.
Arguments calls {Call A W} r.

#[global] Instance Prog_ret {Call} {Resp : Call -> Type} : MRet (Prog Resp) :=
  fun _ a => Ret a.
#[global] Instance Prog_bind {Call} {Resp : Call -> Type} : MBind (Prog Resp) :=
  fun _ _ f p => bind p f.

(** ** The auth/profile gateway: [src/services/authService.ts] *)

Module AuthService.

(** The user object of the account service: [id] and the optional [email]. *)
Record AuthUser : Type := mkAuthUser {
  au_id : string;
  au_email : option string
}.

(** What a call of the client library resolves to, [{ data, error }]; for
    [signUp], [data] stands for [data.user]. The two fields are read
    independently by the code and are independent here. *)
Record Response (T : Type) : Type := mkResponse {
  data : option T;
  error : option JS.Error
}.

Arguments mkResponse {T} data error.
Arguments data {T} r.
Arguments error {T} r.

(** The remote calls of the functions below, with the arguments the code
    passes. *)
Inductive Call : Type :=
| SignUp (email password : string)
    (* supabase.auth.signUp({ email, password }) *)
| ProfilesUpsert (rows : list JS.Obj)
    (* supabase.from('profiles').upsert(rows).select().single() *)
| ProfilesInsert (rows : list JS.Obj)
    (* supabase.from('profiles').insert(rows).select().single() *)
| ProfilesSelect
    (* supabase.from('profiles').select('*') *)
| ProfilesUpdate (updates : JS.Obj) (id : JS.Val).
    (* supabase.from('profiles').update(updates).eq('id', id) *)

Definition Resp (c : Call) : Type :=
  match c with
  | SignUp _ _ => Response AuthUser
  | ProfilesUpsert _ => Response JS.Obj
  | ProfilesInsert _ => Response JS.Obj
  | ProfilesSelect => Response (list JS.Obj)
  | ProfilesUpdate _ _ => Response unit
  end.

Abbreviation Async := (Prog Resp).

(** The [User] object literal. Its fields are copied from rows of type
    [any], so each holds whatever value the row had. *)
Module User.
Record t : Type := mk {
  id : JS.Val;
  email : JS.Val;
  fullName : JS.Val;
  username : JS.Val;
  phoneNumber : JS.Val;
  isAdmin : JS.Val;
  isVerified : JS.Val;
  balance : JS.Val;
  notifications : list JS.Obj;
  profilePictureUrl : JS.Val
}.
End User.

(** The object literal of [mapProfileToUser], for a [profile] that is an
    object. *)
Definition profile_user (profile : JS.Obj) (authUser : AuthUser) : User.t :=
  {|
    User.id := JS.Str (au_id authUser);
    User.email :=
      JS.or (JS.or (JS.get profile "email") (JS.ofOptString (au_email authUser)))
            (JS.Str "");
    User.fullName := JS.or (JS.get profile "full_name") (JS.Str "");
    User.username := JS.or (JS.get profile "username") (JS.Str "");
    User.phoneNumber := JS.or (JS.get profile "phone_number") (JS.Str "");
    User.isAdmin := JS.or (JS.get profile "is_admin") (JS.Boolean false);
    User.isVerified := JS.or (JS.get profile "is_verified") (JS.Boolean false);
    User.balance := JS.or (JS.get profile "balance") (JS.Num (JS.ofZ 0));
    User.notifications := [];
    User.profilePictureUrl := JS.get profile "profile_picture_url"
  |}.

(** [mapProfileToUser(profile, authUser)]; [profile] is [null] when the
    query gave no row, and reading a property of [null] throws. *)
Definition mapProfileToUser (profile : option JS.Obj) (authUser : AuthUser)
  : Async User.t :=
  match profile with
  | None => Throw (JS.TypeError "Cannot read properties of null (reading 'email')")
  | Some profile => Ret (profile_user profile authUser)
  end.

(** [{ user, error }], the result of [login] and [register]. *)
Record AuthResult : Type := mkAuthResult {
  user : option User.t;
  err : option string
}.

(** The argument of [register]. *)
Record RegisterData : Type := mkRegisterData {
  rd_email : string;
  rd_fullName : string;
  rd_phoneNumber : string;
  rd_password : string
}.

(** [s.split('@')[0]]: the element at index 0, [undefined] past the end. *)
Definition split_at_0 (s : string) : option string := head (Str.split "@" s).

(** [x.toLowerCase()] on the result of an index: throws on [undefined]. *)
Definition toLowerCase_of (x : option string) : Async string :=
  match x with
  | Some s => Ret (Str.toLowerCase s)
  | None =>
      Throw (JS.TypeError "Cannot read properties of undefined (reading 'toLowerCase')")
  end.

(** The row [register] upserts. *)
Definition register_row (userId username : string) (userData : RegisterData)
  : JS.Obj :=
  <["id" := JS.Str userId]>
  (<["email" := JS.Str (rd_email userData)]>
  (<["full_name" := JS.Str (rd_fullName userData)]>
  (<["username" := JS.Str username]>
  (<["phone_number" := JS.Str (rd_phoneNumber userData)]>
  (<["is_admin" := JS.Boolean false]>
  (<["is_verified" := JS.Boolean false]>
  (<["balance" := JS.Num (JS.ofZ 13000000)]> ∅))))))).

Definition register (userData : RegisterData) : Async AuthResult :=
  try_catch
    (authResp ← await (SignUp (rd_email userData) (rd_password userData));
     match error authResp with
     | Some authError => Ret (mkAuthResult None (Some (JS.message authError)))
     | None =>
         match data authResp with
         | None => Ret (mkAuthResult None (Some "Gagal membuat akun."))
         | Some authUser =>
             let userId := au_id authUser in
             username ← toLowerCase_of (split_at_0 (rd_email userData));
             profileResp ←
               await (ProfilesUpsert [register_row userId username userData]);
             match error profileResp with
             | Some _ =>
                 Ret (mkAuthResult None
                        (Some "Autentikasi sukses, tapi profil gagal disimpan."))
             | None =>
                 u ← mapProfileToUser (data profileResp) authUser;
                 Ret (mkAuthResult (Some u) None)
             end
         end
     end)
    (fun e => Ret (mkAuthResult None (Some (JS.message e)))).

(** The object [getAllUsers] builds from one row. *)
Definition user_of_row (p : JS.Obj) : User.t :=
  {|
    User.id := JS.get p "id";
    User.email := JS.or (JS.get p "email") (JS.Str "");
    User.fullName := JS.get p "full_name";
    User.username := JS.get p "username";
    User.phoneNumber := JS.get p "phone_number";
    User.isAdmin := JS.get p "is_admin";
    User.isVerified := JS.get p "is_verified";
    User.balance := JS.get p "balance";
    User.notifications := [];
    User.profilePictureUrl := JS.get p "profile_picture_url"
  |}.

Definition getAllUsers : Async (list User.t) :=
  resp ← await ProfilesSelect;
  match error resp with
  | Some _ => Ret []
  | None =>
      match data resp with
      | None => Throw (JS.TypeError "Cannot read properties of null (reading 'map')")
      | Some profiles => Ret (map user_of_row profiles)
      end
  end.

(** [v !== undefined] *)
Definition is_defined (v : JS.Val) : bool :=
  match v with
  | JS.Undefined => false
  | _ => true
  end.

(** [if (c) updates[k] = v] *)
Definition set_if (c : bool) (k : string) (v : JS.Val) (updates : JS.Obj) : JS.Obj :=
  if c then <[k := v]> updates else updates.

(** The [updates] object of [updateUserInfo], after its four conditional
    assignments. *)
Definition updates_of (updatedData : JS.Obj) : JS.Obj :=
  let updates : JS.Obj := ∅ in
  let updates :=
    set_if (JS.truthy (JS.get updatedData "fullName"))
           "full_name" (JS.get updatedData "fullName") updates in
  let updates :=
    set_if (JS.truthy (JS.get updatedData "phoneNumber"))
           "phone_number" (JS.get updatedData "phoneNumber") updates in
  let updates :=
    set_if (JS.truthy (JS.get updatedData "profilePictureUrl"))
           "profile_picture_url" (JS.get updatedData "profilePictureUrl") updates in
  let updates :=
    set_if (is_defined (JS.get updatedData "isVerified"))
           "is_verified" (JS.get updatedData "isVerified") updates in
  updates.

(** [updateUserInfo(updatedData)], a [Partial<User>] as the object it is. *)
Definition updateUserInfo (updatedData : JS.Obj) : Async unit :=
  if negb (JS.truthy (JS.get updatedData "id")) then Ret tt
  else
    _ ← await (ProfilesUpdate (updates_of updatedData) (JS.get updatedData "id"));
    Ret tt.

(** The argument of [adminCreateUser]. *)
Record AdminCreateData : Type := mkAdminCreateData {
  cd_email : string;
  cd_fullName : string;
  cd_phoneNumber : string;
  cd_isAdmin : bool;
  cd_isVerified : bool;
  cd_balance : JS.Number;
  cd_password : string
}.

(** [s.split('@')[0]] as a property value: [undefined] stays [undefined]. *)
Definition index_0_val (x : option string) : JS.Val := JS.ofOptString x.

(** The row [adminCreateUser] inserts. *)
Definition admin_row (userId : string) (userData : AdminCreateData) : JS.Obj :=
  <["id" := JS.Str userId]>
  (<["email" := JS.Str (cd_email userData)]>
  (<["full_name" := JS.Str (cd_fullName userData)]>
  (<["username" := index_0_val (split_at_0 (cd_email userData))]>
  (<["phone_number" := JS.Str (cd_phoneNumber userData)]>
  (<["is_admin" := JS.or (JS.Boolean (cd_isAdmin userData)) (JS.Boolean false)]>
  (<["is_verified" := JS.or (JS.Boolean (cd_isVerified userData)) (JS.Boolean false)]>
  (<["balance" := JS.or (JS.Num (cd_balance userData)) (JS.Num (JS.ofZ 0))]> ∅))))))).

Definition adminCreateUser (userData : AdminCreateData) : Async (option User.t) :=
  try_catch
    (authResp ← await (SignUp (cd_email userData) (cd_password userData));
     match error authResp, data authResp with
     | None, Some authUser =>
         let userId := au_id authUser in
         profileResp ← await (ProfilesInsert [admin_row userId userData]);
         u ← mapProfileToUser (data profileResp) authUser;
         Ret (Some u)
     | _, _ => Ret None
     end)
    (fun _ => Ret None).

End AuthService.

(** ** [parseFloat] *)

Module Parse.

Definition digit_of (c : ascii) : option Z :=
  let n := nat_of_ascii c in
  if ((48 <=? n) && (n <=? 57))%nat then Some (Z.of_nat (n - 48)) else None.

(** Reads the longest run of decimal digits at the head of [s], continuing
    the value [acc]: the value, the number of digits read, and the rest. *)
Fixpoint read_digits (s : string) (acc : Z) (count : nat) : Z * nat * string :=
  match s with
  | EmptyString => (acc, count, s)
  | String c r =>
      match digit_of c with
      | Some d => read_digits r (10 * acc + d) (S count)
      | None => (acc, count, s)
      end
  end.

(** An optional sign: whether it is [-], and the rest. *)
Definition read_sign (s : string) : bool * string :=
  match s with
  | String "+" r => (false, r)
  | String "-" r => (true, r)
  | _ => (false, s)
  end.

(** An optional exponent part [e], [e+] or [e-] followed by at least one
    digit; anything else is not part of the number. *)
Definition read_exponent (s : string) : Z :=
  match s with
  | String c r =>
      if (Ascii.eqb c "e" || Ascii.eqb c "E")%bool then
        let (neg, r1) := read_sign r in
        let '(ev, ne, _) := read_digits r1 0 0 in
        if (ne =? 0)%nat then 0 else if neg then - ev else ev
      else 0
  | EmptyString => 0
  end.

(** [parseFloat(s)]: leading white space is skipped, then the longest
    prefix that is a decimal literal is read; [NaN] when there is none. *)
Definition parseFloat (s : string) : JS.Number :=
  let (neg, t) := read_sign (Str.trimStart s) in
  if Str.startsWith "Infinity" t then JS.Infinity neg
  else
    let '(ip, ni, t1) := read_digits t 0 0 in
    let '(m, nf, t2) :=
      match t1 with
      | String "." r => read_digits r ip 0
      | _ => (ip, 0%nat, t1)
      end in
    if (ni + nf =? 0)%nat then JS.NaN
    else JS.Dec (if neg then - m else m) (read_exponent t2 - Z.of_nat nf).

End Parse.

(** ** The admin console: the [AdminPanel] component *)

Module AdminPanel.

Inductive TransactionType : Type := DEPOSIT | WITHDRAWAL | TRANSFER.

Inductive TransactionStatus : Type :=
| PENDING | SUCCESS | REJECTED | CANCELLED | FAILED.

(** Modelled from the spec: the [User] interface of [types.ts], which is
    imported by the component but is not among the source files ("User:
    identifier, email, full name, username, phone number, boolean admin
    flag, boolean verified flag, numeric balance, ..., optional profile
    picture reference"). *)
Module User.
Record t : Type := mk {
  id : string;
  email : string;
  fullName : string;
  username : string;
  phoneNumber : string;
  isAdmin : bool;
  isVerified : bool;
  balance : JS.Number;
  profilePictureUrl : option string
}.
End User.

(** Modelled from the spec: the [Transaction] interface of [types.ts]
    ("Transaction: identifier, owning user identifier, type, amount,
    status, timestamp"). *)
Module Transaction.
Record t : Type := mk {
  id : string;
  userId : string;
  type : TransactionType;
  amount : JS.Number;
  status : TransactionStatus;
  date : string
}.
End Transaction.

(** Modelled from the spec: the [CompanyBankInfo] interface of [types.ts]
    ("bank name, account number, account holder name"). *)
Record CompanyBankInfo : Type := mkBank {
  bankName : string;
  accountNumber : string;
  accountHolderName : string
}.

Inductive Tab : Type := TabUsers | TabTransactions | TabSettings.

Inductive BalanceOperation : Type := OpAdd | OpSet.

Record CreateData : Type := mkCreateData {
  c_fullName : string;
  c_email : string;
  c_phoneNumber : string;
  c_password : string;
  c_balance : string;
  c_isAdmin : bool;
  c_isVerified : bool
}.

(** The component's state: one field per [useState]. *)
Record State : Type := mkState {
  activeTab : Tab;
  bankList : list CompanyBankInfo;
  users : list User.t;
  transactions : list Transaction.t;
  filteredTransactions : list Transaction.t;
  trxSearch : string;
  isBalanceModalOpen : bool;
  selectedUserForBalance : option User.t;
  balanceAmount : string;
  balanceOperation : BalanceOperation;
  isCreateModalOpen : bool;
  createData : CreateData;
  createError : option string
}.

(** *** The transaction search *)

(** [users.find(u => u.id === userId)] *)
Definition find_user (us : list User.t) (userId : string) : option User.t :=
  List.find (fun u => String.eqb (User.id u) userId) us.

(** [owner?.field.toLowerCase().includes(lower)]; [undefined], which is
    falsy, when there is no owner. *)
Definition owner_includes (owner : option User.t) (field : User.t -> string)
    (lower : string) : bool :=
  match owner with
  | Some u => Str.includes (Str.toLowerCase (field u)) lower
  | None => false
  end.

(** The predicate given to [transactions.filter]. *)
Definition trx_matches (us : list User.t) (lower : string) (t : Transaction.t) : bool :=
  Str.includes (Str.toLowerCase (Transaction.id t)) lower
  || Str.includes (Str.toLowerCase (Transaction.userId t)) lower
  || owner_includes (find_user us (Transaction.userId t)) User.email lower
  || owner_includes (find_user us (Transaction.userId t)) User.fullName lower.

(** What the search effect passes to [setFilteredTransactions]. *)
Definition search (trxSearch : string) (ts : list Transaction.t) (us : list User.t)
  : list Transaction.t :=
  if negb (JS.truthy (JS.Str (Str.trim trxSearch))) then ts
  else
    let lower := Str.toLowerCase trxSearch in
    List.filter (trx_matches us lower) ts.

(** The effect itself, run when [trxSearch], [transactions] or [users]
    changed. *)
Definition search_effect (st : State) : State :=
  let filtered := search (trxSearch st) (transactions st) (users st) in
  mkState (activeTab st) (bankList st) (users st) (transactions st) filtered
    (trxSearch st) (isBalanceModalOpen st) (selectedUserForBalance st)
    (balanceAmount st) (balanceOperation st) (isCreateModalOpen st)
    (createData st) (createError st).

(** *** The status selector *)

Record SelectOption : Type := mkOption {
  opt_value : TransactionStatus;
  opt_label : string
}.

(** The last cell of a transaction row: a [<select>] with its current
    value and its options, or a [<span>] with its text. *)
Inductive ActionCell : Type :=
| Select (value : TransactionStatus) (options : list SelectOption)
| Span (text : string).

(** [{cond && <option .../>}] *)
Definition option_if (cond : bool) (o : SelectOption) : list SelectOption :=
  if cond then [o] else [].

Definition is_withdrawal (ty : TransactionType) : bool :=
  match ty with
  | WITHDRAWAL => true
  | _ => false
  end.

Definition is_transfer (ty : TransactionType) : bool :=
  match ty with
  | TRANSFER => true
  | _ => false
  end.

Definition action_cell (t : Transaction.t) : ActionCell :=
  if negb (is_transfer (Transaction.type t)) then
    Select (Transaction.status t)
      ([mkOption PENDING "PENDING";
        mkOption SUCCESS "DONE (Success)";
        mkOption REJECTED "REJECTED"]
       ++ option_if (is_withdrawal (Transaction.type t)) (mkOption CANCELLED "CANCELLED")
       ++ option_if (is_withdrawal (Transaction.type t)) (mkOption FAILED "FAILED"))
  else Span "Auto".

(** *** The balance modal *)

(** What the submit handler calls outside the component. *)
Inductive Call : Type :=
| PreventDefault
    (* e.preventDefault() *)
| Alert (msg : string)
    (* alert(msg) *)
| AdminUpdateUserBalance (userId : string) (amount : JS.Number) (op : BalanceOperation)
    (* adminUpdateUserBalance(userId, amount, operation), from the context *)
| LoadData.
    (* loadData(), not awaited *)

Definition Resp (c : Call) : Type := unit.

Abbreviation Async := (Prog Resp).

(** The state after the three setters at the end of the handler. *)
Definition close_balance_modal (st : State) : State :=
  mkState (activeTab st) (bankList st) (users st) (transactions st)
    (filteredTransactions st) (trxSearch st)
    false None ""
    (balanceOperation st) (isCreateModalOpen st) (createData st) (createError st).

(** [handleBalanceSubmit(e)]: the component's state after the handler. *)
Definition handleBalanceSubmit (st : State) : Async State :=
  _ ← perform PreventDefault;
  match selectedUserForBalance st with
  | None => Ret st
  | Some selected =>
      if negb (JS.truthy (JS.Str (balanceAmount st))) then Ret st
      else
        let amount := Parse.parseFloat (balanceAmount st) in
        if JS.isNaN amount then
          _ ← perform (Alert "Please enter a valid number");
          Ret st
        else
          _ ← await (AdminUpdateUserBalance (User.id selected) amount
                       (balanceOperation st));
          let st' := close_balance_modal st in
          _ ← perform LoadData;
          Ret st'
  end.

(** The balance form is part of the page exactly under this condition
    ([isBalanceModalOpen && selectedUserForBalance]). *)
Definition balance_modal_rendered (st : State) : bool :=
  isBalanceModalOpen st && bool_decide (is_Some (selectedUserForBalance st)).

#[global] Instance TransactionStatus_eq_dec : EqDecision TransactionStatus.
Proof. solve_decision. Defined.

#[global] Instance TransactionType_eq_dec : EqDecision TransactionType.
Proof. solve_decision. Defined.

End AdminPanel.

(** ** The profiles table

    The table lives in the remote service, outside the repository. What
    [update(updates).eq('id', id)] does to it is taken from the service's
    interface: the columns listed in [updates] are set in every row whose
    [id] is the given value, and nothing else changes. *)

Module ProfilesTable.

Definition has_id (idv : JS.Val) (row : JS.Obj) : bool :=
  bool_decide (row !! "id" = Some idv).

Definition update (updates : JS.Obj) (idv : JS.Val) (tbl : list JS.Obj)
  : list JS.Obj :=
  (fun row => if has_id idv row then updates ∪ row else row) <$> tbl.

End ProfilesTable.

(** ** The vocabulary of the specification *)

Module GatewaySpec.
Import AuthService.

(** Account creation fails: the call rejects, reports an error, or gives
    no user. *)
Definition account_creation_failed (r : JS.Error + Response AuthUser) : Prop :=
  match r with
  | inl _ => True
  | inr resp => is_Some (error resp) \/ data resp = None
  end.

(** Account creation succeeds with the user [authUser]. *)
Definition account_created (r : JS.Error + Response AuthUser) (authUser : AuthUser)
  : Prop :=
  exists resp, r = inr resp /\ error resp = None /\ data resp = Some authUser.

(** Profile insertion fails: the call rejects or gives no row. *)
Definition profile_insert_failed (r : JS.Error + Response JS.Obj) : Prop :=
  match r with
  | inl _ => True
  | inr resp => data resp = None
  end.

(** Profile insertion gives the row [row]. *)
Definition profile_inserted (r : JS.Error + Response JS.Obj) (row : JS.Obj) : Prop :=
  exists resp, r = inr resp /\ data resp = Some row.

(** The fields of a [User] that are columns of a profile row, with the
    column each is stored in. *)
Definition field_columns : list (string * string) :=
  [("email", "email"); ("fullName", "full_name"); ("username", "username");
   ("phoneNumber", "phone_number"); ("isAdmin", "is_admin");
   ("isVerified", "is_verified"); ("balance", "balance");
   ("profilePictureUrl", "profile_picture_url")].

(** "A field is included in the remote update if and only if it is present
    and truthy in the partial record." *)
Definition written_iff_truthy (updatedData : JS.Obj) : Prop :=
  forall field col, (field, col) ∈ field_columns ->
    is_Some (updates_of updatedData !! col)
    <-> JS.truthy (JS.get updatedData field) = true.

(** The fields [updateUserInfo] writes when they are truthy. *)
Definition truthy_fields : list (string * string) :=
  [("fullName", "full_name"); ("phoneNumber", "phone_number");
   ("profilePictureUrl", "profile_picture_url")].

(** [loc] is the text of [email] before its first [@]; all of it when
    there is none. *)
Definition before_at (email loc : string) : Prop :=
  Str.lacks "@" loc = true
  /\ (email = loc \/ exists rest, email = loc +:+ String "@" rest).

End GatewaySpec.

Module ConsoleSpec.
Import AdminPanel.

(** [needle] occurs in [hay]. *)
Definition substring (needle hay : string) : Prop :=
  exists pre post, hay = pre +:+ needle +:+ post.

(** [needle] occurs in [hay], letter case aside. *)
Definition ci_substring (needle hay : string) : Prop :=
  substring (Str.toLowerCase needle) (Str.toLowerCase hay).

(** [s] is empty or made of white space only. *)
Fixpoint whitespace_only (s : string) : Prop :=
  match s with
  | EmptyString => True
  | String c r => Str.is_space c = true /\ whitespace_only r
  end.

(** [u] is the owner of [t] among [us]: the first user of the list whose
    id is the owner id of the transaction. *)
Definition owner_of (us : list User.t) (t : Transaction.t) (u : User.t) : Prop :=
  exists before after,
    us = (before ++ u :: after)%list
    /\ User.id u = Transaction.userId t
    /\ forall v, v ∈ before -> User.id v <> Transaction.userId t.

(** No user of [us] has the owner id of [t]. *)
Definition no_owner (us : list User.t) (t : Transaction.t) : Prop :=
  forall v, v ∈ us -> User.id v <> Transaction.userId t.

(** The search string [s] matches the transaction [t]: it occurs, letter
    case aside, in the transaction's id, in its owner's id, or in the
    email or the full name of its owner. *)
Definition matches (us : list User.t) (s : string) (t : Transaction.t) : Prop :=
  ci_substring s (Transaction.id t)
  \/ ci_substring s (Transaction.userId t)
  \/ exists u, owner_of us t u
       /\ (ci_substring s (User.email u) \/ ci_substring s (User.fullName u)).

(** The statuses a cell lets the administrator choose. *)
Definition offered (cell : ActionCell) : list TransactionStatus :=
  match cell with
  | Select _ options => opt_value <$> options
  | Span _ => []
  end.

(** The calls of the balance-update gateway function. *)
Definition is_balance_update (c : Call) : bool :=
  match c with
  | AdminUpdateUserBalance _ _ _ => true
  | _ => false
  end.

End ConsoleSpec.

(** ** Environments and data for the examples *)

Module AuthEnv.
Import AuthService.

(** An environment that answers each kind of call with a fixed response
    and counts the calls it answered. *)
Record Script : Type := mkScript {
  on_signUp : JS.Error + Response AuthUser;
  on_write : JS.Error + Response JS.Obj;
  on_select : JS.Error + Response (list JS.Obj);
  on_update : JS.Error + Response unit
}.

Definition scripted (s : Script) : Handler Resp nat :=
  fun c n =>
    (match c as c0 return JS.Error + Resp c0 with
     | SignUp _ _ => on_signUp s
     | ProfilesUpsert _ => on_write s
     | ProfilesInsert _ => on_write s
     | ProfilesSelect => on_select s
     | ProfilesUpdate _ _ => on_update s
     end, S n).

Definition offline : JS.Error := JS.mkError "Failed to fetch".

Definition all_offline : Script :=
  mkScript (inl offline) (inl offline) (inl offline) (inl offline).

(** The account service refuses the email. *)
Definition email_taken : Script :=
  mkScript (inr (mkResponse None (Some (JS.mkError "User already registered"))))
           (inl offline) (inl offline) (inl offline).

Definition jane_auth : AuthUser := mkAuthUser "u-7" (Some "Jane.Doe@x.com").

Definition jane : RegisterData :=
  mkRegisterData "Jane.Doe@x.com" "Jane Doe" "0812" "secret1".

Definition jane_admin : AdminCreateData :=
  mkAdminCreateData "Jane.Doe@x.com" "Jane Doe" "0812" false true
    (JS.ofZ 5000) "secret1".

(** Both steps succeed and the table service returns the row it was
    given. *)
Definition register_ok : Script :=
  mkScript (inr (mkResponse (Some jane_auth) None))
           (inr (mkResponse (Some (register_row "u-7" "jane.doe" jane)) None))
           (inl offline) (inl offline).

Definition admin_create_ok : Script :=
  mkScript (inr (mkResponse (Some jane_auth) None))
           (inr (mkResponse (Some (admin_row "u-7" jane_admin)) None))
           (inl offline) (inl offline).

(** The account is created and the profile insertion fails. *)
Definition insert_fails : Script :=
  mkScript (inr (mkResponse (Some jane_auth) None))
           (inr (mkResponse None (Some (JS.mkError "duplicate key"))))
           (inl offline) (inl offline).

(** A row whose [is_admin] column is absent and whose [is_verified] and
    [balance] columns are [null]. *)
Definition bare_row : JS.Obj :=
  <["id" := JS.Str "u1"]>
  (<["email" := JS.Str "ann@x.com"]>
  (<["full_name" := JS.Str "Ann"]>
  (<["username" := JS.Str "ann"]>
  (<["phone_number" := JS.Str "0812"]>
  (<["is_verified" := JS.Null]>
  (<["balance" := JS.Null]> ∅)))))).

Definition lists_bare_row : Script :=
  mkScript (inl offline) (inl offline)
           (inr (mkResponse (Some [bare_row]) None)) (inl offline).

(** [{ id: 'u1', isVerified: false }] *)
Definition unverify : JS.Obj :=
  <["id" := JS.Str "u1"]> (<["isVerified" := JS.Boolean false]> ∅).

(** [{ id: 'u1', email: 'new@x.com' }] *)
Definition new_email : JS.Obj :=
  <["id" := JS.Str "u1"]> (<["email" := JS.Str "new@x.com"]> ∅).

(** [{ id: 'u1', fullName: 'Ann Lee', phoneNumber: '' }] *)
Definition rename : JS.Obj :=
  <["id" := JS.Str "u1"]>
  (<["fullName" := JS.Str "Ann Lee"]> (<["phoneNumber" := JS.Str ""]> ∅)).

(** [{ fullName: 'Ann Lee' }], without an id. *)
Definition anonymous : JS.Obj := <["fullName" := JS.Str "Ann Lee"]> ∅.

End AuthEnv.

Module PanelEnv.
Import AdminPanel.

(** The gateway resolves every call; the environment counts them. *)
Definition accepting : Handler Resp nat := fun _ n => (inr tt, S n).

Definition ann : User.t :=
  User.mk "u1" "Ann@x.com" "Ann Lee" "ann" "0812" false true (JS.ofZ 100000) None.

Definition bob : User.t :=
  User.mk "u2" "bob@x.com" "Bob Ray" "bob" "0813" false true (JS.ofZ 0) None.

Definition trx1 : Transaction.t :=
  Transaction.mk "TRX-1" "u1" DEPOSIT (JS.ofZ 5000) PENDING "2024-01-01".

Definition trx2 : Transaction.t :=
  Transaction.mk "TRX-2" "u2" WITHDRAWAL (JS.ofZ 700) PENDING "2024-01-02".

Definition trx3 : Transaction.t :=
  Transaction.mk "TRX-3" "u2" TRANSFER (JS.ofZ 10) SUCCESS "2024-01-03".

Definition blank_form : CreateData :=
  mkCreateData "" "" "" "" "13000000" false true.

(** The page with the balance modal open for [ann] and [amount] typed. *)
Definition editing (amount : string) (op : BalanceOperation) : State :=
  mkState TabUsers [] [ann; bob] [trx1; trx2; trx3] [trx1; trx2; trx3] ""
    true (Some ann) amount op false blank_form None.

(** The page with no modal open. *)
Definition idle : State :=
  mkState TabUsers [] [ann; bob] [trx1; trx2; trx3] [trx1; trx2; trx3] ""
    false None "5000" OpAdd false blank_form None.

End PanelEnv.

(** ** The rest of the gateway: sessions, notifications, balance *)

Module AuthSession.

Abbreviation AuthUser := AuthService.AuthUser.
Abbreviation Response := AuthService.Response.
Abbreviation AuthResult := AuthService.AuthResult.
Abbreviation mkAuthResult := AuthService.mkAuthResult.
Abbreviation User := AuthService.User.t.

(** The remote calls of [login], [logout], [getCurrentUser] and the three
    writers, with the arguments the code passes, and the clock. *)
Inductive Call : Type :=
| SignInWithPassword (email password : string)
    (* supabase.auth.signInWithPassword({ email, password }) *)
| GetSession
    (* supabase.auth.getSession() *)
| SignOut
    (* supabase.auth.signOut() *)
| ProfileById (id : string)
    (* supabase.from('profiles').select('*').eq('id', id).single() *)
| NotificationsOf (userId : string)
    (* supabase.from('notifications').select('*').eq('user_id', userId)
         .order('date', { ascending: false }) *)
| NotificationUpdate (updates : JS.Obj) (notificationId userId : string)
    (* supabase.from('notifications').update(updates)
         .eq('id', notificationId).eq('user_id', userId) *)
| NotificationInsert (rows : list JS.Obj)
    (* supabase.from('notifications').insert(rows) *)
| ProfileUpdate (updates : JS.Obj) (id : string)
    (* supabase.from('profiles').update(updates).eq('id', id) *)
| DateNow.
    (* new Date().toISOString() *)

(** For [SignInWithPassword], [data] stands for [data.user]; for
    [GetSession], for [data.session?.user]. *)
Definition Resp (c : Call) : Type :=
  match c with
  | SignInWithPassword _ _ => Response AuthUser
  | GetSession => Response AuthUser
  | SignOut => Response unit
  | ProfileById _ => Response JS.Obj
  | NotificationsOf _ => Response (list JS.Obj)
  | NotificationUpdate _ _ _ => Response unit
  | NotificationInsert _ => Response unit
  | ProfileUpdate _ _ => Response unit
  | DateNow => string
  end.

Abbreviation Async := (Prog Resp).

(** [mapProfileToUser(profile, authUser)], as a step of the programs of
    this module: the object literal is [AuthService.profile_user]. *)
Definition mapProfileToUser (profile : option JS.Obj) (authUser : AuthUser)
  : Async User :=
  match profile with
  | None => Throw (JS.TypeError "Cannot read properties of null (reading 'email')")
  | Some profile => Ret (AuthService.profile_user profile authUser)
  end.

Definition login (identifier passwordAttempt : string) : Async AuthResult :=
  try_catch
    (authResp ← await (SignInWithPassword identifier passwordAttempt);
     match AuthService.error authResp with
     | Some authError => Ret (mkAuthResult None (Some (JS.message authError)))
     | None =>
         match AuthService.data authResp with
         | None => Ret (mkAuthResult None (Some "User tidak ditemukan."))
         | Some authUser =>
             profileResp ← await (ProfileById (AuthService.au_id authUser));
             match AuthService.error profileResp with
             | Some _ =>
                 Ret (mkAuthResult None (Some "Profil tidak ditemukan di database."))
             | None =>
                 u ← mapProfileToUser (AuthService.data profileResp) authUser;
                 Ret (mkAuthResult (Some u) None)
             end
         end
     end)
    (fun e => Ret (mkAuthResult None (Some (JS.message e)))).

Definition logout : Async unit :=
  _ ← await SignOut;
  Ret tt.

(** [user.notifications = ns] *)
Definition with_notifications (u : User) (ns : list JS.Obj) : User :=
  AuthService.User.mk (AuthService.User.id u) (AuthService.User.email u)
    (AuthService.User.fullName u) (AuthService.User.username u)
    (AuthService.User.phoneNumber u) (AuthService.User.isAdmin u)
    (AuthService.User.isVerified u) (AuthService.User.balance u)
    ns (AuthService.User.profilePictureUrl u).

(** [notifs || []] *)
Definition or_empty (notifs : option (list JS.Obj)) : list JS.Obj :=
  default [] notifs.

Definition getCurrentUser : Async (option User) :=
  try_catch
    (sessionResp ← await GetSession;
     match AuthService.error sessionResp, AuthService.data sessionResp with
     | None, Some sessionUser =>
         profileResp ← await (ProfileById (AuthService.au_id sessionUser));
         match AuthService.data profileResp with
         | None => Ret None
         | Some profileData =>
             notifResp ← await (NotificationsOf (AuthService.au_id sessionUser));
             user ← mapProfileToUser (Some profileData) sessionUser;
             Ret (Some (with_notifications user
                          (or_empty (AuthService.data notifResp))))
         end
     | _, _ => Ret None
     end)
    (fun _ => Ret None).

Definition updateUserNotification (userId notificationId : string) (read : bool)
  : Async unit :=
  _ ← await (NotificationUpdate (<["read" := JS.Boolean read]> ∅)
               notificationId userId);
  Ret tt.

(** The row [addUserNotification] inserts, [date] being the clock's
    reading. *)
Definition notification_row (userId message date : string) : JS.Obj :=
  <["user_id" := JS.Str userId]>
  (<["message" := JS.Str message]>
  (<["date" := JS.Str date]>
  (<["read" := JS.Boolean false]> ∅))).

Definition addUserNotification (userId message : string) : Async unit :=
  date ← await DateNow;
  _ ← await (NotificationInsert [notification_row userId message date]);
  Ret tt.

Definition updateUserBalance (userId : string) (newBalance : JS.Number)
  : Async unit :=
  _ ← await (ProfileUpdate (<["balance" := JS.Num newBalance]> ∅) userId);
  Ret tt.

(** [verifyEmail(email)] *)
Definition verifyEmail (email : string) : Async bool := Ret true.

End AuthSession.

(** ** The rest of the admin console: loading, forms, status changes *)

Module AdminPanelHandlers.
Import AdminPanel.

(** The argument the create-user form gives to [adminCreateUser]. *)
Record NewUser : Type := mkNewUser {
  n_fullName : string;
  n_email : string;
  n_phoneNumber : string;
  n_password : string;
  n_balance : JS.Number;
  n_isAdmin : bool;
  n_isVerified : bool
}.

(** What the handlers call outside the component: the browser and the
    functions of the transaction context. *)
Inductive Call : Type :=
| PreventDefault
    (* e.preventDefault() *)
| ConsoleError (msg : string)
    (* console.error(msg, error) *)
| GetAllUsers
    (* getAllUsers() *)
| GetAllTransactions
    (* getAllTransactions() *)
| UpdateUserVerification (userId : string) (verified : bool)
    (* updateUserVerification(userId, verified) *)
| UpdateDepositStatus (id : string) (status : TransactionStatus)
    (* updateDepositStatus(id, status) *)
| UpdateWithdrawalStatus (id : string) (status : TransactionStatus)
    (* updateWithdrawalStatus(id, status) *)
| AdminCreateUser (userData : NewUser).
    (* adminCreateUser(userData) *)

(** [AdminCreateUser] answers whether the value it resolves to is
    truthy. *)
Definition Resp (c : Call) : Type :=
  match c with
  | GetAllUsers => list User.t
  | GetAllTransactions => list Transaction.t
  | AdminCreateUser _ => bool
  | _ => unit
  end.

Abbreviation Async := (Prog Resp).

Definition set_users (st : State) (us : list User.t) : State :=
  mkState (activeTab st) (bankList st) us (transactions st)
    (filteredTransactions st) (trxSearch st) (isBalanceModalOpen st)
    (selectedUserForBalance st) (balanceAmount st) (balanceOperation st)
    (isCreateModalOpen st) (createData st) (createError st).

Definition set_transactions (st : State) (ts : list Transaction.t) : State :=
  mkState (activeTab st) (bankList st) (users st) ts
    (filteredTransactions st) (trxSearch st) (isBalanceModalOpen st)
    (selectedUserForBalance st) (balanceAmount st) (balanceOperation st)
    (isCreateModalOpen st) (createData st) (createError st).

Definition set_createError (st : State) (e : option string) : State :=
  mkState (activeTab st) (bankList st) (users st) (transactions st)
    (filteredTransactions st) (trxSearch st) (isBalanceModalOpen st)
    (selectedUserForBalance st) (balanceAmount st) (balanceOperation st)
    (isCreateModalOpen st) (createData st) e.

(** The create form as [useState] initialises it and as the handler
    resets it. *)
Definition initial_createData : CreateData :=
  mkCreateData "" "" "" "" "13000000" false true.

(** [setIsCreateModalOpen(false); setCreateData({ ... })] *)
Definition close_create_modal (st : State) : State :=
  mkState (activeTab st) (bankList st) (users st) (transactions st)
    (filteredTransactions st) (trxSearch st) (isBalanceModalOpen st)
    (selectedUserForBalance st) (balanceAmount st) (balanceOperation st)
    false initial_createData (createError st).

(** [loadData()]: one [try] around both fetches. The inner [try_catch]
    keeps the users already set when the second fetch fails; the handler
    of either only logs, so the two together are the single [catch]. *)
Definition loadData (st : State) : Async State :=
  try_catch
    (fetchedUsers ← await GetAllUsers;
     let st1 := set_users st fetchedUsers in
     try_catch
       (fetchedTransactions ← await GetAllTransactions;
        Ret (set_transactions st1 fetchedTransactions))
       (fun _ => _ ← perform (ConsoleError "Error loading admin data"); Ret st1))
    (fun _ => _ ← perform (ConsoleError "Error loading admin data"); Ret st).

(** [user?.isAdmin] *)
Definition is_admin (user : option User.t) : bool :=
  match user with
  | Some u => User.isAdmin u
  | None => false
  end.

(** The effect on [user]: [if (user?.isAdmin) loadData()]. *)
Definition load_effect (user : option User.t) (st : State) : Async State :=
  if is_admin user then loadData st else Ret st.

(** [if (!user || !user.isAdmin) return <div>Access Denied ...</div>] *)
Definition access_denied (user : option User.t) : bool :=
  match user with
  | None => true
  | Some u => negb (User.isAdmin u)
  end.

(** [a || b] on numbers. *)
Definition num_or (a b : JS.Number) : JS.Number :=
  if JS.truthy (JS.Num a) then a else b.

(** [!s] for a string. *)
Definition is_empty (s : string) : bool := negb (JS.truthy (JS.Str s)).

(** The object literal of [handleCreateSubmit]. *)
Definition new_user_of (d : CreateData) : NewUser :=
  mkNewUser (c_fullName d) (c_email d) (c_phoneNumber d) (c_password d)
    (num_or (Parse.parseFloat (c_balance d)) (JS.ofZ 0))
    (c_isAdmin d) (c_isVerified d).

(** [handleCreateSubmit(e)]. [loadData()] is its last statement and is not
    awaited, and [loadData] does not throw: what it does is what follows
    the handler. *)
Definition handleCreateSubmit (st : State) : Async State :=
  _ ← perform PreventDefault;
  let st0 := set_createError st None in
  let d := createData st in
  if is_empty (c_fullName d) || is_empty (c_email d) || is_empty (c_password d) then
    Ret (set_createError st0 (Some "Name, Email, and Password are required."))
  else
    success ← await (AdminCreateUser (new_user_of d));
    if success : bool then loadData (close_create_modal st0)
    else
      Ret (set_createError st0 (Some "Failed to create user. Email might be taken.")).

(** [handleStatusChange(t, newStatus)]; [newStatus] is the value of the
    option chosen in the selector. *)
Definition handleStatusChange (t : Transaction.t) (newStatus : TransactionStatus)
    (st : State) : Async State :=
  if bool_decide (Transaction.status t = newStatus) then Ret st
  else
    let status := newStatus in
    _ ← match Transaction.type t with
        | DEPOSIT => await (UpdateDepositStatus (Transaction.id t) status)
        | WITHDRAWAL => await (UpdateWithdrawalStatus (Transaction.id t) status)
        | TRANSFER => Ret tt
        end;
    loadData st.

(** The [onClick] of the Activate/Deactivate button of the row of [u]. *)
Definition toggleVerification (u : User.t) (st : State) : Async State :=
  _ ← await (UpdateUserVerification (User.id u) (negb (User.isVerified u)));
  loadData st.

(** [openBalanceModal(u)] *)
Definition openBalanceModal (u : User.t) (st : State) : State :=
  mkState (activeTab st) (bankList st) (users st) (transactions st)
    (filteredTransactions st) (trxSearch st)
    true (Some u) "" OpAdd
    (isCreateModalOpen st) (createData st) (createError st).

(** [setBalanceAmount(e.target.value)] and [setBalanceOperation(op)], the
    [onChange] of the amount input and of the two radio buttons. *)
Definition setBalanceAmount (amount : string) (st : State) : State :=
  mkState (activeTab st) (bankList st) (users st) (transactions st)
    (filteredTransactions st) (trxSearch st) (isBalanceModalOpen st)
    (selectedUserForBalance st) amount (balanceOperation st)
    (isCreateModalOpen st) (createData st) (createError st).

Definition setBalanceOperation (op : BalanceOperation) (st : State) : State :=
  mkState (activeTab st) (bankList st) (users st) (transactions st)
    (filteredTransactions st) (trxSearch st) (isBalanceModalOpen st)
    (selectedUserForBalance st) (balanceAmount st) op
    (isCreateModalOpen st) (createData st) (createError st).

(** [getStatusClass(status)] *)
Definition getStatusClass (status : TransactionStatus) : string :=
  match status with
  | SUCCESS => "bg-success/20 text-success"
  | PENDING => "bg-warning/20 text-warning"
  | REJECTED | FAILED | CANCELLED => "bg-danger/20 text-danger"
  end.

(** [getUserDetails(userId)] *)
Definition getUserDetails (us : list User.t) (userId : string) : string :=
  match find_user us userId with
  | Some u => User.fullName u +:+ " (" +:+ User.email u +:+ ")"
  | None => userId
  end.

(** [s.replace(c, '')] for a pattern of one character: the first
    occurrence is removed. *)
Fixpoint remove_first (c : ascii) (s : string) : string :=
  match s with
  | EmptyString => EmptyString
  | String d r => if Ascii.eqb d c then r else String d (remove_first c r)
  end.

(** The two lines of the user cell of a transaction row:
    [getUserDetails(t.userId).split('(')[0]] and
    [getUserDetails(t.userId).split('(')[1]?.replace(')','')], [None]
    standing for [undefined]. *)
Definition user_cell_name (us : list User.t) (t : Transaction.t) : option string :=
  Str.split "(" (getUserDetails us (Transaction.userId t)) !! 0%nat.

Definition user_cell_email (us : list User.t) (t : Transaction.t) : option string :=
  remove_first ")" <$> (Str.split "(" (getUserDetails us (Transaction.userId t)) !! 1%nat).

End AdminPanelHandlers.

(** ** The bank-account list of the settings tab

    [handleBankChange] writes into an object of the list, and the list
    starts as the context's list: the objects are shared. They are kept in
    a store, and a list is a list of references into it. *)

Module BankList.
Import AdminPanel.

Abbreviation Ref := nat.

Inductive BankField : Type := BankName | AccountNumber | AccountHolderName.

(** [bank[field] = value] *)
Definition set_field (field : BankField) (value : string) (bank : CompanyBankInfo)
  : CompanyBankInfo :=
  match field with
  | BankName => mkBank value (accountNumber bank) (accountHolderName bank)
  | AccountNumber => mkBank (bankName bank) value (accountHolderName bank)
  | AccountHolderName => mkBank (bankName bank) (accountNumber bank) value
  end.

(** [bank[field]] *)
Definition get_field (field : BankField) (bank : CompanyBankInfo) : string :=
  match field with
  | BankName => bankName bank
  | AccountNumber => accountNumber bank
  | AccountHolderName => accountHolderName bank
  end.

(** The objects, the component's [bankList] and the context's
    [companyBankInfoList]. *)
Record Banks : Type := mkBanks {
  store : gmap Ref CompanyBankInfo;
  bankList : list Ref;
  companyBankInfoList : list Ref
}.

(** The objects a list of references denotes. *)
Definition view (h : gmap Ref CompanyBankInfo) (l : list Ref)
  : list (option CompanyBankInfo) :=
  (fun r => h !! r) <$> l.

(** The effect on [companyBankInfoList]: [setBankList(companyBankInfoList)]. *)
Definition sync_effect (b : Banks) : Banks :=
  mkBanks (store b) (companyBankInfoList b) (companyBankInfoList b).

(** [handleBankChange(index, field, value)]: the array is copied, the
    object at [index] is written in place; there is no object past the
    end, and writing a property of [undefined] throws. *)
Definition handleBankChange (index : nat) (field : BankField) (value : string)
    (b : Banks) : JS.Error + Banks :=
  let updatedList := bankList b in
  match updatedList !! index with
  | None => inl (JS.TypeError "Cannot set properties of undefined")
  | Some r =>
      inr (mkBanks (alter (set_field field value) r (store b)) updatedList
             (companyBankInfoList b))
  end.

(** A reference that is not in the store, for a new object. *)
Definition new_ref (h : gmap Ref CompanyBankInfo) : Ref := fresh (dom h).

(** [addBank()] *)
Definition addBank (b : Banks) : Banks :=
  let r := new_ref (store b) in
  mkBanks (<[r := mkBank "" "" ""]> (store b)) (bankList b ++ [r])
    (companyBankInfoList b).

(** [l.filter((_, i) => i !== index)], from position [i] on. *)
Fixpoint filter_index_from {A} (i index : nat) (l : list A) : list A :=
  match l with
  | [] => []
  | x :: r =>
      if (i =? index)%nat then filter_index_from (S i) index r
      else x :: filter_index_from (S i) index r
  end.

(** [removeBank(index)] *)
Definition removeBank (index : nat) (b : Banks) : Banks :=
  mkBanks (store b) (filter_index_from 0 index (bankList b)) (companyBankInfoList b).

(** [handleUpdateBankInfo()], the alert aside:
    [setCompanyBankInfoList(bankList)]. *)
Definition handleUpdateBankInfo (b : Banks) : Banks :=
  mkBanks (store b) (bankList b) (bankList b).

End BankList.

(** ** More vocabulary and more data for the examples *)

Module GatewayTerms.
Import AuthService.

(** A value that is neither [undefined] nor [null] nor [NaN]. *)
Definition proper (v : JS.Val) : Prop :=
  v <> JS.Undefined /\ v <> JS.Null /\ v <> JS.Num JS.NaN.

(** A read or write of one profile row fails: the call rejects, reports
    an error, or gives no row. *)
Definition profile_call_failed (r : JS.Error + Response JS.Obj) : Prop :=
  match r with
  | inl _ => True
  | inr resp => is_Some (error resp) \/ data resp = None
  end.

(** Signing in, or reading the session, fails: the call rejects, reports
    an error, or gives no user. *)
Definition no_user (r : JS.Error + Response AuthUser) : Prop :=
  match r with
  | inl _ => True
  | inr resp => is_Some (error resp) \/ data resp = None
  end.

(** Exactly one of [user] and [error] is non-null. *)
Definition user_xor_error (res : AuthResult) : Prop :=
  (is_Some (user res) /\ err res = None) \/ (user res = None /\ is_Some (err res)).

(** A call resolves to [resp] or rejects with [e]: what a function that
    awaits it and looks at nothing ends with. *)
Definition settles_as {T} (r : JS.Error + T) : Outcome unit :=
  match r with
  | inl e => Thrown e
  | inr _ => Returned tt
  end.

End GatewayTerms.

Module SessionEnv.
Import AuthService AuthSession.

(** An environment for the calls of [AuthSession]: a fixed answer for
    each kind of call, and a count of the calls answered. *)
Record Script : Type := mkScript {
  on_signIn : JS.Error + Response AuthUser;
  on_session : JS.Error + Response AuthUser;
  on_profile : JS.Error + Response JS.Obj;
  on_notifications : JS.Error + Response (list JS.Obj);
  on_write : JS.Error + Response unit;
  clock : string
}.

Definition scripted (s : Script) : Handler AuthSession.Resp nat :=
  fun c n =>
    (match c as c0 return JS.Error + AuthSession.Resp c0 with
     | SignInWithPassword _ _ => on_signIn s
     | GetSession => on_session s
     | SignOut => on_write s
     | ProfileById _ => on_profile s
     | NotificationsOf _ => on_notifications s
     | NotificationUpdate _ _ _ => on_write s
     | NotificationInsert _ => on_write s
     | ProfileUpdate _ _ => on_write s
     | DateNow => inr (clock s)
     end, S n).

Definition ann_auth : AuthUser := mkAuthUser "u1" (Some "ann@x.com").

(** A profile row with every column set. *)
Definition ann_row : JS.Obj :=
  <["id" := JS.Str "u1"]>
  (<["email" := JS.Str "ann@x.com"]>
  (<["full_name" := JS.Str "Ann"]>
  (<["username" := JS.Str "ann"]>
  (<["phone_number" := JS.Str "0812"]>
  (<["is_admin" := JS.Boolean true]>
  (<["is_verified" := JS.Boolean true]>
  (<["balance" := JS.Num (JS.ofZ 100000)]> ∅))))))).

(** A profile row with nothing but its id. *)
Definition id_only_row : JS.Obj := <["id" := JS.Str "u1"]> ∅.

Definition note : JS.Obj :=
  <["id" := JS.Str "n1"]> (<["message" := JS.Str "Welcome"]> ∅).

Definition denied : JS.Error := JS.mkError "permission denied".

(** Every call succeeds; the notifications query gives one row. *)
Definition signed_in : Script :=
  mkScript (inr (mkResponse (Some ann_auth) None))
           (inr (mkResponse (Some ann_auth) None))
           (inr (mkResponse (Some ann_row) None))
           (inr (mkResponse (Some [note]) None))
           (inr (mkResponse (Some tt) None))
           "2024-01-01T00:00:00.000Z".

(** The credentials are refused. *)
Definition bad_password : Script :=
  mkScript (inr (mkResponse None (Some (JS.mkError "Invalid login credentials"))))
           (inr (mkResponse None None))
           (inl AuthEnv.offline) (inl AuthEnv.offline) (inl AuthEnv.offline) "".

(** There is no session. *)
Definition signed_out : Script :=
  mkScript (inl AuthEnv.offline) (inr (mkResponse None None))
           (inl AuthEnv.offline) (inl AuthEnv.offline) (inl AuthEnv.offline) "".

(** A session and a profile, and a notifications query that reports an
    error and gives no rows. *)
Definition notifications_denied : Script :=
  mkScript (inr (mkResponse (Some ann_auth) None))
           (inr (mkResponse (Some ann_auth) None))
           (inr (mkResponse (Some ann_row) None))
           (inr (mkResponse None (Some denied)))
           (inr (mkResponse None (Some denied)))
           "".

(** The account is created; the profile upsert reports an error. *)
Definition upsert_denied : AuthEnv.Script :=
  AuthEnv.mkScript (inr (mkResponse (Some AuthEnv.jane_auth) None))
    (inr (mkResponse None (Some denied)))
    (inl AuthEnv.offline)
    (inr (mkResponse None (Some denied))).

(** The profile list cannot be read. *)
Definition list_denied : AuthEnv.Script :=
  AuthEnv.mkScript (inl AuthEnv.offline) (inl AuthEnv.offline)
    (inr (mkResponse None (Some denied))) (inl AuthEnv.offline).

(** The profile list is empty. *)
Definition list_empty : AuthEnv.Script :=
  AuthEnv.mkScript (inl AuthEnv.offline) (inl AuthEnv.offline)
    (inr (mkResponse (Some []) None)) (inl AuthEnv.offline).

End SessionEnv.

Module ConsoleTerms.
Import AdminPanel AdminPanelHandlers.

(** Two states that differ at most in [users] and [transactions]. *)
Definition same_but_data (st st' : State) : Prop :=
  st' = set_transactions (set_users st (users st')) (transactions st').

(** The calls that change the status of a transaction. *)
Definition is_status_update (c : AdminPanelHandlers.Call) : bool :=
  match c with
  | UpdateDepositStatus _ _ | UpdateWithdrawalStatus _ _ => true
  | _ => false
  end.

(** The calls of the create-user gateway function. *)
Definition is_create (c : AdminPanelHandlers.Call) : bool :=
  match c with
  | AdminCreateUser _ => true
  | _ => false
  end.

(** The status update a transaction's type calls for; none for a
    transfer. *)
Definition status_update_of (t : Transaction.t) (s : TransactionStatus)
  : list AdminPanelHandlers.Call :=
  match Transaction.type t with
  | DEPOSIT => [UpdateDepositStatus (Transaction.id t) s]
  | WITHDRAWAL => [UpdateWithdrawalStatus (Transaction.id t) s]
  | TRANSFER => []
  end.

End ConsoleTerms.

Module HandlersEnv.
Import AdminPanel AdminPanelHandlers.

(** An environment for the calls of [AdminPanelHandlers]: a fixed answer
    for each kind of call, and a count of the calls answered. *)
Record Script : Type := mkScript {
  on_users : JS.Error + list User.t;
  on_transactions : JS.Error + list Transaction.t;
  on_create : JS.Error + bool;
  on_write : JS.Error + unit
}.

Definition scripted (s : Script) : Handler AdminPanelHandlers.Resp nat :=
  fun c n =>
    (match c as c0 return JS.Error + AdminPanelHandlers.Resp c0 with
     | PreventDefault => inr tt
     | ConsoleError _ => inr tt
     | GetAllUsers => on_users s
     | GetAllTransactions => on_transactions s
     | UpdateUserVerification _ _ => on_write s
     | UpdateDepositStatus _ _ => on_write s
     | UpdateWithdrawalStatus _ _ => on_write s
     | AdminCreateUser _ => on_create s
     end, S n).

Definition timeout : JS.Error := JS.mkError "timeout".

(** Every call succeeds. *)
Definition healthy : Script :=
  mkScript (inr [PanelEnv.ann]) (inr [PanelEnv.trx1]) (inr true) (inr tt).

(** The users are fetched, the transactions are not. *)
Definition half_loaded : Script :=
  mkScript (inr [PanelEnv.ann]) (inl timeout) (inr true) (inr tt).

(** The gateway cannot create the user. *)
Definition create_refused : Script :=
  mkScript (inr [PanelEnv.ann]) (inr [PanelEnv.trx1]) (inr false) (inr tt).

(** The page with the create-user modal open and the form filled in. *)
Definition creating (d : CreateData) : State :=
  mkState TabUsers [] [PanelEnv.ann; PanelEnv.bob]
    [PanelEnv.trx1; PanelEnv.trx2; PanelEnv.trx3]
    [PanelEnv.trx1; PanelEnv.trx2; PanelEnv.trx3] ""
    false None "" OpAdd true d (Some "stale").

Definition jane_form : CreateData :=
  mkCreateData "Jane Doe" "jane@x.com" "" "secret1" "5000" false true.

Definition no_password_form : CreateData :=
  mkCreateData "Jane Doe" "jane@x.com" "" "" "5000" false true.

Definition bad_balance_form : CreateData :=
  mkCreateData "Jane Doe" "jane@x.com" "" "secret1" "lots" false true.

End HandlersEnv.

Module BankEnv.
Import AdminPanel BankList.

Definition bca : CompanyBankInfo := mkBank "BCA" "123" "PT Forex".
Definition bni : CompanyBankInfo := mkBank "BNI" "456" "PT Forex".

(** Two accounts in the context's list, and the component's list not yet
    set from it. *)
Definition two_banks : Banks :=
  mkBanks (<[0%nat := bca]> (<[1%nat := bni]> ∅)) [] [0%nat; 1%nat].

End BankEnv.

(** ** The balance modal, setter by setter *)

(** [handleBalanceSubmit] once more, with the three state setters at its
    end as steps of their own, to tell which of them ran when the handler
    stops early. *)
Module BalanceModal.
Import AdminPanel.

Inductive Call : Type :=
| PreventDefault
    (* e.preventDefault() *)
| Alert (msg : string)
    (* alert(msg) *)
| AdminUpdateUserBalance (userId : string) (amount : JS.Number) (op : BalanceOperation)
    (* adminUpdateUserBalance(userId, amount, operation), from the context *)
| SetIsBalanceModalOpen (open : bool)
    (* setIsBalanceModalOpen(open) *)
| SetSelectedUserForBalance (selected : option User.t)
    (* setSelectedUserForBalance(selected) *)
| SetBalanceAmount (amount : string)
    (* setBalanceAmount(amount) *)
| LoadData.
    (* loadData(), not awaited *)

Definition Resp (c : Call) : Type := unit.

(** [handleBalanceSubmit(e)] *)
Definition handleBalanceSubmit (st : State) : Prog Resp unit :=
  _ ← perform PreventDefault;
  match selectedUserForBalance st with
  | None => Ret tt
  | Some selected =>
      if negb (JS.truthy (JS.Str (balanceAmount st))) then Ret tt
      else
        let amount := Parse.parseFloat (balanceAmount st) in
        if JS.isNaN amount then
          _ ← perform (Alert "Please enter a valid number");
          Ret tt
        else
          _ ← await (AdminUpdateUserBalance (User.id selected) amount
                       (balanceOperation st));
          _ ← perform (SetIsBalanceModalOpen false);
          _ ← perform (SetSelectedUserForBalance None);
          _ ← perform (SetBalanceAmount "");
          _ ← perform LoadData;
          Ret tt
  end.

Definition is_setter (c : Call) : bool :=
  match c with
  | SetIsBalanceModalOpen _ | SetSelectedUserForBalance _ | SetBalanceAmount _ => true
  | _ => false
  end.

(** What a call of the handler does to the component's state: a setter
    replaces its field, every other call leaves the state as it is. *)
Definition apply_call (st : State) (c : Call) : State :=
  match c with
  | SetIsBalanceModalOpen open =>
      mkState (activeTab st) (bankList st) (users st) (transactions st)
        (filteredTransactions st) (trxSearch st)
        open (selectedUserForBalance st) (balanceAmount st)
        (balanceOperation st) (isCreateModalOpen st) (createData st) (createError st)
  | SetSelectedUserForBalance selected =>
      mkState (activeTab st) (bankList st) (users st) (transactions st)
        (filteredTransactions st) (trxSearch st)
        (isBalanceModalOpen st) selected (balanceAmount st)
        (balanceOperation st) (isCreateModalOpen st) (createData st) (createError st)
  | SetBalanceAmount amount =>
      mkState (activeTab st) (bankList st) (users st) (transactions st)
        (filteredTransactions st) (trxSearch st)
        (isBalanceModalOpen st) (selectedUserForBalance st) amount
        (balanceOperation st) (isCreateModalOpen st) (createData st) (createError st)
  | _ => st
  end.

(** The component's state once the calls [cs] were made from [st]. *)
Definition state_after (st : State) (cs : list Call) : State :=
  foldl apply_call st cs.

(** The call of [AdminPanel.handleBalanceSubmit] a call stands for; the
    setters stand for none. *)
Definition outside (c : Call) : option AdminPanel.Call :=
  match c with
  | PreventDefault => Some AdminPanel.PreventDefault
  | Alert msg => Some (AdminPanel.Alert msg)
  | AdminUpdateUserBalance userId amount op =>
      Some (AdminPanel.AdminUpdateUserBalance userId amount op)
  | LoadData => Some AdminPanel.LoadData
  | _ => None
  end.

(** An environment of [AdminPanel.handleBalanceSubmit] as one of this
    handler: the setters are answered by the component and leave the
    environment alone. *)
Definition with_setters {W} (h : Handler AdminPanel.Resp W) : Handler Resp W :=
  fun c w =>
    match outside c with
    | Some c' => h c' w
    | None => (inr tt, w)
    end.

End BalanceModal.

Module BalanceModalEnv.
Import AdminPanel BalanceModal.

(** The gateway resolves every call; the environment counts the calls. *)
Definition accepting : Handler BalanceModal.Resp nat := fun _ n => (inr tt, S n).

(** The gateway rejects the balance update. *)
Definition rejecting : Handler BalanceModal.Resp nat :=
  fun c n =>
    (match c with
     | AdminUpdateUserBalance _ _ _ => inl HandlersEnv.timeout
     | _ => inr tt
     end, S n).

End BalanceModalEnv.

(** * Properties *)

(** Unfolds one step of a run. *)
Ltac run_step :=
  cbn [run bind mbind Prog_bind await try_catch perform outcome world calls
       mret Prog_ret].

(** ** Strings *)

Module StrFacts.
Import ConsoleSpec.

Example toLowerCase_ascii : Str.toLowerCase "TRX-Ab@Z[" = "trx-ab@z[".
Proof. reflexivity. Qed.

Example split_email : Str.split "@" "Jane.Doe@X.com" = ["Jane.Doe"; "X.com"].
Proof. reflexivity. Qed.

Example split_no_separator : Str.split "@" "jane" = ["jane"].
Proof. reflexivity. Qed.

Example trim_both_ends : Str.trim "  a b  " = "a b".
Proof. reflexivity. Qed.

Lemma string_app_cons (c : ascii) (r s : string) :
  String c r +:+ s = String c (r +:+ s).
Proof. reflexivity. Qed.

Lemma string_app_nil_r (s : string) : s +:+ "" = s.
Proof. induction s as [|c r IH]; [done|]. by rewrite string_app_cons, IH. Qed.

Lemma startsWith_spec (needle hay : string) :
  Str.startsWith needle hay = true <-> exists post, hay = needle +:+ post.
Proof.
  revert hay. induction needle as [|a n IH]; intros hay; cbn.
  - split; [intros _; by exists hay|done].
  - destruct hay as [|b h].
    + split; [done|]. by intros [post H].
    + rewrite andb_true_iff, IH. split.
      * intros [Hab [post ->]]. apply Ascii.eqb_eq in Hab as ->. by exists post.
      * intros [post H]. rewrite string_app_cons in H. injection H as -> ->.
        split; [apply Ascii.eqb_refl|by exists post].
Qed.

(** [includes] decides occurrence. *)
Lemma includes_spec (hay needle : string) :
  Str.includes hay needle = true <-> substring needle hay.
Proof.
  unfold substring. induction hay as [|b h IH]; cbn [Str.includes].
  - rewrite orb_false_r, startsWith_spec. split.
    + intros [post H]. by exists "", post.
    + intros (pre & post & H). destruct pre; [by exists post|done].
  - rewrite orb_true_iff, startsWith_spec, IH. split.
    + intros [[post H]|(pre & post & ->)].
      * by exists "", post.
      * by exists (String b pre), post.
    + intros (pre & post & H). destruct pre as [|c pre].
      * left. by exists post.
      * right. rewrite string_app_cons in H. injection H as -> ->.
        by exists pre, post.
Qed.

Lemma substring_refl (s : string) : substring s s.
Proof. exists "", "". by rewrite string_app_nil_r. Qed.

Lemma ci_substring_refl (s : string) : ci_substring s s.
Proof. apply substring_refl. Qed.

Lemma trimStart_blank (s : string) : Str.trimStart s = "" <-> whitespace_only s.
Proof.
  induction s as [|c r IH]; cbn; [done|].
  destruct (Str.is_space c).
  - rewrite IH. split; [done|by intros [_ ?]].
  - split; [done|by intros [? _]].
Qed.

Lemma trimEnd_blank (s : string) : Str.trimEnd s = "" <-> whitespace_only s.
Proof.
  induction s as [|c r IH]; cbn; [done|].
  destruct (Str.trimEnd r) eqn:E.
  - destruct (Str.is_space c).
    + split; [|done]. intros _. split; [done|]. by apply IH.
    + split; [done|]. by intros [? _].
  - split; [done|]. intros [_ H]. by apply IH in H.
Qed.

(** [s.trim()] is empty exactly for the strings of white space. *)
Lemma trim_blank (s : string) : Str.trim s = "" <-> whitespace_only s.
Proof.
  unfold Str.trim. rewrite trimEnd_blank.
  induction s as [|c r IH]; cbn; [done|].
  destruct (Str.is_space c) eqn:E.
  - rewrite IH. split; [done|by intros [_ ?]].
  - cbn. by rewrite E.
Qed.

Lemma whitespace_only_dec (s : string) : {whitespace_only s} + {~ whitespace_only s}.
Proof.
  induction s as [|c r [IH|IH]]; cbn.
  - by left.
  - destruct (Str.is_space c); [left; by split|right; by intros [? _]].
  - right. by intros [_ ?].
Defined.

Lemma truthy_str (s : string) : JS.truthy (JS.Str s) = false <-> s = "".
Proof. cbn. destruct (String.eqb_spec s ""); cbn; split; done. Qed.

(** The element at index 0 of [s.split('@')] always exists, and is the
    text before the first [@]. *)
Lemma split_at_0_before (s : string) :
  exists loc, AuthService.split_at_0 s = Some loc /\ GatewaySpec.before_at s loc.
Proof.
  unfold AuthService.split_at_0, GatewaySpec.before_at.
  induction s as [|c r IH]; cbn.
  - exists "". eauto.
  - destruct (Ascii.eqb_spec c "@") as [->|Hne].
    + exists "". cbn. split; [done|]. split; [done|]. right. by exists r.
    + destruct IH as (loc & Hh & Hl & Hr).
      destruct (Str.split "@" r) as [|p ps]; [done|]. cbn in Hh. injection Hh as ->.
      exists (String c loc). cbn. split; [done|]. split.
      * rewrite Hl. by destruct (Ascii.eqb_spec c "@").
      * destruct Hr as [->|[rest ->]]; [by left|right]. by exists rest.
Qed.

Lemma filter_none {A} (f : A -> bool) (l : list A) :
  (forall x, x ∈ l -> f x = false) -> List.filter f l = [].
Proof.
  induction l as [|a l IH]; intros H; [done|]. cbn.
  rewrite (H a) by apply list_elem_of_here.
  apply IH. intros x Hx. apply H. by apply list_elem_of_further.
Qed.

Lemma filter_sublist {A} (f : A -> bool) (l : list A) : sublist (List.filter f l) l.
Proof.
  induction l as [|a l IH]; cbn; [constructor|].
  destruct (f a); by constructor.
Qed.

Lemma elem_of_filter_bool {A} (f : A -> bool) (l : list A) (x : A) :
  x ∈ List.filter f l <-> x ∈ l /\ f x = true.
Proof. rewrite !list_elem_of_In. apply filter_In. Qed.

End StrFacts.

(** ** [parseFloat] *)

Module ParseFacts.

Example parseFloat_integer : Parse.parseFloat "5000" = JS.Dec 5000 0.
Proof. reflexivity. Qed.

Example parseFloat_fraction_exponent : Parse.parseFloat " -12.5e3" = JS.Dec (-125) 2.
Proof. reflexivity. Qed.

Example parseFloat_prefix : Parse.parseFloat "12abc" = JS.Dec 12 0.
Proof. reflexivity. Qed.

Example parseFloat_letters : Parse.parseFloat "abc" = JS.NaN.
Proof. reflexivity. Qed.

Example parseFloat_lone_point : Parse.parseFloat "." = JS.NaN.
Proof. reflexivity. Qed.

Example parseFloat_infinity : Parse.parseFloat "-Infinity" = JS.Infinity true.
Proof. reflexivity. Qed.

Lemma parseFloat_empty : Parse.parseFloat "" = JS.NaN.
Proof. reflexivity. Qed.

End ParseFacts.

(** ** The auth/profile gateway *)

Module AuthServiceFacts.
Import AuthService GatewaySpec AuthEnv.

Lemma or_falsy (a b : JS.Val) : JS.truthy a = false -> JS.or a b = b.
Proof. unfold JS.or. by intros ->. Qed.

Lemma or_truthy (a b : JS.Val) : JS.truthy a = true -> JS.or a b = a.
Proof. unfold JS.or. by intros ->. Qed.

(** [mapProfileToUser] replaces falsy flags by [false] and a falsy balance
    by [0]. *)
Lemma profile_user_defaults (profile : JS.Obj) (authUser : AuthUser) :
  let u := profile_user profile authUser in
  (JS.truthy (JS.get profile "is_admin") = false -> User.isAdmin u = JS.Boolean false)
  /\ (JS.truthy (JS.get profile "is_verified") = false ->
      User.isVerified u = JS.Boolean false)
  /\ (JS.truthy (JS.get profile "balance") = false ->
      User.balance u = JS.Num (JS.ofZ 0)).
Proof. cbn. repeat split; apply or_falsy. Qed.

(** [getAllUsers] copies the flags and the balance as they are. *)
Lemma user_of_row_copies (p : JS.Obj) :
  User.isAdmin (user_of_row p) = JS.get p "is_admin"
  /\ User.isVerified (user_of_row p) = JS.get p "is_verified"
  /\ User.balance (user_of_row p) = JS.get p "balance".
Proof. done. Qed.

(** When the query gives rows, [getAllUsers] returns one record per row,
    in order. *)
Lemma run_getAllUsers_rows {W} (h : Handler Resp W) (w w' : W) (rows : list JS.Obj) :
  h ProfilesSelect w = (inr (mkResponse (Some rows) None), w') ->
  run h getAllUsers w = mkRun (Returned (map user_of_row rows)) w' [ProfilesSelect].
Proof. intros H. unfold getAllUsers. run_step. by rewrite H. Qed.

(** When the query reports an error, [getAllUsers] returns the empty
    list. *)
Lemma run_getAllUsers_error {W} (h : Handler Resp W) (w w' : W)
    (rows : option (list JS.Obj)) (e : JS.Error) :
  h ProfilesSelect w = (inr (mkResponse rows (Some e)), w') ->
  run h getAllUsers w = mkRun (Returned []) w' [ProfilesSelect].
Proof. intros H. unfold getAllUsers. run_step. by rewrite H. Qed.

(** C1. The claim: for every row of the profile list, [getAllUsers] makes
    a record with default-safe values, a missing [is_admin] or
    [is_verified] becoming [false] and a missing [balance] becoming [0].
    On a row whose [is_admin] is absent and whose [is_verified] and
    [balance] are [null], [getAllUsers] returns a record that holds
    [undefined], [null] and [null] there, while [mapProfileToUser] gives
    [false], [false] and [0] for the same row. *)
Theorem getAllUsers_keeps_missing_values :
  outcome (run (scripted lists_bare_row) getAllUsers 0%nat)
  = Returned
      [User.mk (JS.Str "u1") (JS.Str "ann@x.com") (JS.Str "Ann") (JS.Str "ann")
         (JS.Str "0812") JS.Undefined JS.Null JS.Null [] JS.Undefined]
  /\ User.isAdmin (profile_user bare_row (mkAuthUser "u1" None)) = JS.Boolean false
  /\ User.isVerified (profile_user bare_row (mkAuthUser "u1" None)) = JS.Boolean false
  /\ User.balance (profile_user bare_row (mkAuthUser "u1" None)) = JS.Num (JS.ofZ 0).
Proof. repeat split; reflexivity. Qed.

(** The content of the [updates] object, column by column. *)
Lemma updates_of_lookup (d : JS.Obj) (col : string) :
  updates_of d !! col =
    if decide (col = "is_verified") then
      if is_defined (JS.get d "isVerified") then Some (JS.get d "isVerified")
      else None
    else if decide (col = "profile_picture_url") then
      if JS.truthy (JS.get d "profilePictureUrl")
      then Some (JS.get d "profilePictureUrl") else None
    else if decide (col = "phone_number") then
      if JS.truthy (JS.get d "phoneNumber") then Some (JS.get d "phoneNumber")
      else None
    else if decide (col = "full_name") then
      if JS.truthy (JS.get d "fullName") then Some (JS.get d "fullName") else None
    else None.
Proof.
  unfold updates_of, set_if.
  repeat case_decide; subst;
    destruct (is_defined _), (JS.truthy (JS.get d "profilePictureUrl")),
      (JS.truthy (JS.get d "phoneNumber")), (JS.truthy (JS.get d "fullName"));
    by simplify_map_eq.
Qed.

(** A table update leaves the columns it does not list as they are, in
    every row. *)
Lemma table_update_frame (updates : JS.Obj) (idv : JS.Val) (tbl : list JS.Obj)
    (col : string) (i : nat) :
  updates !! col = None ->
  (.!! col) <$> (ProfilesTable.update updates idv tbl !! i) = (.!! col) <$> (tbl !! i).
Proof.
  intros Hc. unfold ProfilesTable.update. rewrite list_lookup_fmap.
  destruct (tbl !! i) as [row|]; [|done]. cbn.
  destruct (ProfilesTable.has_id idv row); [|done].
  f_equal. by rewrite lookup_union_r.
Qed.

(** A table update sets the columns it lists in the rows with the id. *)
Lemma table_update_sets (updates : JS.Obj) (idv : JS.Val) (tbl : list JS.Obj)
    (col : string) (v : JS.Val) (i : nat) (row : JS.Obj) :
  updates !! col = Some v ->
  tbl !! i = Some row ->
  row !! "id" = Some idv ->
  (.!! col) <$> (ProfilesTable.update updates idv tbl !! i) = Some (Some v).
Proof.
  intros Hc Hi Hid. unfold ProfilesTable.update. rewrite list_lookup_fmap, Hi. cbn.
  unfold ProfilesTable.has_id. rewrite bool_decide_eq_true_2 by done.
  f_equal. by apply lookup_union_Some_l.
Qed.

(** C2, as stated, fails. For [{ id: 'u1', isVerified: false }] the field
    [isVerified] is falsy, yet the update sent to the table is
    [{ is_verified: false }]; and for [{ id: 'u1', email: 'new@x.com' }]
    the field [email] is present and truthy, yet the update sent is
    empty. *)
Lemma updateUserInfo_writes_false :
  JS.truthy (JS.get unverify "isVerified") = false
  /\ calls (run (scripted all_offline) (updateUserInfo unverify) 0%nat)
     = [ProfilesUpdate (<["is_verified" := JS.Boolean false]> ∅) (JS.Str "u1")]
  /\ JS.truthy (JS.get new_email "email") = true
  /\ calls (run (scripted all_offline) (updateUserInfo new_email) 0%nat)
     = [ProfilesUpdate ∅ (JS.Str "u1")]
  /\ ~ written_iff_truthy unverify
  /\ ~ written_iff_truthy new_email.
Proof.
  do 4 (split; [reflexivity|]). split.
  - intros H. specialize (H "isVerified" "is_verified").
    assert (Hin : ("isVerified", "is_verified") ∈ field_columns).
    { unfold field_columns. rewrite !elem_of_cons. tauto. }
    apply H in Hin. destruct Hin as [Hin _].
    assert (JS.truthy (JS.get unverify "isVerified") = true); [|done].
    apply Hin. rewrite updates_of_lookup. vm_compute. eauto.
  - intros H. specialize (H "email" "email").
    assert (Hin : ("email", "email") ∈ field_columns).
    { unfold field_columns. rewrite !elem_of_cons. tauto. }
    apply H in Hin. destruct Hin as [_ Hin].
    destruct (Hin eq_refl) as [v Hv].
    rewrite updates_of_lookup in Hv. by repeat case_decide.
Qed.

(** C2, amended. For every partial record with a truthy [id],
    [updateUserInfo] performs one call, the update of the rows with that
    id, and its effect on the environment is that call's. The object it
    sends holds [full_name], [phone_number] and [profile_picture_url]
    exactly when [fullName], [phoneNumber] and [profilePictureUrl] are
    truthy, holds [is_verified] exactly when [isVerified] is not
    [undefined] (so [false] is written), and holds no other column; a
    column the object does not hold keeps its stored value in every row. *)
Theorem updateUserInfo_sparse {W} (h : Handler Resp W) (w : W) (updatedData : JS.Obj) :
  JS.truthy (JS.get updatedData "id") = true ->
  let updates := updates_of updatedData in
  let call := ProfilesUpdate updates (JS.get updatedData "id") in
  let r := run h (updateUserInfo updatedData) w in
  calls r = [call]
  /\ world r = snd (h call w)
  /\ (forall field col, (field, col) ∈ truthy_fields ->
      updates !! col =
        if JS.truthy (JS.get updatedData field)
        then Some (JS.get updatedData field) else None)
  /\ updates !! "is_verified" =
       (if is_defined (JS.get updatedData "isVerified")
        then Some (JS.get updatedData "isVerified") else None)
  /\ (forall col,
      col ∉ ["full_name"; "phone_number"; "profile_picture_url"; "is_verified"] ->
      updates !! col = None)
  /\ (forall col tbl i, updates !! col = None ->
      (.!! col) <$> (ProfilesTable.update updates (JS.get updatedData "id") tbl !! i)
      = (.!! col) <$> (tbl !! i)).
Proof.
  intros Hid updates call r.
  assert (Hr : calls r = [call] /\ world r = snd (h call w)).
  { subst r. unfold updateUserInfo. rewrite Hid. cbn [negb]. run_step.
    fold updates. fold call. by destruct (h call w) as [[e|resp] w']. }
  destruct Hr as [Hc Hw]. repeat split; try done.
  - intros field col Hin. unfold truthy_fields in Hin.
    rewrite !elem_of_cons, elem_of_nil in Hin. subst updates.
    rewrite updates_of_lookup.
    destruct Hin as [[= -> ->]|[[= -> ->]|[[= -> ->]|[]]]]; by repeat case_decide.
  - subst updates. rewrite updates_of_lookup. by case_decide.
  - intros col Hcol. rewrite !not_elem_of_cons in Hcol.
    destruct Hcol as (? & ? & ? & ? & _). subst updates.
    rewrite updates_of_lookup. by repeat case_decide.
  - intros col tbl i Hcol. by apply table_update_frame.
Qed.

Lemma updateUserInfo_sparse_witness :
  JS.truthy (JS.get rename "id") = true
  /\ calls (run (scripted all_offline) (updateUserInfo rename) 0%nat)
     = [ProfilesUpdate (<["full_name" := JS.Str "Ann Lee"]> ∅) (JS.Str "u1")].
Proof.
  split; [reflexivity|].
  destruct (updateUserInfo_sparse (scripted all_offline) 0%nat rename eq_refl)
    as [Hc _].
  exact Hc.
Defined.

(** C3. For every call to [register] where the remote account creation
    fails (the call rejects, reports an error such as an email that
    already exists, or gives no user), [register] returns a null user with
    a non-null error, the sign-up is the only remote call it performs, so
    no profile row is upserted or inserted, and the environment is as the
    sign-up left it. *)
Theorem register_failure {W} (h : Handler Resp W) (w : W) (userData : RegisterData) :
  let signUp := SignUp (rd_email userData) (rd_password userData) in
  let r := run h (register userData) w in
  account_creation_failed (fst (h signUp w)) ->
  (exists msg, outcome r = Returned (mkAuthResult None (Some msg)))
  /\ calls r = [signUp]
  /\ world r = snd (h signUp w)
  /\ (forall rows,
      (ProfilesUpsert rows ∉ calls r) /\ (ProfilesInsert rows ∉ calls r)).
Proof.
  intros signUp r Hfail.
  assert (Hr : (exists msg, outcome r = Returned (mkAuthResult None (Some msg)))
               /\ calls r = [signUp] /\ world r = snd (h signUp w)).
  { subst r. unfold register. run_step. fold signUp.
    destruct (h signUp w) as [[e|resp] w']; cbn [fst snd] in *.
    - run_step. eauto.
    - run_step. destruct (error resp) as [e|] eqn:He.
      + run_step. eauto.
      + destruct Hfail as [[x Hx]|Hd]; [congruence|]. rewrite Hd. run_step. eauto. }
  destruct Hr as (Ho & Hc & Hw). repeat split; try done.
  all: rewrite Hc; by intros Hin%list_elem_of_singleton.
Qed.

Lemma register_failure_witness :
  account_creation_failed
    (fst (scripted email_taken (SignUp "Jane.Doe@x.com" "secret1") 0%nat))
  /\ calls (run (scripted email_taken) (register jane) 0%nat)
     = [SignUp "Jane.Doe@x.com" "secret1"].
Proof.
  assert (Hf : account_creation_failed
                 (fst (scripted email_taken (SignUp "Jane.Doe@x.com" "secret1") 0%nat))).
  { cbn. left. eauto. }
  split; [exact Hf|].
  destruct (register_failure (scripted email_taken) 0%nat jane Hf) as (_ & Hc & _).
  exact Hc.
Defined.

Lemma account_cases (r : JS.Error + Response AuthUser) :
  account_creation_failed r \/ exists authUser, account_created r authUser.
Proof.
  destruct r as [e|[[u|] [e|]]]; cbn; eauto.
  right. exists u. eexists. eauto.
Qed.

Lemma insert_cases (r : JS.Error + Response JS.Obj) :
  profile_insert_failed r \/ exists row, profile_inserted r row.
Proof.
  destruct r as [e|[[row|] e]]; cbn; eauto.
  right. exists row. eexists. eauto.
Qed.

Lemma run_adminCreateUser_failed {W} (h : Handler Resp W) (w : W)
    (userData : AdminCreateData) :
  let signUp := SignUp (cd_email userData) (cd_password userData) in
  account_creation_failed (fst (h signUp w)) ->
  run h (adminCreateUser userData) w
  = mkRun (Returned None) (snd (h signUp w)) [signUp].
Proof.
  intros signUp. unfold adminCreateUser. run_step. fold signUp.
  destruct (h signUp w) as [[e|resp] w']; cbn [fst snd account_creation_failed].
  - intros _. by run_step.
  - intros H. run_step. destruct (error resp) as [e|].
    + by destruct (data resp).
    + destruct H as [[? ?]| ->]; done.
Qed.

Lemma run_adminCreateUser_created {W} (h : Handler Resp W) (w : W)
    (userData : AdminCreateData) (authUser : AuthUser) :
  let signUp := SignUp (cd_email userData) (cd_password userData) in
  let insert := ProfilesInsert [admin_row (au_id authUser) userData] in
  let w1 := snd (h signUp w) in
  account_created (fst (h signUp w)) authUser ->
  (profile_insert_failed (fst (h insert w1)) ->
   run h (adminCreateUser userData) w
   = mkRun (Returned None) (snd (h insert w1)) [signUp; insert])
  /\ (forall row, profile_inserted (fst (h insert w1)) row ->
      run h (adminCreateUser userData) w
      = mkRun (Returned (Some (profile_user row authUser))) (snd (h insert w1))
          [signUp; insert]).
Proof.
  intros signUp insert w1. subst w1. unfold adminCreateUser. run_step. fold signUp.
  destruct (h signUp w) as [r1 w']. cbn [fst snd].
  intros (resp & -> & He & Hd). run_step. rewrite He, Hd. run_step. fold insert.
  destruct (h insert w') as [[e2|resp2] w'']; cbn [fst snd]; run_step.
  - split; [done|]. by intros row (? & ? & ?).
  - split.
    + cbn. by intros ->.
    + intros row (? & [= <-] & ->). done.
Qed.

(** C7. For every input, [adminCreateUser] returns, without raising,
    either a mapped user or [null]. It returns [null] when the account
    creation fails (an error, a missing user, a rejected call) and when
    the profile insertion fails (no row, a rejected call): the same value
    in each case, which does not tell the step that failed. When both
    steps succeed it returns the user mapped from the inserted row. *)
Theorem adminCreateUser_null_on_failure {W} (h : Handler Resp W) (w : W)
    (userData : AdminCreateData) :
  let signUp := SignUp (cd_email userData) (cd_password userData) in
  let r := run h (adminCreateUser userData) w in
  (outcome r = Returned None
   \/ exists row authUser, outcome r = Returned (Some (profile_user row authUser)))
  /\ (account_creation_failed (fst (h signUp w)) -> outcome r = Returned None)
  /\ (forall authUser, account_created (fst (h signUp w)) authUser ->
      let insert := ProfilesInsert [admin_row (au_id authUser) userData] in
      let r2 := fst (h insert (snd (h signUp w))) in
      (profile_insert_failed r2 -> outcome r = Returned None)
      /\ (forall row, profile_inserted r2 row ->
          outcome r = Returned (Some (profile_user row authUser)))).
Proof.
  intros signUp r. subst r. split; [|split].
  - destruct (account_cases (fst (h signUp w))) as [Hf|[u Hu]].
    + left. by rewrite run_adminCreateUser_failed.
    + destruct (run_adminCreateUser_created h w userData u Hu) as [Hn Hs].
      destruct (insert_cases
                  (fst (h (ProfilesInsert [admin_row (au_id u) userData])
                          (snd (h signUp w))))) as [Hi|[row Hi]].
      * left. by rewrite Hn.
      * right. exists row, u. by rewrite (Hs row Hi).
  - intros Hf. by rewrite run_adminCreateUser_failed.
  - intros u Hu insert r2.
    destruct (run_adminCreateUser_created h w userData u Hu) as [Hn Hs]. split.
    + intros Hi. by rewrite Hn.
    + intros row Hi. by rewrite (Hs row Hi).
Qed.

(** Both steps succeed: the user mapped from the inserted row. *)
Example adminCreateUser_success :
  outcome (run (scripted admin_create_ok) (adminCreateUser jane_admin) 0%nat)
  = Returned
      (Some (User.mk (JS.Str "u-7") (JS.Str "Jane.Doe@x.com") (JS.Str "Jane Doe")
               (JS.Str "Jane.Doe") (JS.Str "0812") (JS.Boolean false)
               (JS.Boolean true) (JS.Num (JS.Dec 5000 0)) [] JS.Undefined)).
Proof. reflexivity. Qed.

Lemma adminCreateUser_null_on_failure_witness :
  account_created
    (fst (scripted insert_fails (SignUp "Jane.Doe@x.com" "secret1") 0%nat)) jane_auth
  /\ profile_insert_failed
       (fst (scripted insert_fails
               (ProfilesInsert [admin_row "u-7" jane_admin]) 1%nat))
  /\ outcome (run (scripted insert_fails) (adminCreateUser jane_admin) 0%nat)
     = Returned None.
Proof.
  assert (Hc : account_created
                 (fst (scripted insert_fails (SignUp "Jane.Doe@x.com" "secret1") 0%nat))
                 jane_auth).
  { eexists. cbn. eauto. }
  assert (Hi : profile_insert_failed
                 (fst (scripted insert_fails
                         (ProfilesInsert [admin_row "u-7" jane_admin]) 1%nat))).
  { reflexivity. }
  split; [exact Hc|]. split; [exact Hi|].
  destruct (adminCreateUser_null_on_failure (scripted insert_fails) 0%nat jane_admin)
    as (_ & _ & H).
  destruct (H jane_auth Hc) as [Hn _]. exact (Hn Hi).
Defined.

(** The row [register] upserts, column by column. *)
Lemma register_row_lookup (userId username : string) (userData : RegisterData) :
  let row := register_row userId username userData in
  row !! "id" = Some (JS.Str userId)
  /\ row !! "is_admin" = Some (JS.Boolean false)
  /\ row !! "is_verified" = Some (JS.Boolean false)
  /\ row !! "balance" = Some (JS.Num (JS.ofZ 13000000))
  /\ row !! "username" = Some (JS.Str username).
Proof. cbn zeta. unfold register_row. repeat split; by simplify_map_eq. Qed.

(** C8. For every call to [register] that succeeds (it returns a user),
    the calls performed are the sign-up and one upsert of a single profile
    row; whatever the caller supplied, that row has [is_admin = false],
    [is_verified = false] and [balance = 13000000], and its [username] is
    the lowercased text of the email before its first [@]. *)
Theorem register_default_row {W} (h : Handler Resp W) (w : W)
    (userData : RegisterData) (res : AuthResult) (u : User.t) :
  let r := run h (register userData) w in
  outcome r = Returned res ->
  user res = Some u ->
  exists authUser loc row,
    before_at (rd_email userData) loc
    /\ calls r =
         [SignUp (rd_email userData) (rd_password userData); ProfilesUpsert [row]]
    /\ row !! "id" = Some (JS.Str (au_id authUser))
    /\ row !! "is_admin" = Some (JS.Boolean false)
    /\ row !! "is_verified" = Some (JS.Boolean false)
    /\ row !! "balance" = Some (JS.Num (JS.ofZ 13000000))
    /\ row !! "username" = Some (JS.Str (Str.toLowerCase loc)).
Proof.
  intros r. subst r. unfold register. run_step.
  destruct (h _ w) as [[e|resp] w']; run_step; [by intros [= <-]|].
  destruct (error resp) as [e|]; run_step; [by intros [= <-]|].
  destruct (data resp) as [authUser|]; run_step; [|by intros [= <-]].
  destruct (StrFacts.split_at_0_before (rd_email userData)) as (loc & -> & Hloc).
  cbn [toLowerCase_of]. run_step.
  destruct (h _ w') as [[e2|resp2] w'']; run_step; [by intros [= <-]|].
  destruct (error resp2) as [e2|]; run_step; [by intros [= <-]|].
  destruct (data resp2) as [row|]; cbn [mapProfileToUser]; run_step;
    [|by intros [= <-]].
  intros _ _.
  exists authUser, loc, (register_row (au_id authUser) (Str.toLowerCase loc) userData).
  split; [done|]. split; [done|]. apply register_row_lookup.
Qed.

Lemma register_default_row_witness :
  (exists res u,
     outcome (run (scripted register_ok) (register jane) 0%nat) = Returned res
     /\ user res = Some u)
  /\ exists row,
       calls (run (scripted register_ok) (register jane) 0%nat)
       = [SignUp "Jane.Doe@x.com" "secret1"; ProfilesUpsert [row]]
       /\ row !! "balance" = Some (JS.Num (JS.ofZ 13000000)).
Proof.
  split.
  - eexists _, _. split; reflexivity.
  - destruct (register_default_row (scripted register_ok) 0%nat jane
                _ _ eq_refl eq_refl)
      as (authUser & loc & row & _ & Hc & _ & _ & _ & Hb & _).
    exists row. split; [exact Hc|exact Hb].
Defined.

(** The username [register] stores for this email. *)
Example register_username :
  calls (run (scripted register_ok) (register jane) 0%nat)
  = [SignUp "Jane.Doe@x.com" "secret1";
     ProfilesUpsert [register_row "u-7" "jane.doe" jane]].
Proof. reflexivity. Qed.

(** C9. For every partial record whose [id] is absent or falsy,
    [updateUserInfo] returns without performing any remote call and the
    environment, the stored profiles with it, is unchanged. *)
Theorem updateUserInfo_no_id {W} (h : Handler Resp W) (w : W) (updatedData : JS.Obj) :
  JS.truthy (JS.get updatedData "id") = false ->
  run h (updateUserInfo updatedData) w = mkRun (Returned tt) w [].
Proof. intros H. unfold updateUserInfo. by rewrite H. Qed.

Lemma updateUserInfo_no_id_witness :
  JS.truthy (JS.get anonymous "id") = false
  /\ run (scripted all_offline) (updateUserInfo anonymous) 0%nat
     = mkRun (Returned tt) 0%nat [].
Proof.
  split; [reflexivity|].
  apply (updateUserInfo_no_id (scripted all_offline) 0%nat anonymous). reflexivity.
Defined.

End AuthServiceFacts.

(** ** The admin console *)

Module AdminPanelFacts.
Import AdminPanel ConsoleSpec PanelEnv StrFacts.

(** *** The transaction search *)

Lemma search_blank (s : string) (ts : list Transaction.t) (us : list User.t) :
  whitespace_only s -> search s ts us = ts.
Proof. intros H. apply trim_blank in H. unfold search. by rewrite H. Qed.

Lemma search_nonblank (s : string) (ts : list Transaction.t) (us : list User.t) :
  ~ whitespace_only s ->
  search s ts us = List.filter (trx_matches us (Str.toLowerCase s)) ts.
Proof.
  intros H. unfold search. rewrite <- trim_blank in H.
  by destruct (Str.trim s).
Qed.

Lemma owner_includes_spec (o : option User.t) (field : User.t -> string) (s : string) :
  owner_includes o field (Str.toLowerCase s) = true
  <-> exists u, o = Some u /\ ci_substring s (field u).
Proof.
  unfold owner_includes, ci_substring. destruct o as [u|].
  - rewrite includes_spec. split; [eauto|]. by intros (? & [= <-] & ?).
  - split; [done|]. by intros (? & ? & ?).
Qed.

(** [users.find(u => u.id === userId)] gives the first user of the list
    with that id. *)
Lemma find_user_first (us : list User.t) (uid : string) (u : User.t) :
  find_user us uid = Some u
  <-> exists before after,
        us = (before ++ u :: after)%list
        /\ User.id u = uid
        /\ forall v, v ∈ before -> User.id v <> uid.
Proof.
  unfold find_user. induction us as [|v us IH]; cbn.
  - split; [done|]. intros (before & after & H & _). by destruct before.
  - destruct (String.eqb_spec (User.id v) uid) as [Heq|Hne].
    + split.
      * intros [= <-]. exists [], us. split; [done|]. split; [done|].
        intros x Hx. by apply elem_of_nil in Hx.
      * intros (before & after & H & Hu & Hb). destruct before as [|b before].
        -- by injection H as -> _.
        -- injection H as -> _. destruct (Hb b); [apply list_elem_of_here|done].
    + rewrite IH. split.
      * intros (before & after & -> & Hu & Hb). exists (v :: before), after.
        split; [done|]. split; [done|].
        intros x [->|Hx]%elem_of_cons; [done|by apply Hb].
      * intros (before & after & H & Hu & Hb). destruct before as [|b before].
        -- injection H as -> _. done.
        -- injection H as -> ->. exists before, after. split; [done|].
           split; [done|]. intros x Hx. apply Hb. by apply list_elem_of_further.
Qed.

(** It gives nothing exactly when no user of the list has that id. *)
Lemma find_user_none (us : list User.t) (uid : string) :
  find_user us uid = None <-> forall v, v ∈ us -> User.id v <> uid.
Proof.
  unfold find_user. induction us as [|v us IH]; cbn.
  - split; [|done]. intros _ x Hx. by apply elem_of_nil in Hx.
  - destruct (String.eqb_spec (User.id v) uid) as [Heq|Hne].
    + split; [done|]. intros H. destruct (H v); [apply list_elem_of_here|done].
    + rewrite IH. split.
      * intros H x [->|Hx]%elem_of_cons; [done|by apply H].
      * intros H x Hx. apply H. by apply list_elem_of_further.
Qed.

(** The user the console resolves for a transaction is its owner. *)
Lemma find_user_owner (us : list User.t) (t : Transaction.t) (u : User.t) :
  find_user us (Transaction.userId t) = Some u <-> owner_of us t u.
Proof. apply find_user_first. Qed.

Lemma find_user_no_owner (us : list User.t) (t : Transaction.t) :
  find_user us (Transaction.userId t) = None <-> no_owner us t.
Proof. apply find_user_none. Qed.

(** The predicate of the filter decides [matches]. *)
Lemma trx_matches_spec (us : list User.t) (s : string) (t : Transaction.t) :
  trx_matches us (Str.toLowerCase s) t = true <-> matches us s t.
Proof.
  unfold trx_matches, matches.
  rewrite !orb_true_iff, !owner_includes_spec, !includes_spec.
  unfold ci_substring. split.
  - intros [[[H|H]|(u & Hu%find_user_owner & H)]|(u & Hu%find_user_owner & H)];
      eauto 8.
  - intros [H|[H|(u & Hu%find_user_owner & [H|H])]]; eauto 8.
Qed.

(** The search effect replaces the filtered list and nothing else. *)
Lemma search_effect_filtered (st : State) :
  filteredTransactions (search_effect st)
  = search (trxSearch st) (transactions st) (users st)
  /\ transactions (search_effect st) = transactions st
  /\ users (search_effect st) = users st
  /\ trxSearch (search_effect st) = trxSearch st.
Proof. done. Qed.

(** With distinct ids, the user the console resolves for an id is the
    user of the list that has it. *)
Lemma find_user_unique (us : list User.t) (u : User.t) :
  NoDup (User.id <$> us) -> u ∈ us -> find_user us (User.id u) = Some u.
Proof.
  unfold find_user. induction us as [|v us IH]; intros Hnd Hin.
  - by apply elem_of_nil in Hin.
  - cbn in *. apply NoDup_cons in Hnd as [Hv Hnd].
    destruct (String.eqb_spec (User.id v) (User.id u)) as [Heq|Hne].
    + apply elem_of_cons in Hin as [->|Hin]; [done|].
      destruct Hv. rewrite Heq. apply list_elem_of_fmap. eauto.
    + apply elem_of_cons in Hin as [->|Hin]; [done|]. by apply IH.
Qed.

(** With distinct ids, the owner of a transaction is the user of the list
    that has its owner id. *)
Lemma owner_of_unique (us : list User.t) (t : Transaction.t) (u : User.t) :
  NoDup (User.id <$> us) -> u ∈ us -> User.id u = Transaction.userId t ->
  owner_of us t u.
Proof.
  intros Hnd Hin Hid. apply find_user_owner. rewrite <- Hid.
  by apply find_user_unique.
Qed.

(** C5. The transaction search is a filter of the transaction list that
    depends on the search string, the transactions and the users only.
    An empty or whitespace-only search string gives the list unfiltered.
    Any other string gives the transactions it matches (it occurs, letter
    case aside, in the transaction id, the owner id, the owner's email or
    the owner's full name), in their order; when it matches none the
    result is empty. Searching for the id of a transaction of the list,
    or for its owner's email or full name, gives a result that contains
    that transaction; the owner of a transaction is the first user of the
    list whose id is the transaction's owner id, and, the ids of the
    users being distinct, the user of the list that has that id. *)
Theorem search_filters (s : string) (ts : list Transaction.t) (us : list User.t) :
  (whitespace_only s -> search s ts us = ts)
  /\ (~ whitespace_only s ->
      (forall t, t ∈ search s ts us <-> t ∈ ts /\ matches us s t)
      /\ ((forall t, t ∈ ts -> ~ matches us s t) -> search s ts us = []))
  /\ (forall t, t ∈ ts ->
      s = Transaction.id t
      \/ (exists u, owner_of us t u
            /\ (s = User.email u \/ s = User.fullName u)) ->
      t ∈ search s ts us)
  /\ (NoDup (User.id <$> us) ->
      forall t u, t ∈ ts -> u ∈ us -> User.id u = Transaction.userId t ->
        s = User.email u \/ s = User.fullName u ->
        t ∈ search s ts us)
  /\ sublist (search s ts us) ts.
Proof.
  assert (Hfound : forall t, t ∈ ts ->
            s = Transaction.id t
            \/ (exists u, owner_of us t u
                  /\ (s = User.email u \/ s = User.fullName u)) ->
            t ∈ search s ts us).
  { intros t Ht Heq. destruct (whitespace_only_dec s) as [Hs|Hs].
    - by rewrite search_blank.
    - rewrite (search_nonblank _ _ _ Hs), elem_of_filter_bool, trx_matches_spec.
      split; [done|]. unfold matches.
      destruct Heq as [-> |(u & Hu & [-> | ->])].
      + left. apply ci_substring_refl.
      + right; right. exists u. split; [done|]. left. apply ci_substring_refl.
      + right; right. exists u. split; [done|]. right. apply ci_substring_refl. }
  split; [apply search_blank|].
  split; [|split; [exact Hfound|split]].
  - intros Hs. rewrite (search_nonblank _ _ _ Hs). split.
    + intros t. rewrite elem_of_filter_bool. by rewrite trx_matches_spec.
    + intros Hno. apply filter_none. intros t Ht.
      destruct (trx_matches us (Str.toLowerCase s) t) eqn:E; [|done].
      apply trx_matches_spec in E. by destruct (Hno t Ht).
  - intros Hnd t u Ht Hu Hid Heq. apply (Hfound t Ht). right. exists u.
    split; [by apply owner_of_unique|done].
  - destruct (whitespace_only_dec s) as [Hs|Hs].
    + by rewrite search_blank.
    + rewrite (search_nonblank _ _ _ Hs). apply filter_sublist.
Qed.

Lemma search_filters_witness :
  NoDup (User.id <$> [ann; bob])
  /\ trx2 ∈ [trx1; trx2; trx3]
  /\ bob ∈ [ann; bob]
  /\ User.id bob = Transaction.userId trx2
  /\ trx2 ∈ search "bob@x.com" [trx1; trx2; trx3] [ann; bob].
Proof.
  assert (Hnd : NoDup (User.id <$> [ann; bob])).
  { cbn. apply NoDup_cons. split.
    - by intros [= ]%list_elem_of_singleton.
    - apply NoDup_singleton. }
  assert (Hin : trx2 ∈ [trx1; trx2; trx3]).
  { apply list_elem_of_further, list_elem_of_here. }
  assert (Hu : bob ∈ [ann; bob]).
  { apply list_elem_of_further, list_elem_of_here. }
  split; [exact Hnd|]. split; [exact Hin|]. split; [exact Hu|].
  split; [reflexivity|].
  destruct (search_filters "bob@x.com" [trx1; trx2; trx3] [ann; bob])
    as (_ & _ & _ & H & _).
  apply (H Hnd trx2 bob Hin Hu eq_refl). by left.
Defined.

Example search_by_email :
  search "ANN@x.com" [trx1; trx2; trx3] [ann; bob] = [trx1].
Proof. reflexivity. Qed.

Example search_by_name_part :
  search "ray" [trx1; trx2; trx3] [ann; bob] = [trx2; trx3].
Proof. reflexivity. Qed.

Example search_no_match : search "zzz" [trx1; trx2; trx3] [ann; bob] = [].
Proof. reflexivity. Qed.

Example search_spaces :
  search "   " [trx1; trx2; trx3] [ann; bob] = [trx1; trx2; trx3].
Proof. reflexivity. Qed.

(** *** The status selector *)

(** C6. In the transactions tab, a transaction of type TRANSFER is
    rendered with the text "Auto" and no selector; any other transaction
    is rendered with a selector on its current status. The selector
    offers CANCELLED exactly when the type is WITHDRAWAL, and FAILED
    exactly when the type is WITHDRAWAL: a DEPOSIT is offered PENDING,
    SUCCESS and REJECTED only, a WITHDRAWAL those and CANCELLED and
    FAILED. *)
Theorem action_cell_by_type (t : Transaction.t) :
  (Transaction.type t = TRANSFER -> action_cell t = Span "Auto")
  /\ (Transaction.type t <> TRANSFER ->
      exists options, action_cell t = Select (Transaction.status t) options)
  /\ (CANCELLED ∈ offered (action_cell t) <-> Transaction.type t = WITHDRAWAL)
  /\ (FAILED ∈ offered (action_cell t) <-> Transaction.type t = WITHDRAWAL)
  /\ (Transaction.type t = DEPOSIT ->
      offered (action_cell t) = [PENDING; SUCCESS; REJECTED])
  /\ (Transaction.type t = WITHDRAWAL ->
      offered (action_cell t) = [PENDING; SUCCESS; REJECTED; CANCELLED; FAILED]).
Proof.
  unfold action_cell. destruct (Transaction.type t); cbn.
  all: repeat split; try done; eauto.
  all: try (intros H; repeat (apply elem_of_cons in H as [H|H]; [done|]);
            by apply elem_of_nil in H).
  all: intros _; rewrite !elem_of_cons; tauto.
Qed.

Lemma action_cell_by_type_witness :
  Transaction.type trx3 = TRANSFER
  /\ action_cell trx3 = Span "Auto"
  /\ Transaction.type trx1 = DEPOSIT
  /\ offered (action_cell trx1) = [PENDING; SUCCESS; REJECTED].
Proof.
  destruct (action_cell_by_type trx3) as (Ht & _).
  destruct (action_cell_by_type trx1) as (_ & _ & _ & _ & Hd & _).
  split; [reflexivity|]. split; [exact (Ht eq_refl)|].
  split; [reflexivity|exact (Hd eq_refl)].
Defined.

Example action_cell_withdrawal :
  action_cell trx2
  = Select PENDING
      [mkOption PENDING "PENDING"; mkOption SUCCESS "DONE (Success)";
       mkOption REJECTED "REJECTED"; mkOption CANCELLED "CANCELLED";
       mkOption FAILED "FAILED"].
Proof. reflexivity. Qed.

(** *** The balance modal *)

(** C4. For every submission of the balance form, which is on the page
    only while the modal is open with a user selected: if the entered
    amount does not parse as a number, the handler returns with the state
    as it was and calls the balance-update gateway function not at all,
    after the alert when the amount is not empty; if it parses, the
    gateway function is called exactly once, with the selected user's id,
    the parsed number and the chosen mode. *)
Theorem handleBalanceSubmit_gateway {W} (h : Handler Resp W) (w : W) (st : State) :
  balance_modal_rendered st = true ->
  let amount := Parse.parseFloat (balanceAmount st) in
  let r := run h (handleBalanceSubmit st) w in
  (JS.isNaN amount = true ->
     outcome r = Returned st
     /\ List.filter is_balance_update (calls r) = []
     /\ (balanceAmount st <> "" ->
         calls r = [PreventDefault; Alert "Please enter a valid number"]))
  /\ (JS.isNaN amount = false ->
     exists u, selectedUserForBalance st = Some u
       /\ List.filter is_balance_update (calls r)
          = [AdminUpdateUserBalance (User.id u) amount (balanceOperation st)]).
Proof.
  unfold balance_modal_rendered.
  intros [_ Hsel%bool_decide_eq_true]%andb_true_iff.
  destruct Hsel as [u Hu]. cbn zeta.
  unfold handleBalanceSubmit. run_step. rewrite Hu.
  destruct (h PreventDefault w) as [r0 w0].
  destruct (JS.truthy (JS.Str (balanceAmount st))) eqn:Et; cbn [negb].
  - destruct (JS.isNaN (Parse.parseFloat (balanceAmount st))) eqn:En.
    + run_step. destruct (h (Alert _) w0) as [r1 w1]. run_step.
      split; [|done]. intros _. by repeat split.
    + run_step. split; [done|]. intros _. exists u. split; [done|].
      destruct (h (AdminUpdateUserBalance _ _ _) w0) as [[e|[]] w1]; run_step;
        [done|].
      destruct (h LoadData w1) as [r2 w2]. by run_step.
  - apply truthy_str in Et. rewrite Et. rewrite ParseFacts.parseFloat_empty.
    run_step. split; [|done]. intros _. by repeat split.
Qed.

Lemma handleBalanceSubmit_gateway_witness :
  balance_modal_rendered (editing "5000" OpAdd) = true
  /\ List.filter is_balance_update
       (calls (run accepting (handleBalanceSubmit (editing "5000" OpAdd)) 0%nat))
     = [AdminUpdateUserBalance "u1" (JS.Dec 5000 0) OpAdd].
Proof.
  split; [reflexivity|].
  destruct (handleBalanceSubmit_gateway accepting 0%nat (editing "5000" OpAdd)
              eq_refl) as [_ H].
  destruct (H eq_refl) as (u & Hu & Hc).
  injection Hu as <-. exact Hc.
Defined.

Example balance_submit_add :
  run accepting (handleBalanceSubmit (editing "5000" OpAdd)) 0%nat
  = mkRun (Returned (close_balance_modal (editing "5000" OpAdd))) 3%nat
      [PreventDefault; AdminUpdateUserBalance "u1" (JS.Dec 5000 0) OpAdd; LoadData].
Proof. reflexivity. Qed.

Example balance_submit_not_a_number :
  run accepting (handleBalanceSubmit (editing "abc" OpSet)) 0%nat
  = mkRun (Returned (editing "abc" OpSet)) 2%nat
      [PreventDefault; Alert "Please enter a valid number"].
Proof. reflexivity. Qed.

(** C10. For every submission where the amount is the empty string, or no
    user is selected, the handler returns silently: it calls nothing but
    [preventDefault], so there is no balance update and no alert, and the
    state is the one it started from, the modal as it was. *)
Theorem handleBalanceSubmit_silent {W} (h : Handler Resp W) (w : W) (st : State) :
  balanceAmount st = "" \/ selectedUserForBalance st = None ->
  let r := run h (handleBalanceSubmit st) w in
  outcome r = Returned st
  /\ calls r = [PreventDefault]
  /\ (forall userId amount op, AdminUpdateUserBalance userId amount op ∉ calls r)
  /\ (forall msg, Alert msg ∉ calls r).
Proof.
  intros H r.
  assert (Hr : outcome r = Returned st /\ calls r = [PreventDefault]).
  { subst r. unfold handleBalanceSubmit. run_step.
    destruct (h PreventDefault w) as [r0 w0].
    destruct (selectedUserForBalance st) as [u|]; [|done].
    destruct H as [H|H]; [|done]. by rewrite H. }
  destruct Hr as [Ho Hc]. rewrite Hc. repeat split; [done|..].
  - by intros ??? Hin%list_elem_of_singleton.
  - by intros ? Hin%list_elem_of_singleton.
Qed.

Lemma handleBalanceSubmit_silent_witness :
  (balanceAmount (editing "" OpAdd) = ""
   \/ selectedUserForBalance (editing "" OpAdd) = None)
  /\ outcome (run accepting (handleBalanceSubmit (editing "" OpAdd)) 0%nat)
     = Returned (editing "" OpAdd)
  /\ calls (run accepting (handleBalanceSubmit (editing "" OpAdd)) 0%nat)
     = [PreventDefault].
Proof.
  assert (Hh : balanceAmount (editing "" OpAdd) = ""
               \/ selectedUserForBalance (editing "" OpAdd) = None)
    by (left; reflexivity).
  split; [exact Hh|].
  destruct (handleBalanceSubmit_silent accepting 0%nat (editing "" OpAdd) Hh)
    as (Ho & Hc & _).
  split; [exact Ho|exact Hc].
Defined.

Example balance_submit_no_user :
  run accepting (handleBalanceSubmit idle) 0%nat
  = mkRun (Returned idle) 1%nat [PreventDefault].
Proof. reflexivity. Qed.

End AdminPanelFacts.

(** ** More on the auth/profile gateway *)

Module AuthServiceMore.
Import AuthService GatewaySpec GatewayTerms AuthEnv.

Lemma truthy_proper (v : JS.Val) : JS.truthy v = true -> proper v.
Proof. by destruct v as [| | |[]|]. Qed.

Lemma or_proper (a b : JS.Val) : proper b -> proper (JS.or a b).
Proof.
  intros Hb. unfold JS.or. destruct (JS.truthy a) eqn:E; [|done].
  by apply truthy_proper.
Qed.

(** X1. For every profile object and account user, the record
    [mapProfileToUser] builds has the account's id, and its email, full
    name, username, phone number, admin flag, verified flag and balance
    are never [undefined], [null] or [NaN]; when the row has no truthy
    email, the email is the account's, or the empty string when the
    account has none. *)
Theorem mapProfileToUser_default_safe (profile : JS.Obj) (authUser : AuthUser) :
  let u := profile_user profile authUser in
  mapProfileToUser (Some profile) authUser = Ret u
  /\ User.id u = JS.Str (au_id authUser)
  /\ proper (User.email u) /\ proper (User.fullName u)
  /\ proper (User.username u) /\ proper (User.phoneNumber u)
  /\ proper (User.isAdmin u) /\ proper (User.isVerified u)
  /\ proper (User.balance u)
  /\ (JS.truthy (JS.get profile "email") = false ->
      User.email u = JS.or (JS.ofOptString (au_email authUser)) (JS.Str "")).
Proof.
  cbn. repeat split; try (apply or_proper; by repeat split).
  intros H. by rewrite (AuthServiceFacts.or_falsy _ _ H).
Qed.

Lemma mapProfileToUser_default_safe_witness :
  JS.truthy (JS.get SessionEnv.id_only_row "email") = false
  /\ User.email (profile_user SessionEnv.id_only_row jane_auth)
     = JS.Str "Jane.Doe@x.com".
Proof.
  split; [reflexivity|].
  destruct (mapProfileToUser_default_safe SessionEnv.id_only_row jane_auth)
    as (_ & _ & _ & _ & _ & _ & _ & _ & _ & He).
  exact (He eq_refl).
Defined.

(** X2. For every environment, [register] returns (it does not throw),
    and in what it returns exactly one of [user] and [error] is
    non-null. *)
Theorem register_user_xor_error {W} (h : Handler Resp W) (w : W)
    (userData : RegisterData) :
  exists res,
    outcome (run h (register userData) w) = Returned res /\ user_xor_error res.
Proof.
  unfold register, user_xor_error. run_step.
  destruct (h _ w) as [[e|resp] w']; run_step; [eexists; split; [done|]; cbn; eauto|].
  destruct (error resp) as [e|]; run_step; [eexists; split; [done|]; cbn; eauto|].
  destruct (data resp) as [authUser|]; run_step;
    [|eexists; split; [done|]; cbn; eauto].
  destruct (StrFacts.split_at_0_before (rd_email userData)) as (loc & -> & _).
  cbn [toLowerCase_of]. run_step.
  destruct (h _ w') as [[e2|resp2] w'']; run_step;
    [eexists; split; [done|]; cbn; eauto|].
  destruct (error resp2) as [e2|]; run_step; [eexists; split; [done|]; cbn; eauto|].
  destruct (data resp2) as [row|]; cbn [mapProfileToUser]; run_step;
    eexists; (split; [done|]); cbn; eauto.
Qed.

(** X3. When the account is created and the upsert of the profile then
    fails (it rejects, reports an error, or gives no row), [register]
    returns a null user with an error, and the sign-up and that upsert
    are the only calls it made: nothing is called to undo the account. *)
Theorem register_no_rollback {W} (h : Handler Resp W) (w : W)
    (userData : RegisterData) (authUser : AuthUser) :
  let signUp := SignUp (rd_email userData) (rd_password userData) in
  let r := run h (register userData) w in
  account_created (fst (h signUp w)) authUser ->
  exists row,
    let upsert := ProfilesUpsert [row] in
    row !! "id" = Some (JS.Str (au_id authUser))
    /\ calls r = [signUp; upsert]
    /\ world r = snd (h upsert (snd (h signUp w)))
    /\ (profile_call_failed (fst (h upsert (snd (h signUp w)))) ->
        exists msg, outcome r = Returned (mkAuthResult None (Some msg))).
Proof.
  intros signUp r. subst r. unfold register. run_step. fold signUp.
  destruct (h signUp w) as [r1 w']. cbn [fst snd].
  intros (resp & -> & He & Hd). run_step. rewrite He, Hd. run_step.
  destruct (StrFacts.split_at_0_before (rd_email userData)) as (loc & -> & Hloc).
  exists (register_row (au_id authUser) (Str.toLowerCase loc) userData).
  cbn zeta. split; [apply AuthServiceFacts.register_row_lookup|].
  cbn [toLowerCase_of]. run_step.
  destruct (h _ w') as [[e2|resp2] w'']; cbn [fst snd profile_call_failed]; run_step.
  - repeat split; eauto.
  - destruct (error resp2) as [e2|]; run_step.
    + repeat split; eauto.
    + destruct (data resp2) as [row|]; cbn [mapProfileToUser]; run_step.
      * repeat split. by intros [[? ?]|?].
      * repeat split; eauto.
Qed.

Lemma register_no_rollback_witness :
  account_created
    (fst (scripted SessionEnv.upsert_denied (SignUp "Jane.Doe@x.com" "secret1") 0%nat))
    jane_auth
  /\ exists row,
       calls (run (scripted SessionEnv.upsert_denied) (register jane) 0%nat)
       = [SignUp "Jane.Doe@x.com" "secret1"; ProfilesUpsert [row]].
Proof.
  assert (Hc : account_created
                 (fst (scripted SessionEnv.upsert_denied
                         (SignUp "Jane.Doe@x.com" "secret1") 0%nat)) jane_auth).
  { eexists. cbn. eauto. }
  split; [exact Hc|].
  destruct (register_no_rollback (scripted SessionEnv.upsert_denied) 0%nat jane
              jane_auth Hc) as (row & _ & Hcalls & _).
  exists row. exact Hcalls.
Defined.

Example register_upsert_denied :
  run (scripted SessionEnv.upsert_denied) (register jane) 0%nat
  = mkRun
      (Returned (mkAuthResult None
                   (Some "Autentikasi sukses, tapi profil gagal disimpan.")))
      2%nat
      [SignUp "Jane.Doe@x.com" "secret1";
       ProfilesUpsert [register_row "u-7" "jane.doe" jane]].
Proof. reflexivity. Qed.

(** X4. [getAllUsers] performs one query. When the response carries an
    error it returns the empty list, which is also what it returns for an
    empty table: the caller cannot tell a failed query from no users.
    When the call itself rejects, [getAllUsers] rejects with the same
    error. *)
Theorem getAllUsers_failure_modes {W} (h : Handler Resp W) (w : W) :
  let r := run h getAllUsers w in
  calls r = [ProfilesSelect]
  /\ (forall resp e, fst (h ProfilesSelect w) = inr resp -> error resp = Some e ->
      outcome r = Returned [])
  /\ (forall resp, fst (h ProfilesSelect w) = inr resp ->
      error resp = None -> data resp = Some [] ->
      outcome r = Returned [])
  /\ (forall e, fst (h ProfilesSelect w) = inl e -> outcome r = Thrown e).
Proof.
  unfold getAllUsers. run_step.
  destruct (h ProfilesSelect w) as [r1 w']. cbn [fst].
  split; [by destruct r1 as [e|[[rows|] [e|]]]|]. split; [|split].
  - intros resp e -> He. run_step. by rewrite He.
  - intros resp -> He Hd. run_step. by rewrite He, Hd.
  - by intros e ->.
Qed.

Lemma getAllUsers_failure_modes_witness :
  (exists resp e,
     fst (scripted SessionEnv.list_denied ProfilesSelect 0%nat) = inr resp
     /\ error resp = Some e)
  /\ outcome (run (scripted SessionEnv.list_denied) getAllUsers 0%nat) = Returned []
  /\ outcome (run (scripted SessionEnv.list_empty) getAllUsers 0%nat) = Returned [].
Proof.
  split; [eexists _, _; split; reflexivity|].
  destruct (getAllUsers_failure_modes (scripted SessionEnv.list_denied) 0%nat)
    as (_ & He & _).
  destruct (getAllUsers_failure_modes (scripted SessionEnv.list_empty) 0%nat)
    as (_ & _ & Hn & _).
  split.
  - exact (He _ _ eq_refl eq_refl).
  - exact (Hn _ eq_refl eq_refl eq_refl).
Defined.

(** X5. When the query gives rows, [getAllUsers] returns as many records
    as rows, in the order of the rows; the record of a row has the row's
    id and an empty notification list, and its email is never
    [undefined], [null] or [NaN]. *)
Theorem getAllUsers_row_by_row {W} (h : Handler Resp W) (w : W)
    (resp : Response (list JS.Obj)) (rows : list JS.Obj) :
  fst (h ProfilesSelect w) = inr resp ->
  error resp = None ->
  data resp = Some rows ->
  exists us,
    outcome (run h getAllUsers w) = Returned us
    /\ length us = length rows
    /\ forall i row, rows !! i = Some row ->
         exists u, us !! i = Some u
           /\ User.id u = JS.get row "id"
           /\ proper (User.email u)
           /\ User.notifications u = [].
Proof.
  intros Hr He Hd. exists (map user_of_row rows).
  unfold getAllUsers. run_step.
  destruct (h ProfilesSelect w) as [r1 w']. cbn [fst] in Hr. subst r1.
  run_step. rewrite He, Hd. run_step. split; [done|].
  split; [apply length_map|].
  intros i row Hi. exists (user_of_row row). split.
  - change (map user_of_row rows) with (user_of_row <$> rows).
    by rewrite list_lookup_fmap, Hi.
  - repeat split; try done; apply or_proper; by repeat split.
Qed.

Lemma getAllUsers_row_by_row_witness :
  fst (scripted lists_bare_row ProfilesSelect 0%nat)
  = inr (mkResponse (Some [bare_row]) None)
  /\ exists us,
       outcome (run (scripted lists_bare_row) getAllUsers 0%nat) = Returned us
       /\ length us = 1%nat.
Proof.
  split; [reflexivity|].
  destruct (getAllUsers_row_by_row (scripted lists_bare_row) 0%nat _ [bare_row]
              eq_refl eq_refl eq_refl) as (us & Ho & Hl & _).
  exists us. split; [exact Ho|exact Hl].
Defined.

(** X6. Whenever [adminCreateUser] returns a user, its calls are the
    sign-up and one insert of a single row. That row carries the flags
    the caller supplied, the supplied balance unless that is [0] or
    [NaN], which both give [0], and as username the text of the email
    before its first [@], in the case it was typed. *)
Theorem adminCreateUser_inserted_row {W} (h : Handler Resp W) (w : W)
    (userData : AdminCreateData) (u : User.t) :
  let r := run h (adminCreateUser userData) w in
  outcome r = Returned (Some u) ->
  exists authUser loc row,
    before_at (cd_email userData) loc
    /\ calls r =
         [SignUp (cd_email userData) (cd_password userData); ProfilesInsert [row]]
    /\ row !! "id" = Some (JS.Str (au_id authUser))
    /\ row !! "username" = Some (JS.Str loc)
    /\ row !! "is_admin" = Some (JS.Boolean (cd_isAdmin userData))
    /\ row !! "is_verified" = Some (JS.Boolean (cd_isVerified userData))
    /\ row !! "balance" =
         Some (JS.Num (if JS.truthy (JS.Num (cd_balance userData))
                       then cd_balance userData else JS.ofZ 0))
    /\ JS.isNaN (if JS.truthy (JS.Num (cd_balance userData))
                 then cd_balance userData else JS.ofZ 0) = false.
Proof.
  intros r. subst r. unfold adminCreateUser. run_step.
  destruct (h _ w) as [[e|resp] w']; run_step; [done|].
  destruct (error resp) as [e|]; [by destruct (data resp)|].
  destruct (data resp) as [authUser|]; [|done]. run_step.
  destruct (h _ w') as [[e2|resp2] w'']; run_step; [done|].
  destruct (data resp2) as [row|]; cbn [mapProfileToUser]; run_step; [|done].
  intros _.
  destruct (StrFacts.split_at_0_before (cd_email userData)) as (loc & Hs & Hloc).
  exists authUser, loc, (admin_row (au_id authUser) userData).
  split; [done|]. split; [done|].
  unfold admin_row. rewrite Hs. cbn [index_0_val JS.ofOptString].
  split; [by simplify_map_eq|]. split; [by simplify_map_eq|].
  split; [simplify_map_eq; by destruct (cd_isAdmin userData)|].
  split; [simplify_map_eq; by destruct (cd_isVerified userData)|].
  split.
  { simplify_map_eq. unfold JS.or. cbn.
    destruct (cd_balance userData) as [| |m ex]; try done. by destruct (m =? 0). }
  destruct (cd_balance userData) as [| |m ex]; try done.
  cbn. by destruct (m =? 0).
Qed.

Lemma adminCreateUser_inserted_row_witness :
  (exists u,
     outcome (run (scripted admin_create_ok) (adminCreateUser jane_admin) 0%nat)
     = Returned (Some u))
  /\ exists row,
       calls (run (scripted admin_create_ok) (adminCreateUser jane_admin) 0%nat)
       = [SignUp "Jane.Doe@x.com" "secret1"; ProfilesInsert [row]]
       /\ row !! "balance" = Some (JS.Num (JS.Dec 5000 0)).
Proof.
  split; [eexists; reflexivity|].
  destruct (adminCreateUser_inserted_row (scripted admin_create_ok) 0%nat
              jane_admin _ eq_refl)
    as (authUser & loc & row & _ & Hc & _ & _ & _ & _ & Hb & _).
  exists row. split; [exact Hc|exact Hb].
Defined.

(** X7. With a truthy [id], [updateUserInfo] ends as its one call
    settles: it returns normally whenever the call resolves, also when
    the response carries an error, and it rejects only when the call
    rejects. A failed update is not reported to the caller. *)
Theorem updateUserInfo_ignores_error {W} (h : Handler Resp W) (w : W)
    (updatedData : JS.Obj) :
  JS.truthy (JS.get updatedData "id") = true ->
  let call := ProfilesUpdate (updates_of updatedData) (JS.get updatedData "id") in
  outcome (run h (updateUserInfo updatedData) w) = settles_as (fst (h call w)).
Proof.
  intros Hid call. unfold updateUserInfo. rewrite Hid. cbn [negb]. run_step.
  fold call. by destruct (h call w) as [[e|resp] w'].
Qed.

Lemma updateUserInfo_ignores_error_witness :
  JS.truthy (JS.get rename "id") = true
  /\ outcome (run (scripted SessionEnv.upsert_denied) (updateUserInfo rename) 0%nat)
     = Returned tt.
Proof.
  split; [reflexivity|].
  exact (updateUserInfo_ignores_error (scripted SessionEnv.upsert_denied) 0%nat
           rename eq_refl).
Defined.

End AuthServiceMore.

(** ** Sessions, notifications, balance *)

Module AuthSessionFacts.
Import AuthService AuthSession GatewayTerms SessionEnv.

(** X8. For every environment, [login] returns (it does not throw), and
    in what it returns exactly one of [user] and [error] is non-null. *)
Theorem login_user_xor_error {W} (h : Handler AuthSession.Resp W) (w : W)
    (identifier passwordAttempt : string) :
  exists res,
    outcome (run h (login identifier passwordAttempt) w) = Returned res
    /\ user_xor_error res.
Proof.
  unfold login, user_xor_error. run_step.
  destruct (h _ w) as [[e|resp] w']; run_step; [eexists; split; [done|]; cbn; eauto|].
  destruct (error resp) as [e|]; run_step; [eexists; split; [done|]; cbn; eauto|].
  destruct (data resp) as [authUser|]; run_step;
    [|eexists; split; [done|]; cbn; eauto].
  destruct (h _ w') as [[e2|resp2] w'']; run_step;
    [eexists; split; [done|]; cbn; eauto|].
  destruct (error resp2) as [e2|]; run_step; [eexists; split; [done|]; cbn; eauto|].
  destruct (data resp2) as [row|]; cbn [AuthSession.mapProfileToUser]; run_step;
    eexists; (split; [done|]); cbn; eauto.
Qed.

(** X9. When signing in fails (the call rejects, reports an error, or
    gives no user), [login] returns a null user, the sign-in is the only
    call it makes, so no profile is read, and the error it returns is the
    message of the reported error when there is one. *)
Theorem login_failed_sign_in {W} (h : Handler AuthSession.Resp W) (w : W)
    (identifier passwordAttempt : string) :
  let signIn := SignInWithPassword identifier passwordAttempt in
  let r := run h (login identifier passwordAttempt) w in
  no_user (fst (h signIn w)) ->
  calls r = [signIn]
  /\ (exists msg, outcome r = Returned (mkAuthResult None (Some msg)))
  /\ (forall resp e, fst (h signIn w) = inr resp -> error resp = Some e ->
      outcome r = Returned (mkAuthResult None (Some (JS.message e)))).
Proof.
  intros signIn r. subst r. unfold login. run_step. fold signIn.
  destruct (h signIn w) as [[e|resp] w']; cbn [fst no_user]; run_step.
  - intros _. repeat split; eauto. by intros.
  - intros Hf. destruct (error resp) as [e|] eqn:He; run_step.
    + repeat split; eauto. intros ? e0 [= <-] He0. rewrite He in He0.
      by injection He0 as <-.
    + destruct Hf as [[x Hx]|Hd]; [congruence|]. rewrite Hd. run_step.
      repeat split; eauto. intros ? ? [= <-]. congruence.
Qed.

Lemma login_failed_sign_in_witness :
  no_user (fst (scripted bad_password (SignInWithPassword "ann@x.com" "guess") 0%nat))
  /\ run (scripted bad_password) (login "ann@x.com" "guess") 0%nat
     = mkRun (Returned (mkAuthResult None (Some "Invalid login credentials")))
         1%nat [SignInWithPassword "ann@x.com" "guess"].
Proof.
  assert (Hf : no_user (fst (scripted bad_password
                               (SignInWithPassword "ann@x.com" "guess") 0%nat))).
  { cbn. left. eauto. }
  split; [exact Hf|].
  destruct (login_failed_sign_in (scripted bad_password) 0%nat "ann@x.com" "guess" Hf)
    as (Hc & _ & Hm).
  pose proof (Hm _ _ eq_refl eq_refl) as Ho.
  destruct (run (scripted bad_password) (login "ann@x.com" "guess") 0%nat)
    as [o wd cs] eqn:E.
  cbn in Hc, Ho. subst o cs. f_equal.
  by injection E.
Defined.

(** X10. Whenever [login] returns a user, the sign-in answered with an
    account, the profile read answered with a row, and the calls of
    [login] are that sign-in and one read of the profile whose id is the
    id of the account the sign-in gave; the user is the one mapped from
    the row that read gave and that account, and has the account's id,
    whatever id the row carries. *)
Theorem login_reads_own_profile {W} (h : Handler AuthSession.Resp W) (w : W)
    (identifier passwordAttempt : string) (res : AuthResult) (u : User.t) :
  let signIn := SignInWithPassword identifier passwordAttempt in
  let r := run h (login identifier passwordAttempt) w in
  outcome r = Returned res ->
  user res = Some u ->
  exists authResp authUser profileResp row,
    fst (h signIn w) = inr authResp
    /\ data authResp = Some authUser
    /\ fst (h (ProfileById (au_id authUser)) (snd (h signIn w))) = inr profileResp
    /\ data profileResp = Some row
    /\ calls r = [signIn; ProfileById (au_id authUser)]
    /\ u = profile_user row authUser
    /\ User.id u = JS.Str (au_id authUser).
Proof.
  intros signIn r. subst r. unfold login. run_step. fold signIn.
  destruct (h signIn w) as [[e|resp] w']; cbn [fst snd]; run_step;
    [by intros [= <-]|].
  destruct (error resp) as [e|]; run_step; [by intros [= <-]|].
  destruct (data resp) as [authUser|] eqn:Hd; run_step; [|by intros [= <-]].
  destruct (h (ProfileById _) w') as [[e2|resp2] w''] eqn:E2; run_step;
    [by intros [= <-]|].
  destruct (error resp2) as [e2|]; run_step; [by intros [= <-]|].
  destruct (data resp2) as [row|] eqn:Hd2; cbn [AuthSession.mapProfileToUser];
    run_step; [|by intros [= <-]].
  intros [= <-] [= <-]. exists resp, authUser, resp2, row.
  rewrite E2. by repeat split.
Qed.

Lemma login_reads_own_profile_witness :
  (exists res u,
     outcome (run (scripted signed_in) (login "ann@x.com" "pw") 0%nat) = Returned res
     /\ user res = Some u)
  /\ run (scripted signed_in) (login "ann@x.com" "pw") 0%nat
     = mkRun (Returned (mkAuthResult (Some (profile_user ann_row ann_auth)) None))
         2%nat [SignInWithPassword "ann@x.com" "pw"; ProfileById "u1"].
Proof.
  split; [eexists _, _; split; reflexivity|].
  destruct (login_reads_own_profile (scripted signed_in) 0%nat "ann@x.com" "pw"
              _ _ eq_refl eq_refl)
    as (authResp & authUser & profileResp & row & Ha & Hd & Hp & Hr & Hc & Hu & _).
  cbn in Ha. injection Ha as <-. cbn in Hd. injection Hd as <-.
  cbn in Hp. injection Hp as <-. cbn in Hr. injection Hr as <-.
  destruct (run (scripted signed_in) (login "ann@x.com" "pw") 0%nat)
    as [o wd cs] eqn:E.
  cbn in Hc. subst cs. f_equal; by injection E.
Defined.

(** X11. For every environment, [getCurrentUser] returns (it does not
    throw). When the session cannot be read or holds no user, it returns
    [null] and the session read is its only call: no table is queried. *)
Theorem getCurrentUser_no_session {W} (h : Handler AuthSession.Resp W) (w : W) :
  let r := run h getCurrentUser w in
  (exists res, outcome r = Returned res)
  /\ (no_user (fst (h GetSession w)) ->
      outcome r = Returned None /\ calls r = [GetSession]).
Proof.
  unfold getCurrentUser. run_step.
  destruct (h GetSession w) as [[e|resp] w']; cbn [fst no_user]; run_step.
  - split; eauto.
  - destruct (error resp) as [e|] eqn:He.
    + destruct (data resp); run_step; split; eauto.
    + destruct (data resp) as [sessionUser|] eqn:Hd; run_step.
      * split; [|by intros [[? ?]|?]].
        destruct (h _ w') as [[e2|resp2] w'']; run_step; [eauto|].
        destruct (data resp2) as [row|]; run_step; [|eauto].
        destruct (h _ w'') as [[e3|resp3] w3]; run_step; eauto.
      * split; eauto.
Qed.

Lemma getCurrentUser_no_session_witness :
  no_user (fst (scripted signed_out GetSession 0%nat))
  /\ outcome (run (scripted signed_out) getCurrentUser 0%nat) = Returned None
  /\ calls (run (scripted signed_out) getCurrentUser 0%nat) = [GetSession].
Proof.
  assert (Hf : no_user (fst (scripted signed_out GetSession 0%nat))).
  { cbn. by right. }
  split; [exact Hf|].
  destruct (getCurrentUser_no_session (scripted signed_out) 0%nat) as [_ H].
  exact (H Hf).
Defined.

(** X12. Whenever [getCurrentUser] returns a user, the session read
    answered with a user, and the calls of [getCurrentUser] are the
    session read, the read of the profile of that session user and the
    read of that user's notifications, in this order, each answered from
    where the one before left the environment. The user returned is the
    one mapped from the row the profile read gave and the session user,
    so it has the session user's id, and its notifications are the rows
    the notifications read gave, or none when that read gave no rows, an
    error included: a failed notifications query is shown as an empty
    list. *)
Theorem getCurrentUser_notifications {W} (h : Handler AuthSession.Resp W) (w : W)
    (u : User.t) :
  let r := run h getCurrentUser w in
  outcome r = Returned (Some u) ->
  exists sessionResp sessionUser profileResp row notifResp,
    let id := au_id sessionUser in
    let w1 := snd (h GetSession w) in
    let w2 := snd (h (ProfileById id) w1) in
    fst (h GetSession w) = inr sessionResp
    /\ data sessionResp = Some sessionUser
    /\ fst (h (ProfileById id) w1) = inr profileResp
    /\ data profileResp = Some row
    /\ fst (h (NotificationsOf id) w2) = inr notifResp
    /\ calls r = [GetSession; ProfileById id; NotificationsOf id]
    /\ u = with_notifications (profile_user row sessionUser)
             (default [] (data notifResp))
    /\ User.id u = JS.Str id
    /\ (data notifResp = None -> User.notifications u = []).
Proof.
  unfold getCurrentUser. run_step.
  destruct (h GetSession w) as [[e|resp] w1]; cbn [fst snd]; run_step; [done|].
  destruct (error resp) as [e|]; [by destruct (data resp)|].
  destruct (data resp) as [sessionUser|] eqn:Hd; run_step; [|done].
  destruct (h (ProfileById _) w1) as [[e2|resp2] w2] eqn:E2; run_step; [done|].
  destruct (data resp2) as [row|] eqn:Hd2; run_step; [|done].
  destruct (h (NotificationsOf _) w2) as [[e3|resp3] w3] eqn:E3; run_step; [done|].
  intros [= <-]. exists resp, sessionUser, resp2, row, resp3. cbn zeta.
  rewrite E2. cbn [fst snd]. rewrite E3. repeat split; try done. by intros ->.
Qed.

Lemma getCurrentUser_notifications_witness :
  (exists u,
     outcome (run (scripted notifications_denied) getCurrentUser 0%nat)
     = Returned (Some u))
  /\ run (scripted notifications_denied) getCurrentUser 0%nat
     = mkRun (Returned (Some (with_notifications (profile_user ann_row ann_auth) [])))
         3%nat [GetSession; ProfileById "u1"; NotificationsOf "u1"].
Proof.
  split; [eexists; reflexivity|].
  destruct (getCurrentUser_notifications (scripted notifications_denied) 0%nat
              _ eq_refl)
    as (sr & su & pr & row & nr & Hs & Hd & Hp & Hr & Hn & Hc & _).
  cbn in Hs. injection Hs as <-. cbn in Hd. injection Hd as <-.
  destruct (run (scripted notifications_denied) getCurrentUser 0%nat)
    as [o wd cs] eqn:E.
  cbn in Hc. subst cs. f_equal; by injection E.
Defined.

Example getCurrentUser_signed_in :
  outcome (run (scripted signed_in) getCurrentUser 0%nat)
  = Returned (Some (with_notifications (profile_user ann_row ann_auth) [note])).
Proof. reflexivity. Qed.

(** X13. [updateUserBalance], [updateUserNotification] and [logout] each
    make one call and end as it settles: they return normally whenever
    the call resolves, also when the response carries an error, and
    reject only when the call rejects. The update [updateUserBalance]
    sends lists the balance and no other column, so in the table every
    other column of every row stays as it is. *)
Theorem writers_ignore_errors {W} (h : Handler AuthSession.Resp W) (w : W)
    (userId notificationId : string) (newBalance : JS.Number) (read : bool) :
  let balance := ProfileUpdate (<["balance" := JS.Num newBalance]> ∅) userId in
  let mark :=
    NotificationUpdate (<["read" := JS.Boolean read]> ∅) notificationId userId in
  (calls (run h (updateUserBalance userId newBalance) w) = [balance]
   /\ outcome (run h (updateUserBalance userId newBalance) w)
      = settles_as (fst (h balance w)))
  /\ (calls (run h (updateUserNotification userId notificationId read) w) = [mark]
      /\ outcome (run h (updateUserNotification userId notificationId read) w)
         = settles_as (fst (h mark w)))
  /\ (calls (run h logout w) = [SignOut]
      /\ outcome (run h logout w) = settles_as (fst (h SignOut w)))
  /\ (forall col tbl i, col <> "balance" ->
      (.!! col) <$> (ProfilesTable.update (<["balance" := JS.Num newBalance]> ∅)
                       (JS.Str userId) tbl !! i)
      = (.!! col) <$> (tbl !! i)).
Proof.
  cbn zeta. unfold updateUserBalance, updateUserNotification, logout. run_step.
  split; [|split; [|split]].
  - by destruct (h _ w) as [[e|resp] w'].
  - by destruct (h _ w) as [[e|resp] w'].
  - by destruct (h _ w) as [[e|resp] w'].
  - intros col tbl i Hcol. apply AuthServiceFacts.table_update_frame.
    by rewrite lookup_insert_ne.
Qed.

Lemma writers_ignore_errors_witness :
  "is_admin" <> "balance"
  /\ outcome (run (scripted notifications_denied)
                (updateUserBalance "u1" (JS.ofZ 5)) 0%nat)
     = Returned tt.
Proof.
  split; [done|].
  destruct (writers_ignore_errors (scripted notifications_denied) 0%nat
              "u1" "n1" (JS.ofZ 5) true) as ((_ & Ho) & _).
  exact Ho.
Defined.

End AuthSessionFacts.

(** ** More on the admin console *)

Module AdminPanelMore.
Import AdminPanel AdminPanelHandlers ConsoleSpec ConsoleTerms.

Lemma same_but_data_refl (st : State) : same_but_data st st.
Proof. by destruct st. Qed.

(** What [loadData] does, case by case. *)
Lemma run_loadData {W} (h : Handler AdminPanelHandlers.Resp W) (w : W) (st : State) :
  let log := ConsoleError "Error loading admin data" in
  let w1 := snd (h GetAllUsers w) in
  run h (loadData st) w =
    match fst (h GetAllUsers w) with
    | inl _ => mkRun (Returned st) (snd (h log w1)) [GetAllUsers; log]
    | inr us =>
        let w2 := snd (h GetAllTransactions w1) in
        match fst (h GetAllTransactions w1) with
        | inl _ =>
            mkRun (Returned (set_users st us)) (snd (h log w2))
              [GetAllUsers; GetAllTransactions; log]
        | inr ts =>
            mkRun (Returned (set_transactions (set_users st us) ts)) w2
              [GetAllUsers; GetAllTransactions]
        end
    end.
Proof.
  cbn zeta. unfold loadData. run_step.
  destruct (h GetAllUsers w) as [[e|us] w1]; cbn [fst snd]; run_step.
  - by destruct (h _ w1) as [x w2].
  - destruct (h GetAllTransactions w1) as [[e|ts] w2]; cbn [fst snd]; run_step.
    + by destruct (h _ w2) as [x w3].
    + done.
Qed.

(** [loadData] starts with the fetch of the users and makes no status
    update and no user creation. *)
Lemma loadData_calls {W} (h : Handler AdminPanelHandlers.Resp W) (w : W) (st : State) :
  exists rest,
    calls (run h (loadData st) w) = GetAllUsers :: rest
    /\ List.filter is_status_update rest = []
    /\ List.filter is_create rest = [].
Proof.
  rewrite run_loadData. cbn zeta.
  destruct (fst (h GetAllUsers w)); [by eexists|].
  destruct (fst (h GetAllTransactions _)); by eexists.
Qed.

(** X14. For every environment, [loadData] returns (it does not throw)
    and changes nothing of the state but the users and the transactions.
    When the users cannot be fetched the transactions are not asked for
    and the state is unchanged; when the transactions cannot be fetched
    the users are replaced and the transactions kept; when both are
    fetched both are replaced. *)
Theorem loadData_partial {W} (h : Handler AdminPanelHandlers.Resp W) (w : W)
    (st : State) :
  let r := run h (loadData st) w in
  let w1 := snd (h GetAllUsers w) in
  (exists st', outcome r = Returned st' /\ same_but_data st st')
  /\ (forall e, fst (h GetAllUsers w) = inl e ->
      outcome r = Returned st /\ GetAllTransactions ∉ calls r)
  /\ (forall us e, fst (h GetAllUsers w) = inr us ->
      fst (h GetAllTransactions w1) = inl e ->
      outcome r = Returned (set_users st us))
  /\ (forall us ts, fst (h GetAllUsers w) = inr us ->
      fst (h GetAllTransactions w1) = inr ts ->
      outcome r = Returned (set_transactions (set_users st us) ts)).
Proof.
  cbn zeta. rewrite run_loadData. cbn zeta.
  destruct (fst (h GetAllUsers w)) as [e|us].
  - split; [exists st; split; [done|apply same_but_data_refl]|].
    split; [|by split].
    intros ? _. split; [done|].
    cbn. rewrite !not_elem_of_cons. repeat split; try done. apply not_elem_of_nil.
  - destruct (fst (h GetAllTransactions (snd (h GetAllUsers w)))) as [e|ts].
    + split; [eexists; split; [done|by destruct st]|].
      split; [done|]. split; [|done]. by intros ? ? [= <-] _.
    + split; [eexists; split; [done|by destruct st]|].
      split; [done|]. split; [done|]. by intros ? ? [= <-] [= <-].
Qed.

Lemma loadData_partial_witness :
  fst (HandlersEnv.scripted HandlersEnv.half_loaded GetAllUsers 0%nat)
  = inr [PanelEnv.ann]
  /\ fst (HandlersEnv.scripted HandlersEnv.half_loaded GetAllTransactions 1%nat)
     = inl HandlersEnv.timeout
  /\ outcome (run (HandlersEnv.scripted HandlersEnv.half_loaded)
                (loadData PanelEnv.idle) 0%nat)
     = Returned (set_users PanelEnv.idle [PanelEnv.ann]).
Proof.
  split; [reflexivity|]. split; [reflexivity|].
  destruct (loadData_partial (HandlersEnv.scripted HandlersEnv.half_loaded) 0%nat
              PanelEnv.idle) as (_ & _ & H & _).
  exact (H _ _ eq_refl eq_refl).
Defined.

Lemma is_empty_iff (s : string) : is_empty s = true <-> s = "".
Proof.
  unfold is_empty. rewrite negb_true_iff. apply StrFacts.truthy_str.
Qed.

Lemma num_or_zero_not_NaN (a : JS.Number) :
  JS.isNaN (num_or a (JS.ofZ 0)) = false
  /\ (JS.isNaN a = true -> num_or a (JS.ofZ 0) = JS.ofZ 0).
Proof.
  unfold num_or. destruct a as [| |m ex]; cbn; try done.
  by destruct (m =? 0).
Qed.

(** X15. When the full name, the email or the password of the create
    form is empty, [handleCreateSubmit] calls nothing but
    [preventDefault], so the gateway is not reached; it leaves the form
    as typed and the modal as it is, and sets the error to "Name, Email,
    and Password are required.". *)
Theorem handleCreateSubmit_required {W} (h : Handler AdminPanelHandlers.Resp W)
    (w : W) (st : State) :
  c_fullName (createData st) = "" \/ c_email (createData st) = ""
  \/ c_password (createData st) = "" ->
  let r := run h (handleCreateSubmit st) w in
  calls r = [PreventDefault]
  /\ exists st',
       outcome r = Returned st'
       /\ createError st' = Some "Name, Email, and Password are required."
       /\ createData st' = createData st
       /\ isCreateModalOpen st' = isCreateModalOpen st
       /\ users st' = users st.
Proof.
  intros H. cbn zeta. unfold handleCreateSubmit. run_step.
  destruct (h PreventDefault w) as [x w0].
  assert (Hb : is_empty (c_fullName (createData st))
               || is_empty (c_email (createData st))
               || is_empty (c_password (createData st)) = true).
  { rewrite !orb_true_iff, !is_empty_iff. tauto. }
  rewrite Hb. run_step. split; [done|]. eexists. by split.
Qed.

Lemma handleCreateSubmit_required_witness :
  (c_fullName (createData (HandlersEnv.creating HandlersEnv.no_password_form)) = ""
   \/ c_email (createData (HandlersEnv.creating HandlersEnv.no_password_form)) = ""
   \/ c_password (createData (HandlersEnv.creating HandlersEnv.no_password_form)) = "")
  /\ calls (run (HandlersEnv.scripted HandlersEnv.healthy)
              (handleCreateSubmit (HandlersEnv.creating HandlersEnv.no_password_form))
              0%nat)
     = [PreventDefault].
Proof.
  assert (Hh : c_fullName (createData (HandlersEnv.creating HandlersEnv.no_password_form)) = ""
               \/ c_email (createData (HandlersEnv.creating HandlersEnv.no_password_form)) = ""
               \/ c_password (createData (HandlersEnv.creating HandlersEnv.no_password_form)) = "")
    by (right; right; reflexivity).
  split; [exact Hh|].
  destruct (handleCreateSubmit_required (HandlersEnv.scripted HandlersEnv.healthy)
              0%nat _ Hh) as [Hc _].
  exact Hc.
Defined.

Lemma valid_form (st : State) :
  c_fullName (createData st) <> "" -> c_email (createData st) <> "" ->
  c_password (createData st) <> "" ->
  is_empty (c_fullName (createData st)) || is_empty (c_email (createData st))
  || is_empty (c_password (createData st)) = false.
Proof.
  intros H1 H2 H3. rewrite !orb_false_iff. repeat split.
  all: apply not_true_is_false; by rewrite is_empty_iff.
Qed.

(** X16. When the three required fields are filled in,
    [handleCreateSubmit] calls the gateway exactly once, with the fields
    as typed and with a balance that is never [NaN]: the number the
    balance text parses to, and [0] when it does not parse. *)
Theorem handleCreateSubmit_balance {W} (h : Handler AdminPanelHandlers.Resp W)
    (w : W) (st : State) :
  c_fullName (createData st) <> "" -> c_email (createData st) <> "" ->
  c_password (createData st) <> "" ->
  let d := createData st in
  let r := run h (handleCreateSubmit st) w in
  exists nu,
    List.filter is_create (calls r) = [AdminCreateUser nu]
    /\ n_fullName nu = c_fullName d /\ n_email nu = c_email d
    /\ n_phoneNumber nu = c_phoneNumber d /\ n_password nu = c_password d
    /\ n_isAdmin nu = c_isAdmin d /\ n_isVerified nu = c_isVerified d
    /\ JS.isNaN (n_balance nu) = false
    /\ (JS.isNaN (Parse.parseFloat (c_balance d)) = true -> n_balance nu = JS.ofZ 0)
    /\ (JS.truthy (JS.Num (Parse.parseFloat (c_balance d))) = true ->
        n_balance nu = Parse.parseFloat (c_balance d)).
Proof.
  intros H1 H2 H3. cbn zeta. exists (new_user_of (createData st)).
  split.
  - unfold handleCreateSubmit. run_step.
    destruct (h PreventDefault w) as [x w0].
    rewrite (valid_form st H1 H2 H3). run_step.
    destruct (h (AdminCreateUser _) w0) as [[e|[]] w1]; run_step; [done| |done].
    destruct (loadData_calls h w1
                (close_create_modal (set_createError st None)))
      as (rest & Hc & _ & Hf).
    rewrite Hc. cbn. by rewrite Hf.
  - unfold new_user_of.
    cbn [n_fullName n_email n_phoneNumber n_password n_isAdmin n_isVerified
         n_balance].
    repeat split; try apply num_or_zero_not_NaN.
    intros Ht. unfold num_or. by rewrite Ht.
Qed.

Lemma handleCreateSubmit_balance_witness :
  c_fullName (createData (HandlersEnv.creating HandlersEnv.bad_balance_form)) <> ""
  /\ c_email (createData (HandlersEnv.creating HandlersEnv.bad_balance_form)) <> ""
  /\ c_password (createData (HandlersEnv.creating HandlersEnv.bad_balance_form)) <> ""
  /\ exists nu,
       List.filter is_create
         (calls (run (HandlersEnv.scripted HandlersEnv.healthy)
                   (handleCreateSubmit
                      (HandlersEnv.creating HandlersEnv.bad_balance_form)) 0%nat))
       = [AdminCreateUser nu]
       /\ n_balance nu = JS.ofZ 0.
Proof.
  assert (H1 : c_fullName (createData (HandlersEnv.creating HandlersEnv.bad_balance_form)) <> "")
    by done.
  assert (H2 : c_email (createData (HandlersEnv.creating HandlersEnv.bad_balance_form)) <> "")
    by done.
  assert (H3 : c_password (createData (HandlersEnv.creating HandlersEnv.bad_balance_form)) <> "")
    by done.
  split; [exact H1|]. split; [exact H2|]. split; [exact H3|].
  destruct (handleCreateSubmit_balance (HandlersEnv.scripted HandlersEnv.healthy)
              0%nat _ H1 H2 H3)
    as (nu & Hc & _ & _ & _ & _ & _ & _ & _ & Hz & _).
  exists nu. split; [exact Hc|]. exact (Hz eq_refl).
Defined.

(** X17. When the three required fields are filled in: if the gateway
    answers falsy, [handleCreateSubmit] reloads nothing, keeps the form as
    typed and the modal as it is, and sets the error to "Failed to create
    user. Email might be taken."; if it answers truthy, the modal is
    closed, the form is back to its initial content, the error is
    cleared and the data is reloaded; if the gateway call rejects, the
    handler rejects with the same error. *)
Theorem handleCreateSubmit_outcome {W} (h : Handler AdminPanelHandlers.Resp W)
    (w : W) (st : State) :
  c_fullName (createData st) <> "" -> c_email (createData st) <> "" ->
  c_password (createData st) <> "" ->
  let create := AdminCreateUser (new_user_of (createData st)) in
  let answer := fst (h create (snd (h PreventDefault w))) in
  let r := run h (handleCreateSubmit st) w in
  (answer = inr false ->
   calls r = [PreventDefault; create]
   /\ exists st',
        outcome r = Returned st'
        /\ createError st' = Some "Failed to create user. Email might be taken."
        /\ createData st' = createData st
        /\ isCreateModalOpen st' = isCreateModalOpen st
        /\ users st' = users st /\ transactions st' = transactions st)
  /\ (answer = inr true ->
      (exists rest, calls r = PreventDefault :: create :: GetAllUsers :: rest)
      /\ exists st',
           outcome r = Returned st'
           /\ isCreateModalOpen st' = false
           /\ createData st' = initial_createData
           /\ createError st' = None)
  /\ (forall e, answer = inl e ->
      outcome r = Thrown e /\ calls r = [PreventDefault; create]).
Proof.
  intros H1 H2 H3. cbn zeta. unfold handleCreateSubmit. run_step.
  destruct (h PreventDefault w) as [x w0]. cbn [snd].
  rewrite (valid_form st H1 H2 H3). run_step.
  destruct (h (AdminCreateUser _) w0) as [[e|[]] w1]; cbn [fst]; run_step.
  - split; [done|]. split; [done|]. by intros ? [= <-].
  - split; [done|]. split; [|done]. intros _.
    rewrite run_loadData. cbn zeta.
    destruct (fst (h GetAllUsers w1)) as [e|us].
    + split; [eauto|]. eexists. by split.
    + destruct (fst (h GetAllTransactions _)) as [e|ts].
      * split; [eauto|]. eexists. by split.
      * split; [eauto|]. eexists. by split.
  - split; [|done]. intros _. split; [done|]. eexists. by split.
Qed.

Lemma handleCreateSubmit_outcome_witness :
  c_fullName (createData (HandlersEnv.creating HandlersEnv.jane_form)) <> ""
  /\ c_email (createData (HandlersEnv.creating HandlersEnv.jane_form)) <> ""
  /\ c_password (createData (HandlersEnv.creating HandlersEnv.jane_form)) <> ""
  /\ calls (run (HandlersEnv.scripted HandlersEnv.create_refused)
              (handleCreateSubmit (HandlersEnv.creating HandlersEnv.jane_form)) 0%nat)
     = [PreventDefault;
        AdminCreateUser
          (mkNewUser "Jane Doe" "jane@x.com" "" "secret1" (JS.Dec 5000 0) false true)].
Proof.
  assert (H1 : c_fullName (createData (HandlersEnv.creating HandlersEnv.jane_form)) <> "")
    by done.
  assert (H2 : c_email (createData (HandlersEnv.creating HandlersEnv.jane_form)) <> "")
    by done.
  assert (H3 : c_password (createData (HandlersEnv.creating HandlersEnv.jane_form)) <> "")
    by done.
  split; [exact H1|]. split; [exact H2|]. split; [exact H3|].
  destruct (handleCreateSubmit_outcome (HandlersEnv.scripted HandlersEnv.create_refused)
              0%nat _ H1 H2 H3) as (Hf & _).
  destruct (Hf eq_refl) as [Hc _]. exact Hc.
Defined.

Example create_user_success :
  run (HandlersEnv.scripted HandlersEnv.healthy)
    (handleCreateSubmit (HandlersEnv.creating HandlersEnv.jane_form)) 0%nat
  = mkRun
      (Returned
         (mkState TabUsers [] [PanelEnv.ann] [PanelEnv.trx1]
            [PanelEnv.trx1; PanelEnv.trx2; PanelEnv.trx3] ""
            false None "" OpAdd false initial_createData None))
      4%nat
      [PreventDefault;
       AdminCreateUser
         (mkNewUser "Jane Doe" "jane@x.com" "" "secret1" (JS.Dec 5000 0) false true);
       GetAllUsers; GetAllTransactions].
Proof. reflexivity. Qed.

(** X18. Choosing the status a transaction already has makes
    [handleStatusChange] call nothing at all, the reload included.
    Choosing another status calls the update of the transaction's type
    once, with the transaction's id and the chosen status, a deposit
    through [updateDepositStatus], a withdrawal through
    [updateWithdrawalStatus], a transfer through neither, and then
    reloads; when the update rejects, the handler rejects with the same
    error and does not reload. *)
Theorem handleStatusChange_dispatch {W} (h : Handler AdminPanelHandlers.Resp W)
    (w : W) (t : Transaction.t) (newStatus : TransactionStatus) (st : State) :
  let r := run h (handleStatusChange t newStatus st) w in
  (Transaction.status t = newStatus -> r = mkRun (Returned st) w [])
  /\ (Transaction.status t <> newStatus ->
      List.filter is_status_update (calls r) = status_update_of t newStatus
      /\ (forall c e, status_update_of t newStatus = [c] -> fst (h c w) = inl e ->
          outcome r = Thrown e /\ calls r = [c])
      /\ (forall c x, status_update_of t newStatus = [c] -> fst (h c w) = inr x ->
          exists rest, calls r = c :: GetAllUsers :: rest)
      /\ (status_update_of t newStatus = [] ->
          exists rest, calls r = GetAllUsers :: rest)).
Proof.
  cbn zeta. unfold handleStatusChange, status_update_of. split.
  - intros H. by rewrite bool_decide_eq_true_2.
  - intros H. rewrite bool_decide_eq_false_2 by done.
    destruct (Transaction.type t); run_step.
    + destruct (h (UpdateDepositStatus _ _) w) as [[e|[]] w1] eqn:E; run_step.
      * split; [done|]. split; [|split; [|done]].
        -- intros c e0 [= <-]. rewrite E. by intros [= <-].
        -- intros c x [= <-]. by rewrite E.
      * destruct (loadData_calls h w1 st) as (rest & Hc & Hf & _).
        rewrite Hc. cbn. rewrite Hf.
        split; [done|]. split; [|split; [|done]].
        -- intros c e0 [= <-]. by rewrite E.
        -- intros c x [= <-] _. by exists rest.
    + destruct (h (UpdateWithdrawalStatus _ _) w) as [[e|[]] w1] eqn:E; run_step.
      * split; [done|]. split; [|split; [|done]].
        -- intros c e0 [= <-]. rewrite E. by intros [= <-].
        -- intros c x [= <-]. by rewrite E.
      * destruct (loadData_calls h w1 st) as (rest & Hc & Hf & _).
        rewrite Hc. cbn. rewrite Hf.
        split; [done|]. split; [|split; [|done]].
        -- intros c e0 [= <-]. by rewrite E.
        -- intros c x [= <-] _. by exists rest.
    + destruct (loadData_calls h w st) as (rest & Hc & Hf & _).
      rewrite Hc. cbn. rewrite Hf.
      split; [done|]. split; [done|]. split; [done|]. intros _. by exists rest.
Qed.

Lemma handleStatusChange_dispatch_witness :
  Transaction.status PanelEnv.trx1 <> SUCCESS
  /\ List.filter is_status_update
       (calls (run (HandlersEnv.scripted HandlersEnv.healthy)
                 (handleStatusChange PanelEnv.trx1 SUCCESS PanelEnv.idle) 0%nat))
     = [UpdateDepositStatus "TRX-1" SUCCESS].
Proof.
  assert (Hne : Transaction.status PanelEnv.trx1 <> SUCCESS) by done.
  split; [exact Hne|].
  destruct (handleStatusChange_dispatch (HandlersEnv.scripted HandlersEnv.healthy)
              0%nat PanelEnv.trx1 SUCCESS PanelEnv.idle) as [_ H].
  destruct (H Hne) as [Hf _]. exact Hf.
Defined.

(** The status updates of a status change. *)
Lemma status_change_updates {W} (h : Handler AdminPanelHandlers.Resp W) (w : W)
    (t : Transaction.t) (newStatus : TransactionStatus) (st : State) :
  Transaction.status t <> newStatus ->
  List.filter is_status_update (calls (run h (handleStatusChange t newStatus st) w))
  = status_update_of t newStatus.
Proof.
  intros H. unfold handleStatusChange, status_update_of.
  rewrite bool_decide_eq_false_2 by done.
  destruct (Transaction.type t); run_step.
  - destruct (h (UpdateDepositStatus _ _) w) as [[e|[]] w1]; run_step; [done|].
    destruct (loadData_calls h w1 st) as (rest & Hc & Hf & _).
    rewrite Hc. cbn. by rewrite Hf.
  - destruct (h (UpdateWithdrawalStatus _ _) w) as [[e|[]] w1]; run_step; [done|].
    destruct (loadData_calls h w1 st) as (rest & Hc & Hf & _).
    rewrite Hc. cbn. by rewrite Hf.
  - destruct (loadData_calls h w st) as (rest & Hc & Hf & _).
    rewrite Hc. cbn. by rewrite Hf.
Qed.

(** X19. The selector and the handler together: for every transaction
    and every status its selector offers, other than the current one,
    choosing it makes exactly one status update, with the transaction's
    id and that status, through [updateDepositStatus] for a deposit and
    [updateWithdrawalStatus] for a withdrawal; a deposit is never sent
    CANCELLED or FAILED. *)
Theorem selector_choice_updates_once {W} (h : Handler AdminPanelHandlers.Resp W)
    (w : W) (t : Transaction.t) (s : TransactionStatus) (st : State) :
  s ∈ offered (action_cell t) ->
  s <> Transaction.status t ->
  let r := run h (handleStatusChange t s st) w in
  (Transaction.type t = DEPOSIT
   /\ List.filter is_status_update (calls r)
      = [UpdateDepositStatus (Transaction.id t) s]
   /\ s <> CANCELLED /\ s <> FAILED)
  \/ (Transaction.type t = WITHDRAWAL
      /\ List.filter is_status_update (calls r)
         = [UpdateWithdrawalStatus (Transaction.id t) s]).
Proof.
  intros Hin Hne. cbn zeta.
  rewrite status_change_updates by done.
  unfold status_update_of, action_cell in *.
  destruct (Transaction.type t); cbn in Hin.
  - left. repeat split; try done.
    all: intros ->; rewrite !elem_of_cons, elem_of_nil in Hin;
      by destruct Hin as [?|[?|[?|[]]]].
  - by right.
  - by apply elem_of_nil in Hin.
Qed.

Lemma selector_choice_updates_once_witness :
  FAILED ∈ offered (action_cell PanelEnv.trx2)
  /\ FAILED <> Transaction.status PanelEnv.trx2
  /\ List.filter is_status_update
       (calls (run (HandlersEnv.scripted HandlersEnv.healthy)
                 (handleStatusChange PanelEnv.trx2 FAILED PanelEnv.idle) 0%nat))
     = [UpdateWithdrawalStatus "TRX-2" FAILED].
Proof.
  assert (Hin : FAILED ∈ offered (action_cell PanelEnv.trx2)).
  { cbn. rewrite !elem_of_cons. tauto. }
  assert (Hne : FAILED <> Transaction.status PanelEnv.trx2) by done.
  split; [exact Hin|]. split; [exact Hne|].
  destruct (selector_choice_updates_once (HandlersEnv.scripted HandlersEnv.healthy)
              0%nat PanelEnv.trx2 FAILED PanelEnv.idle Hin Hne)
    as [(Hd & _)|(_ & Hc)]; [done|exact Hc].
Defined.

(** A text that parses is not empty. *)
Lemma parses_nonempty (s : string) :
  JS.isNaN (Parse.parseFloat s) = false -> JS.truthy (JS.Str s) = true.
Proof.
  intros H. destruct (JS.truthy (JS.Str s)) eqn:E; [done|].
  apply StrFacts.truthy_str in E. by subst s.
Qed.

(** What a submission of an amount that parses does. *)
Lemma run_handleBalanceSubmit_parsed {W} (h : Handler AdminPanel.Resp W) (w : W)
    (st : State) (u : User.t) :
  selectedUserForBalance st = Some u ->
  JS.isNaN (Parse.parseFloat (balanceAmount st)) = false ->
  let call :=
    AdminUpdateUserBalance (User.id u) (Parse.parseFloat (balanceAmount st))
      (balanceOperation st) in
  let w0 := snd (h AdminPanel.PreventDefault w) in
  run h (handleBalanceSubmit st) w =
    match fst (h call w0) with
    | inl e => mkRun (Thrown e) (snd (h call w0)) [AdminPanel.PreventDefault; call]
    | inr _ =>
        mkRun (Returned (close_balance_modal st))
          (snd (h LoadData (snd (h call w0))))
          [AdminPanel.PreventDefault; call; LoadData]
    end.
Proof.
  intros Hu Hp. cbn zeta. unfold handleBalanceSubmit. run_step. rewrite Hu.
  destruct (h AdminPanel.PreventDefault w) as [x w0]. cbn [snd].
  rewrite (parses_nonempty _ Hp), Hp. cbn [negb]. run_step.
  destruct (h (AdminUpdateUserBalance _ _ _) w0) as [[e|[]] w1]; cbn [fst snd];
    run_step; [done|].
  by destruct (h LoadData w1) as [y w2].
Qed.

(** The handler written setter by setter does what
    [AdminPanel.handleBalanceSubmit] does: against the same environment it
    makes the same outside calls, leaves the environment in the same state
    and ends the same way, and the state its setters leave is the state
    the other returns. *)
Lemma handleBalanceSubmit_setters_agree {W} (h : Handler AdminPanel.Resp W) (w : W)
    (st : State) :
  let r := run h (handleBalanceSubmit st) w in
  let r' := run (BalanceModal.with_setters h) (BalanceModal.handleBalanceSubmit st) w in
  omap BalanceModal.outside (calls r') = calls r
  /\ world r' = world r
  /\ match outcome r with
     | Returned st' =>
         outcome r' = Returned tt /\ BalanceModal.state_after st (calls r') = st'
     | Thrown e => outcome r' = Thrown e
     end.
Proof.
  cbn zeta. unfold handleBalanceSubmit, BalanceModal.handleBalanceSubmit.
  run_step. unfold BalanceModal.with_setters. cbn [BalanceModal.outside].
  destruct (h AdminPanel.PreventDefault w) as [x w0].
  destruct (selectedUserForBalance st) as [u|]; run_step; [|done].
  destruct (negb (JS.truthy (JS.Str (balanceAmount st)))); run_step; [done|].
  destruct (JS.isNaN (Parse.parseFloat (balanceAmount st))); run_step.
  - cbn [BalanceModal.outside].
    by destruct (h (AdminPanel.Alert _) w0) as [y w1].
  - cbn [BalanceModal.outside].
    destruct (h (AdminUpdateUserBalance _ _ _) w0) as [[e|[]] w1]; run_step; [done|].
    cbn [BalanceModal.outside].
    by destruct (h LoadData w1) as [y w2].
Qed.

(** X20. When the balance gateway call rejects, [handleBalanceSubmit]
    rejects with the same error straight after it: the data is not
    reloaded and none of the state setters runs, so the component's state
    is the one before the submission and the modal stays open with the
    user and the amount. *)
Theorem handleBalanceSubmit_rejected {W} (h : Handler BalanceModal.Resp W) (w : W)
    (st : State) (u : User.t) (e : JS.Error) :
  selectedUserForBalance st = Some u ->
  JS.isNaN (Parse.parseFloat (balanceAmount st)) = false ->
  let call :=
    BalanceModal.AdminUpdateUserBalance (User.id u)
      (Parse.parseFloat (balanceAmount st)) (balanceOperation st) in
  let r := run h (BalanceModal.handleBalanceSubmit st) w in
  fst (h call (snd (h BalanceModal.PreventDefault w))) = inl e ->
  outcome r = Thrown e
  /\ calls r = [BalanceModal.PreventDefault; call]
  /\ (BalanceModal.LoadData ∉ calls r)
  /\ List.filter BalanceModal.is_setter (calls r) = []
  /\ BalanceModal.state_after st (calls r) = st
  /\ (isBalanceModalOpen st = true ->
      balance_modal_rendered (BalanceModal.state_after st (calls r)) = true
      /\ selectedUserForBalance (BalanceModal.state_after st (calls r)) = Some u
      /\ balanceAmount (BalanceModal.state_after st (calls r)) = balanceAmount st).
Proof.
  intros Hu Hp call r He.
  assert (Hr : outcome r = Thrown e /\ calls r = [BalanceModal.PreventDefault; call]).
  { subst r. unfold BalanceModal.handleBalanceSubmit. run_step. rewrite Hu.
    destruct (h BalanceModal.PreventDefault w) as [x w0]. cbn [snd] in He.
    rewrite (parses_nonempty _ Hp), Hp. cbn [negb]. run_step. fold call.
    destruct (h call w0) as [[e'|[]] w1]; cbn [fst] in He; [|done].
    injection He as ->. by run_step. }
  destruct Hr as [Ho Hc]. rewrite Hc. split; [done|]. split; [done|].
  split. { rewrite !not_elem_of_cons. repeat split; try done. apply not_elem_of_nil. }
  split; [done|]. split; [done|].
  intros Hopen. subst call.
  cbn [BalanceModal.state_after foldl BalanceModal.apply_call].
  unfold balance_modal_rendered. rewrite Hopen, Hu. by repeat split.
Qed.

Lemma handleBalanceSubmit_rejected_witness :
  selectedUserForBalance (PanelEnv.editing "5000" OpSet) = Some PanelEnv.ann
  /\ JS.isNaN (Parse.parseFloat (balanceAmount (PanelEnv.editing "5000" OpSet))) = false
  /\ outcome (run BalanceModalEnv.rejecting
                (BalanceModal.handleBalanceSubmit (PanelEnv.editing "5000" OpSet)) 0%nat)
     = Thrown HandlersEnv.timeout
  /\ BalanceModal.state_after (PanelEnv.editing "5000" OpSet)
       (calls (run BalanceModalEnv.rejecting
                 (BalanceModal.handleBalanceSubmit (PanelEnv.editing "5000" OpSet))
                 0%nat))
     = PanelEnv.editing "5000" OpSet.
Proof.
  split; [reflexivity|]. split; [reflexivity|].
  destruct (handleBalanceSubmit_rejected BalanceModalEnv.rejecting 0%nat
              (PanelEnv.editing "5000" OpSet) PanelEnv.ann HandlersEnv.timeout
              eq_refl eq_refl eq_refl) as (Ho & _ & _ & _ & Hs & _).
  by split.
Defined.

(** The same submission against a gateway that resolves: the three
    setters run, in the order of the source, and close the modal. *)
Example handleBalanceSubmit_accepted_setters :
  let r := run BalanceModalEnv.accepting
             (BalanceModal.handleBalanceSubmit (PanelEnv.editing "5000" OpSet)) 0%nat in
  List.filter BalanceModal.is_setter (calls r)
  = [BalanceModal.SetIsBalanceModalOpen false;
     BalanceModal.SetSelectedUserForBalance None;
     BalanceModal.SetBalanceAmount ""]
  /\ BalanceModal.state_after (PanelEnv.editing "5000" OpSet) (calls r)
     = close_balance_modal (PanelEnv.editing "5000" OpSet)
  /\ balance_modal_rendered
       (BalanceModal.state_after (PanelEnv.editing "5000" OpSet) (calls r)) = false.
Proof. by repeat split. Qed.

(** X21. When the balance gateway call resolves, [handleBalanceSubmit]
    leaves the modal closed, with no selected user and an empty amount,
    and asks for a reload; submitting again from the state it leaves
    calls the gateway no more. *)
Theorem handleBalanceSubmit_closes {W} (h : Handler AdminPanel.Resp W) (w : W)
    (st : State) (u : User.t) :
  selectedUserForBalance st = Some u ->
  JS.isNaN (Parse.parseFloat (balanceAmount st)) = false ->
  let call :=
    AdminUpdateUserBalance (User.id u) (Parse.parseFloat (balanceAmount st))
      (balanceOperation st) in
  let r := run h (handleBalanceSubmit st) w in
  (exists x, fst (h call (snd (h AdminPanel.PreventDefault w))) = inr x) ->
  calls r = [AdminPanel.PreventDefault; call; LoadData]
  /\ exists st',
       outcome r = Returned st'
       /\ balance_modal_rendered st' = false
       /\ selectedUserForBalance st' = None
       /\ balanceAmount st' = ""
       /\ users st' = users st
       /\ forall W' (h' : Handler AdminPanel.Resp W') (w' : W'),
            calls (run h' (handleBalanceSubmit st') w') = [AdminPanel.PreventDefault].
Proof.
  intros Hu Hp call r [x Hx]. subst r.
  rewrite (run_handleBalanceSubmit_parsed h w st u Hu Hp). cbn zeta.
  fold call. rewrite Hx. cbn [calls outcome]. split; [done|].
  exists (close_balance_modal st). repeat split.
  intros W' h' w'. unfold handleBalanceSubmit. run_step.
  by destruct (h' AdminPanel.PreventDefault w') as [y w0].
Qed.

Lemma handleBalanceSubmit_closes_witness :
  selectedUserForBalance (PanelEnv.editing "5000" OpSet) = Some PanelEnv.ann
  /\ JS.isNaN (Parse.parseFloat (balanceAmount (PanelEnv.editing "5000" OpSet))) = false
  /\ calls (run PanelEnv.accepting
              (handleBalanceSubmit (PanelEnv.editing "5000" OpSet)) 0%nat)
     = [AdminPanel.PreventDefault;
        AdminUpdateUserBalance "u1" (JS.Dec 5000 0) OpSet; LoadData].
Proof.
  split; [reflexivity|]. split; [reflexivity|].
  destruct (handleBalanceSubmit_closes PanelEnv.accepting 0%nat
              (PanelEnv.editing "5000" OpSet) PanelEnv.ann eq_refl eq_refl)
    as [Hc _]; [by exists tt|].
  exact Hc.
Defined.

(** X22. Opening the balance modal for a user starts from a clean form,
    whatever was there before: the modal is on the page, the mode is
    "add" and the amount is empty, so submitting at once calls nothing
    but [preventDefault]; after typing an amount that parses, submitting
    calls the gateway once, for the user the modal was opened for, with
    that amount and the mode "add". *)
Theorem openBalanceModal_then_submit {W} (h : Handler AdminPanel.Resp W) (w : W)
    (st : State) (u : User.t) (amount : string) :
  let opened := openBalanceModal u st in
  balance_modal_rendered opened = true
  /\ calls (run h (handleBalanceSubmit opened) w) = [AdminPanel.PreventDefault]
  /\ (JS.isNaN (Parse.parseFloat amount) = false ->
      List.filter is_balance_update
        (calls (run h (handleBalanceSubmit (setBalanceAmount amount opened)) w))
      = [AdminUpdateUserBalance (User.id u) (Parse.parseFloat amount) OpAdd]).
Proof.
  cbn zeta. split; [done|]. split.
  - unfold handleBalanceSubmit. run_step.
    by destruct (h AdminPanel.PreventDefault w) as [y w0].
  - intros Hp.
    rewrite (run_handleBalanceSubmit_parsed h w
               (setBalanceAmount amount (openBalanceModal u st)) u eq_refl Hp).
    cbn zeta. by destruct (fst (h _ _)).
Qed.

Lemma openBalanceModal_then_submit_witness :
  JS.isNaN (Parse.parseFloat "250.5") = false
  /\ List.filter is_balance_update
       (calls (run PanelEnv.accepting
                 (handleBalanceSubmit
                    (setBalanceAmount "250.5"
                       (openBalanceModal PanelEnv.bob (PanelEnv.editing "9" OpSet))))
                 0%nat))
     = [AdminUpdateUserBalance "u2" (JS.Dec 2505 (-1)) OpAdd].
Proof.
  split; [reflexivity|].
  destruct (openBalanceModal_then_submit PanelEnv.accepting 0%nat
              (PanelEnv.editing "9" OpSet) PanelEnv.bob "250.5") as (_ & _ & H).
  exact (H eq_refl).
Defined.
End AdminPanelMore.

(** ** More on the transaction table *)

Module SearchMore.
Import AdminPanel AdminPanelHandlers ConsoleSpec StrFacts.

Lemma string_app_assoc (a b c : string) : (a +:+ b) +:+ c = a +:+ (b +:+ c).
Proof.
  induction a as [|x a IH]; [done|]. by rewrite !string_app_cons, IH.
Qed.

Lemma substring_trans (a b c : string) :
  substring a b -> substring b c -> substring a c.
Proof.
  intros (p1 & q1 & ->) (p2 & q2 & ->).
  exists (p2 +:+ p1), (q1 +:+ q2). by rewrite !string_app_assoc.
Qed.

Lemma whitespace_only_app (a b : string) :
  whitespace_only (a +:+ b) <-> whitespace_only a /\ whitespace_only b.
Proof.
  induction a as [|x a IH].
  - change ("" +:+ b) with b. cbn. tauto.
  - rewrite string_app_cons. cbn [whitespace_only]. rewrite IH. tauto.
Qed.

Lemma whitespace_only_substring (a b : string) :
  substring a b -> whitespace_only b -> whitespace_only a.
Proof.
  intros (p & q & ->) H.
  apply whitespace_only_app in H as [_ H]. by apply whitespace_only_app in H as [H _].
Qed.

Lemma is_space_lower_char (c : ascii) : Str.is_space (Str.lower_char c) = Str.is_space c.
Proof. by destruct c as [[] [] [] [] [] [] [] []]. Qed.

Lemma whitespace_only_lower (s : string) :
  whitespace_only (Str.toLowerCase s) <-> whitespace_only s.
Proof.
  induction s as [|c s IH]; [done|]. cbn. by rewrite is_space_lower_char, IH.
Qed.

Lemma filter_sublist_impl {A} (f g : A -> bool) (l : list A) :
  (forall x, f x = true -> g x = true) ->
  sublist (List.filter f l) (List.filter g l).
Proof.
  intros H. induction l as [|a l IH]; cbn; [constructor|].
  destruct (f a) eqn:E.
  - rewrite (H a E). by constructor.
  - destruct (g a); [by constructor|done].
Qed.

(** X23. Searching for a user id gives a result that contains every
    transaction of the list that belongs to that user. *)
Theorem search_by_user_id (s : string) (ts : list Transaction.t) (us : list User.t)
    (t : Transaction.t) :
  t ∈ ts -> Transaction.userId t = s -> t ∈ search s ts us.
Proof.
  intros Ht <-. destruct (whitespace_only_dec (Transaction.userId t)) as [Hs|Hs].
  - by rewrite AdminPanelFacts.search_blank.
  - rewrite (AdminPanelFacts.search_nonblank _ _ _ Hs), elem_of_filter_bool.
    split; [done|]. apply AdminPanelFacts.trx_matches_spec.
    right; left. apply ci_substring_refl.
Qed.

Lemma search_by_user_id_witness :
  PanelEnv.trx3 ∈ [PanelEnv.trx1; PanelEnv.trx2; PanelEnv.trx3]
  /\ Transaction.userId PanelEnv.trx3 = "u2"
  /\ PanelEnv.trx3
     ∈ search "u2" [PanelEnv.trx1; PanelEnv.trx2; PanelEnv.trx3]
         [PanelEnv.ann; PanelEnv.bob].
Proof.
  assert (Hin : PanelEnv.trx3 ∈ [PanelEnv.trx1; PanelEnv.trx2; PanelEnv.trx3]).
  { rewrite !elem_of_cons. tauto. }
  split; [exact Hin|]. split; [reflexivity|].
  exact (search_by_user_id "u2" _ [PanelEnv.ann; PanelEnv.bob] PanelEnv.trx3
           Hin eq_refl).
Defined.

(** X24. A narrower search string never adds results: when the
    lower-case form of the search string [s] occurs in the lower-case
    form of the search string [s'], the result for [s'] is a sublist of
    the result for [s]. *)
Theorem search_narrows (s s' : string) (ts : list Transaction.t) (us : list User.t) :
  substring (Str.toLowerCase s) (Str.toLowerCase s') ->
  sublist (search s' ts us) (search s ts us).
Proof.
  intros Hl. destruct (whitespace_only_dec s) as [Hs|Hs].
  - rewrite (AdminPanelFacts.search_blank s) by done.
    destruct (whitespace_only_dec s') as [Hs'|Hs'].
    + by rewrite AdminPanelFacts.search_blank.
    + rewrite (AdminPanelFacts.search_nonblank _ _ _ Hs'). apply filter_sublist.
  - assert (Hs' : ~ whitespace_only s').
    { intros H. apply Hs. apply whitespace_only_lower.
      apply (whitespace_only_substring _ _ Hl). by apply whitespace_only_lower. }
    rewrite (AdminPanelFacts.search_nonblank _ _ _ Hs),
      (AdminPanelFacts.search_nonblank _ _ _ Hs').
    apply filter_sublist_impl. intros t.
    rewrite !AdminPanelFacts.trx_matches_spec. unfold matches, ci_substring.
    intros [H|[H|(u & Hu & [H|H])]].
    + left. by apply (substring_trans _ _ _ Hl).
    + right; left. by apply (substring_trans _ _ _ Hl).
    + right; right. exists u. split; [done|]. left.
      by apply (substring_trans _ _ _ Hl).
    + right; right. exists u. split; [done|]. right.
      by apply (substring_trans _ _ _ Hl).
Qed.

Lemma search_narrows_witness :
  substring (Str.toLowerCase "trx") (Str.toLowerCase "TRX-2")
  /\ sublist
       (search "TRX-2" [PanelEnv.trx1; PanelEnv.trx2; PanelEnv.trx3]
          [PanelEnv.ann; PanelEnv.bob])
       (search "trx" [PanelEnv.trx1; PanelEnv.trx2; PanelEnv.trx3]
          [PanelEnv.ann; PanelEnv.bob]).
Proof.
  assert (Hs : substring (Str.toLowerCase "trx") (Str.toLowerCase "TRX-2"))
    by (by exists "", "-2").
  split; [exact Hs|].
  exact (search_narrows "trx" "TRX-2" _ _ Hs).
Defined.

Example search_narrows_results :
  search "trx" [PanelEnv.trx1; PanelEnv.trx2; PanelEnv.trx3]
    [PanelEnv.ann; PanelEnv.bob]
  = [PanelEnv.trx1; PanelEnv.trx2; PanelEnv.trx3]
  /\ search "TRX-2" [PanelEnv.trx1; PanelEnv.trx2; PanelEnv.trx3]
       [PanelEnv.ann; PanelEnv.bob]
     = [PanelEnv.trx2].
Proof. split; reflexivity. Qed.

(** X25. The search does not depend on the letter case of the search
    string: two strings with the same lower-case form give the same
    result. *)
Theorem search_case_insensitive (s s' : string) (ts : list Transaction.t)
    (us : list User.t) :
  Str.toLowerCase s = Str.toLowerCase s' -> search s ts us = search s' ts us.
Proof.
  intros Heq.
  assert (Hw : whitespace_only s <-> whitespace_only s').
  { by rewrite <- (whitespace_only_lower s), Heq, whitespace_only_lower. }
  destruct (whitespace_only_dec s) as [Hs|Hs].
  - rewrite !AdminPanelFacts.search_blank; [done|by apply Hw|done].
  - assert (Hs' : ~ whitespace_only s') by (by rewrite <- Hw).
    by rewrite (AdminPanelFacts.search_nonblank _ _ _ Hs),
      (AdminPanelFacts.search_nonblank _ _ _ Hs'), Heq.
Qed.

Lemma search_case_insensitive_witness :
  Str.toLowerCase "Bob RAY" = Str.toLowerCase "bob ray"
  /\ search "Bob RAY" [PanelEnv.trx1; PanelEnv.trx2; PanelEnv.trx3]
       [PanelEnv.ann; PanelEnv.bob]
     = search "bob ray" [PanelEnv.trx1; PanelEnv.trx2; PanelEnv.trx3]
         [PanelEnv.ann; PanelEnv.bob].
Proof.
  split; [reflexivity|].
  exact (search_case_insensitive "Bob RAY" "bob ray" _ _ eq_refl).
Defined.

Lemma split_lacks (c : ascii) (a : string) :
  Str.lacks c a = true -> Str.split c a = [a].
Proof.
  induction a as [|x a IH]; [done|]. cbn.
  intros [Hx Ha]%andb_true_iff. apply negb_true_iff in Hx. rewrite Hx.
  by rewrite (IH Ha).
Qed.

Lemma split_app (c : ascii) (a b : string) :
  Str.lacks c a = true ->
  exists p ps, Str.split c b = p :: ps
    /\ Str.split c (a +:+ String c b) = a :: p :: ps.
Proof.
  intros Ha.
  assert (Hb : exists p ps, Str.split c b = p :: ps).
  { destruct b as [|y b]; cbn; [eauto|].
    destruct (Ascii.eqb y c); [eauto|]. destruct (Str.split c b); eauto. }
  destruct Hb as (p & ps & Hb). exists p, ps. split; [done|].
  induction a as [|x a IH].
  - change ("" +:+ String c b) with (String c b).
    cbn. by rewrite Ascii.eqb_refl, Hb.
  - cbn in Ha. apply andb_true_iff in Ha as [Hx Ha]. apply negb_true_iff in Hx.
    rewrite string_app_cons. cbn [Str.split]. by rewrite Hx, (IH Ha).
Qed.

Lemma remove_first_last (c : ascii) (a : string) :
  Str.lacks c a = true -> remove_first c (a +:+ String c "") = a.
Proof.
  induction a as [|x a IH].
  - intros _. change ("" +:+ String c "") with (String c "").
    cbn. by rewrite Ascii.eqb_refl.
  - cbn [Str.lacks]. intros [Hx Ha]%andb_true_iff. apply negb_true_iff in Hx.
    rewrite string_app_cons. cbn. by rewrite Hx, (IH Ha).
Qed.

Lemma lacks_app (c : ascii) (a b : string) :
  Str.lacks c (a +:+ b) = Str.lacks c a && Str.lacks c b.
Proof.
  induction a as [|x a IH]; [done|].
  rewrite string_app_cons. cbn. by rewrite IH, andb_assoc.
Qed.

(** X26. The user cell of a transaction row shows a known owner as
    written: when neither the full name nor the email of the owner (the
    first user of the list with the transaction's owner id; with distinct
    ids, the user of the list with that id) contains a parenthesis, the
    first line is the full name followed by a space and the second line
    is the email. When no user of the list has the owner id, the first
    line is the owner id, when that has no opening parenthesis, and there
    is no second line. *)
Theorem user_cell_shows_owner (us : list User.t) (t : Transaction.t) :
  (forall u, owner_of us t u ->
     Str.lacks "(" (User.fullName u) = true ->
     Str.lacks "(" (User.email u) = true ->
     Str.lacks ")" (User.email u) = true ->
     user_cell_name us t = Some (User.fullName u +:+ " ")
     /\ user_cell_email us t = Some (User.email u))
  /\ (NoDup (User.id <$> us) ->
      forall u, u ∈ us -> User.id u = Transaction.userId t ->
        Str.lacks "(" (User.fullName u) = true ->
        Str.lacks "(" (User.email u) = true ->
        Str.lacks ")" (User.email u) = true ->
        user_cell_name us t = Some (User.fullName u +:+ " ")
        /\ user_cell_email us t = Some (User.email u))
  /\ (no_owner us t ->
      Str.lacks "(" (Transaction.userId t) = true ->
      user_cell_name us t = Some (Transaction.userId t)
      /\ user_cell_email us t = None).
Proof.
  assert (Hknown : forall u, owner_of us t u ->
            Str.lacks "(" (User.fullName u) = true ->
            Str.lacks "(" (User.email u) = true ->
            Str.lacks ")" (User.email u) = true ->
            user_cell_name us t = Some (User.fullName u +:+ " ")
            /\ user_cell_email us t = Some (User.email u)).
  { unfold user_cell_name, user_cell_email, getUserDetails.
    intros u Hu%AdminPanelFacts.find_user_owner Hn He1 He2. rewrite Hu.
    assert (Hshape : User.fullName u +:+ " (" +:+ User.email u +:+ ")"
                     = (User.fullName u +:+ " ")
                       +:+ String "(" (User.email u +:+ String ")" "")).
    { by rewrite string_app_assoc. }
    rewrite Hshape.
    assert (Hl : Str.lacks "(" (User.fullName u +:+ " ") = true).
    { by rewrite lacks_app, Hn. }
    destruct (split_app "(" _ (User.email u +:+ String ")" "") Hl)
      as (p & ps & Hb & ->).
    rewrite split_lacks in Hb by (by rewrite lacks_app, He1).
    injection Hb as <- <-. cbn. split; [done|].
    by rewrite remove_first_last. }
  split; [exact Hknown|]. split.
  - intros Hnd u Hin Hid. apply Hknown.
    by apply AdminPanelFacts.owner_of_unique.
  - unfold user_cell_name, user_cell_email, getUserDetails.
    intros Hno%AdminPanelFacts.find_user_no_owner Hl. rewrite Hno.
    by rewrite split_lacks.
Qed.

Lemma user_cell_shows_owner_witness :
  NoDup (User.id <$> [PanelEnv.ann; PanelEnv.bob])
  /\ PanelEnv.bob ∈ [PanelEnv.ann; PanelEnv.bob]
  /\ User.id PanelEnv.bob = Transaction.userId PanelEnv.trx2
  /\ user_cell_name [PanelEnv.ann; PanelEnv.bob] PanelEnv.trx2 = Some "Bob Ray "
  /\ user_cell_email [PanelEnv.ann; PanelEnv.bob] PanelEnv.trx2 = Some "bob@x.com".
Proof.
  assert (Hnd : NoDup (User.id <$> [PanelEnv.ann; PanelEnv.bob])).
  { cbn. apply NoDup_cons. split.
    - by intros [= ]%list_elem_of_singleton.
    - apply NoDup_singleton. }
  assert (Hu : PanelEnv.bob ∈ [PanelEnv.ann; PanelEnv.bob]).
  { apply list_elem_of_further, list_elem_of_here. }
  split; [exact Hnd|]. split; [exact Hu|]. split; [reflexivity|].
  destruct (user_cell_shows_owner [PanelEnv.ann; PanelEnv.bob] PanelEnv.trx2)
    as (_ & H & _).
  exact (H Hnd PanelEnv.bob Hu eq_refl eq_refl eq_refl eq_refl).
Defined.

(** A full name with a parenthesis is cut at it. *)
Example user_cell_parenthesis :
  let al := User.mk "u9" "al@x.com" "Al (Jr)" "al" "" false true (JS.ofZ 0) None in
  let t := Transaction.mk "TRX-9" "u9" DEPOSIT (JS.ofZ 1) PENDING "" in
  user_cell_name [al] t = Some "Al " /\ user_cell_email [al] t = Some "Jr ".
Proof. split; reflexivity. Qed.

End SearchMore.

(** ** The bank-account list *)

Module BankListFacts.
Import AdminPanel BankList.

Lemma filter_index_from_delete {A} (i index : nat) (l : list A) :
  filter_index_from i index l =
    if (index <? i)%nat then l else delete (index - i)%nat l.
Proof.
  revert i. induction l as [|x l IH]; intros i.
  - destruct (index <? i)%nat; reflexivity.
  - cbn [filter_index_from]. rewrite IH.
    destruct (Nat.eqb_spec i index) as [->|Hne].
    + rewrite Nat.sub_diag.
      destruct (Nat.ltb_spec index (S index)); [|lia].
      by destruct (Nat.ltb_spec index index); [lia|].
    + destruct (Nat.ltb_spec index i) as [Hlt|Hge].
      * by destruct (Nat.ltb_spec index (S i)); [|lia].
      * destruct (Nat.ltb_spec index (S i)); [lia|].
        by replace (index - i)%nat with (S (index - S i)) by lia.
Qed.

(** X27. [removeBank(index)] removes the entry at [index] and keeps the
    others in order; past the end it changes nothing. Adding an account
    and then removing the last entry gives back the list as it was. The
    context's list is not touched by either. *)
Theorem removeBank_addBank (index : nat) (b : Banks) :
  bankList (removeBank index b) = delete index (bankList b)
  /\ (index < length (bankList b) ->
      S (length (bankList (removeBank index b))) = length (bankList b))%nat
  /\ (length (bankList b) <= index ->
      bankList (removeBank index b) = bankList b)%nat
  /\ bankList (removeBank (length (bankList b)) (addBank b)) = bankList b
  /\ length (bankList (addBank b)) = S (length (bankList b))
  /\ companyBankInfoList (removeBank index b) = companyBankInfoList b
  /\ companyBankInfoList (addBank b) = companyBankInfoList b.
Proof.
  assert (Hd : forall i (bb : Banks),
             bankList (removeBank i bb) = delete i (bankList bb)).
  { intros i bb. unfold removeBank. cbn.
    by rewrite filter_index_from_delete, Nat.sub_0_r. }
  split; [apply Hd|]. split; [|split; [|split; [|split]]].
  - intros Hlt. rewrite Hd. rewrite length_delete by (by apply lookup_lt_is_Some).
    lia.
  - intros Hge. rewrite Hd, delete_take_drop.
    rewrite take_ge by done. rewrite drop_ge by lia. apply app_nil_r.
  - rewrite Hd. cbn.
    rewrite delete_middle. by rewrite app_nil_r.
  - cbn. rewrite length_app. cbn. lia.
  - done.
Qed.

Lemma removeBank_addBank_witness :
  (1 < length (bankList (sync_effect BankEnv.two_banks)))%nat
  /\ bankList (removeBank 0 (sync_effect BankEnv.two_banks)) = [1%nat].
Proof.
  split; [cbn; lia|].
  destruct (removeBank_addBank 0 (sync_effect BankEnv.two_banks)) as [H _].
  exact H.
Defined.

Lemma get_set_field (field field' : BankField) (value : string)
    (bank : CompanyBankInfo) :
  get_field field (set_field field value bank) = value
  /\ (field' <> field ->
      get_field field' (set_field field value bank) = get_field field' bank).
Proof. by destruct field, field'. Qed.

(** X28. [handleBankChange(index, field, value)] with an index inside the
    list writes [value] into that field of the object at [index] and
    changes nothing else: the other fields of the object, every other
    object, and the references of both lists stay as they are. With an
    index past the end it throws and changes nothing. *)
Theorem handleBankChange_in_place (index : nat) (field : BankField) (value : string)
    (b : Banks) :
  (forall r bank, bankList b !! index = Some r -> store b !! r = Some bank ->
     exists b',
       handleBankChange index field value b = inr b'
       /\ bankList b' = bankList b
       /\ companyBankInfoList b' = companyBankInfoList b
       /\ store b' !! r = Some (set_field field value bank)
       /\ get_field field (set_field field value bank) = value
       /\ (forall field', field' <> field ->
           get_field field' (set_field field value bank) = get_field field' bank)
       /\ (forall r', r' <> r -> store b' !! r' = store b !! r'))
  /\ (length (bankList b) <= index ->
      exists e, handleBankChange index field value b = inl e)%nat.
Proof.
  unfold handleBankChange. split.
  - intros r bank Hr Hb. rewrite Hr. eexists. split; [done|]. cbn.
    split; [done|]. split; [done|].
    split; [by rewrite lookup_alter_eq, Hb|].
    split; [apply (get_set_field field field)|].
    split; [intros f' Hf; by apply get_set_field|].
    intros r' Hne. by rewrite lookup_alter_ne.
  - intros Hge. rewrite (lookup_ge_None_2 _ _ Hge). eauto.
Qed.

Lemma handleBankChange_in_place_witness :
  bankList (sync_effect BankEnv.two_banks) !! 1%nat = Some 1%nat
  /\ store (sync_effect BankEnv.two_banks) !! 1%nat = Some BankEnv.bni
  /\ exists b',
       handleBankChange 1 AccountNumber "789" (sync_effect BankEnv.two_banks) = inr b'
       /\ store b' !! 1%nat = Some (mkBank "BNI" "789" "PT Forex").
Proof.
  split; [reflexivity|]. split; [reflexivity|].
  destruct (handleBankChange_in_place 1 AccountNumber "789"
              (sync_effect BankEnv.two_banks)) as [H _].
  destruct (H 1%nat BankEnv.bni eq_refl eq_refl) as (b' & Hb & _ & _ & Hs & _).
  exists b'. split; [exact Hb|exact Hs].
Defined.

(** X29. The objects of the list are shared with the context. Once the
    component's list has been set from the context's list, an edit of a
    field by [handleBankChange] shows in the context's list at once,
    without [handleUpdateBankInfo]; an account added by [addBank] does
    not show there until it is saved, and saving makes the context's
    list the component's. *)
Theorem handleBankChange_reaches_context (index : nat) (field : BankField)
    (value : string) (b : Banks) (r : Ref) (bank : CompanyBankInfo) :
  companyBankInfoList b !! index = Some r ->
  store b !! r = Some bank ->
  (forall r', r' ∈ companyBankInfoList b -> is_Some (store b !! r')) ->
  (exists b',
     handleBankChange index field value (sync_effect b) = inr b'
     /\ view (store b') (companyBankInfoList b') !! index
        = Some (Some (set_field field value bank)))
  /\ view (store (addBank (sync_effect b))) (companyBankInfoList (addBank (sync_effect b)))
     = view (store b) (companyBankInfoList b)
  /\ companyBankInfoList (handleUpdateBankInfo (addBank (sync_effect b)))
     = (companyBankInfoList b ++ [new_ref (store b)])%list.
Proof.
  intros Hr Hb Hwf. split; [|split].
  - unfold handleBankChange, sync_effect. cbn. rewrite Hr.
    eexists. split; [done|]. cbn. unfold view.
    rewrite list_lookup_fmap, Hr. cbn. by rewrite lookup_alter_eq, Hb.
  - cbn. unfold view. apply list_fmap_ext. intros i r' Hi.
    rewrite lookup_insert_ne; [done|].
    intros <-. assert (Hin : new_ref (store b) ∈ companyBankInfoList b).
    { apply list_elem_of_lookup. eauto. }
    apply Hwf in Hin. apply elem_of_dom in Hin.
    by apply (is_fresh (dom (store b))).
  - done.
Qed.

Lemma handleBankChange_reaches_context_witness :
  companyBankInfoList BankEnv.two_banks !! 0%nat = Some 0%nat
  /\ store BankEnv.two_banks !! 0%nat = Some BankEnv.bca
  /\ exists b',
       handleBankChange 0 BankName "Mandiri" (sync_effect BankEnv.two_banks) = inr b'
       /\ view (store b') (companyBankInfoList b') !! 0%nat
          = Some (Some (mkBank "Mandiri" "123" "PT Forex")).
Proof.
  split; [reflexivity|]. split; [reflexivity|].
  assert (Hwf : forall r', r' ∈ companyBankInfoList BankEnv.two_banks ->
                  is_Some (store BankEnv.two_banks !! r')).
  { intros r'. cbn. rewrite !elem_of_cons, elem_of_nil.
    intros [->|[->|[]]]; by eexists. }
  destruct (handleBankChange_reaches_context 0 BankName "Mandiri" BankEnv.two_banks
              0%nat BankEnv.bca eq_refl eq_refl Hwf) as [(b' & Hb & Hv) _].
  exists b'. split; [exact Hb|exact Hv].
Defined.

End BankListFacts.
